(** * CIAD manifest digitizer: a shallow embedding of [manifest_digitizer.py]

    The development follows the Python script top-down:
    - [Py]: the fragment of Python's data model the script relies on
      (JSON values as decoded by [response.json()], truthiness, [dict.get],
      [a or b], [str.strip], [str.lower], exceptions);
    - [Normalizer]: [clean_numeric_value] and [format_date], with the two
      regular expressions they run ([re.search] of the numeral pattern and
      the pattern [datetime.strptime] compiles for the two date formats);
    - section [Digitizer]: the class [CIADManifestDigitizer] over an
      abstract backend, clock, float printer and set iteration order,
      written in a small state-and-exception monad that records every
      HTTP exchange; then the vocabulary of the specification, and the
      properties of each component;
    - the properties at work on sample data.

    Modelling choices:
    - text is ASCII: a Python [str] is a Rocq [string], scanned as a
      [list ascii]; the digit and whitespace classes are the ASCII ones;
    - a Python [float] is an IEEE-754 binary64 value, [spec_float] with
      precision 53 and maximal exponent 1024;
    - [_make_request] returns what [response.json()] decoded, any JSON
      value, whatever its annotation says; a body that [requests] cannot
      serialise gets no answer and does not reach the backend;
    - the data frame is what [pd.read_csv] returned, a list of rows;
    - log lines are not modelled. *)

From Stdlib Require Import ZArith List String Ascii Bool Lia.
From Stdlib Require Import Floats.SpecFloat.
From Stdlib Require Import DecimalString.
From stdpp Require Import base gmap strings list.

Local Open Scope Z_scope.

(* ===================================================================== *)
(** * The Python fragment                                                 *)
(* ===================================================================== *)

Module Py.

(** ** Floats *)

Definition float := spec_float.
Definition prec : Z := 53.
Definition emax : Z := 1024.

Definition f_zero : float := S754_zero false.
Definition f_add : float -> float -> float := SFadd prec emax.
Definition f_div : float -> float -> float := SFdiv prec emax.
Definition f_eqb : float -> float -> bool := SFeqb.
Definition f_ltb : float -> float -> bool := SFltb.

(** [float(n)] for an integer [n]: the nearest binary64 value. *)
Definition float_of_Z (n : Z) : float := binary_normalize prec emax n 0 false.

Definition f_is_nan (f : float) : bool :=
  match f with S754_nan => true | _ => false end.

Definition f_is_zero (f : float) : bool :=
  match f with S754_zero _ => true | _ => false end.

(** ** Values decoded from JSON, and the bodies sent back *)

#[local] Unset Elimination Schemes.
Inductive json : Type :=
| JNone
| JBool (b : bool)
| JInt (z : Z)
| JFloat (f : float)
| JStr (s : string)
| JList (l : list json)
| JDict (d : list (string * json)).
#[local] Set Elimination Schemes.

(** A Python [dict] with string keys; the first binding of a key is the
    one a lookup sees. *)
Definition dict : Type := list (string * json).

(** [bool(v)]: what [if v:] and [not v] test. *)
Definition truthy (v : json) : bool :=
  match v with
  | JNone => false
  | JBool b => b
  | JInt z => negb (z =? 0)
  | JFloat f => negb (f_is_zero f)
  | JStr s => negb (String.eqb s EmptyString)
  | JList l => match l with [] => false | _ => true end
  | JDict d => match d with [] => false | _ => true end
  end.

Fixpoint assoc (d : dict) (k : string) : option json :=
  match d with
  | [] => None
  | (k', v) :: d' => if String.eqb k' k then Some v else assoc d' k
  end.

(** [d.get(k)]: the value, or [None] when the key is missing. *)
Definition dict_get (d : dict) (k : string) : json :=
  match assoc d k with
  | Some v => v
  | None => JNone
  end.

(** [a or b] *)
Definition py_or (a b : json) : json := if truthy a then a else b.

Definition f_is_finite (f : float) : bool :=
  match f with
  | S754_zero _ | S754_finite _ _ _ => true
  | _ => false
  end.

(** [json.dumps(v, allow_nan=False)] succeeds: no float in [v] is
    infinite or NaN. *)
Fixpoint json_finite (v : json) : bool :=
  match v with
  | JFloat f => f_is_finite f
  | JList l => forallb json_finite l
  | JDict d => forallb (fun kv => let '(_, x) := kv in json_finite x) d
  | _ => true
  end.

(** [requests] can serialise the JSON body of a request, if it has one. *)
Definition serialisable (data : option dict) : bool :=
  match data with
  | Some d => json_finite (JDict d)
  | None => true
  end.

(** ** Exceptions *)

Inductive exn : Type :=
| KeyError (k : string)
| AttributeError
| ValueError
| TypeError.

Inductive result (A : Type) : Type :=
| Ok (a : A)
| Raise (e : exn).
Arguments Ok {A} a.
Arguments Raise {A} e.

(** [v.get(k)] on an arbitrary decoded value: only a [dict] has [.get]. *)
Definition py_get (v : json) (k : string) : result json :=
  match v with
  | JDict d => Ok (dict_get d k)
  | _ => Raise AttributeError
  end.

(** [v[k]] on an arbitrary decoded value, for a string key. *)
Definition py_item (v : json) (k : string) : result json :=
  match v with
  | JDict d => match assoc d k with
               | Some x => Ok x
               | None => Raise (KeyError k)
               end
  | _ => Raise TypeError
  end.

(** ** Characters and strings *)

Definition code (c : ascii) : Z := Z.of_N (N_of_ascii c).

(** [\d] *)
Definition is_digit (c : ascii) : bool := (48 <=? code c) && (code c <=? 57).

(** What [str.strip()] removes: TAB, LF, VT, FF, CR, FS, GS, RS, US, SPACE. *)
Definition is_space (c : ascii) : bool :=
  ((9 <=? code c) && (code c <=? 13)) ||
  ((28 <=? code c) && (code c <=? 32)).

Definition lower_char (c : ascii) : ascii :=
  if (65 <=? code c) && (code c <=? 90)
  then ascii_of_N (Z.to_N (code c + 32))
  else c.

Fixpoint lstrip (l : list ascii) : list ascii :=
  match l with
  | c :: r => if is_space c then lstrip r else l
  | [] => []
  end.

Definition strip_chars (l : list ascii) : list ascii :=
  rev (lstrip (rev (lstrip l))).

(** [s.strip()] *)
Definition strip (s : string) : string :=
  string_of_list_ascii (strip_chars (list_ascii_of_string s)).

Definition upper_char (c : ascii) : ascii :=
  if (97 <=? code c) && (code c <=? 122)
  then ascii_of_N (Z.to_N (code c - 32))
  else c.

(** [s.upper()] *)
Definition upper (s : string) : string :=
  string_of_list_ascii (map upper_char (list_ascii_of_string s)).

(** [s.lower()] *)
Definition lower (s : string) : string :=
  string_of_list_ascii (map lower_char (list_ascii_of_string s)).

(** [sub in s] for a one-character [sub]. *)
Definition contains_char (c : ascii) (l : list ascii) : bool :=
  existsb (Ascii.eqb c) l.

Fixpoint is_prefix (p l : list ascii) : bool :=
  match p, l with
  | [], _ => true
  | a :: p', b :: l' => Ascii.eqb a b && is_prefix p' l'
  | _ :: _, [] => false
  end.

(** [sub in s] *)
Fixpoint contains (sub l : list ascii) : bool :=
  is_prefix sub l ||
  match l with
  | [] => false
  | _ :: r => contains sub r
  end.

(** [str(n)] for an integer. *)
Definition str_of_Z (n : Z) : string := NilZero.string_of_int (Z.to_int n).

Definition digit_val (c : ascii) : Z := code c - 48.

(** [int(s)] for a run of digits. *)
Definition int_of_digits (l : list ascii) : Z :=
  fold_left (fun acc c => 10 * acc + digit_val c) l 0.

Definition digit_char (d : Z) : ascii := ascii_of_N (Z.to_N (48 + d)).

(** The [width] low decimal digits of [n], most significant first: what
    ["%0<width>d" % n] prints for [0 <= n < 10 ^ width]. *)
Fixpoint pad_digits (width : nat) (n : Z) : list ascii :=
  match width with
  | O => []
  | S w => pad_digits w (n / 10) ++ [digit_char (n mod 10)]
  end.

End Py.

Import Py.

(* ===================================================================== *)
(** * Value normalizer                                                    *)
(* ===================================================================== *)

Module Normalizer.

(** ** Backtracking matchers

    A matcher returns every way of matching at the head of the input, in
    the order Python's [re] tries them; the first element is the match
    [re] reports. *)

Definition matcher (A : Type) : Type := list ascii -> list (A * list ascii).

Definition m_ret {A} (a : A) : matcher A := fun l => [(a, l)].

Definition m_bind {A B} (m : matcher A) (k : A -> matcher B) : matcher B :=
  fun l => flat_map (fun '(a, r) => k a r) (m l).

(** [r1|r2]: every match of [r1] is tried before any match of [r2]. *)
Definition m_alt {A} (m1 m2 : matcher A) : matcher A :=
  fun l => m1 l ++ m2 l.

(** One character of a class. *)
Definition m_class (p : ascii -> bool) : matcher ascii :=
  fun l => match l with
           | c :: r => if p c then [(c, r)] else []
           | [] => []
           end.

(** A literal character. *)
Definition m_lit (c : ascii) : matcher ascii := m_class (Ascii.eqb c).

Definition in_range (lo hi : ascii) (c : ascii) : bool :=
  (code lo <=? code c) && (code c <=? code hi).

(** Greedy [\d+]: the longest run first, then each shorter one. *)
Fixpoint m_digits1 (l : list ascii) : list (list ascii * list ascii) :=
  match l with
  | c :: r =>
      if is_digit c
      then map (fun '(ds, t) => (c :: ds, t)) (m_digits1 r) ++ [([c], r)]
      else []
  | [] => []
  end.

#[local] Notation "'let*' x ':=' m 'in' k" := (m_bind m (fun x => k))
  (at level 10, x name, m at level 100, k at level 200).

(** ** [clean_numeric_value] *)

(** The pattern [(\d+(?:\.\d+)?)], matched at the head of the input;
    the value is group 1, the whole matched text. *)
Definition numeral_re : matcher (list ascii) :=
  let* ip := m_digits1 in
  m_alt (let* dot := m_lit "." in
         let* fp := m_digits1 in
         m_ret (ip ++ dot :: fp))
        (m_ret ip).

(** [re.match(pattern, text)]: the first way of matching, if any. *)
Definition re_match {A} (m : matcher A) (l : list ascii) : option A :=
  match m l with
  | (a, _) :: _ => Some a
  | [] => None
  end.

(** [re.search(pattern, text)]: the first start position with a match. *)
Fixpoint re_search {A} (m : matcher A) (l : list ascii) : option A :=
  match re_match m l with
  | Some a => Some a
  | None => match l with
            | [] => None
            | _ :: r => re_search m r
            end
  end.

(** [float(text)] for a text of the shape [digits] or [digits.digits]:
    the binary64 value nearest to the decimal number written. *)
Fixpoint split_numeral (l : list ascii) : list ascii * list ascii :=
  match l with
  | [] => ([], [])
  | c :: r => if Ascii.eqb c "."
              then ([], r)
              else let '(ip, fp) := split_numeral r in (c :: ip, fp)
  end.

Definition float_of_numeral (l : list ascii) : float :=
  let '(ip, fp) := split_numeral l in
  match int_of_digits (ip ++ fp) with
  | Zpos n => f_div (S754_finite false n 0)
                    (S754_finite false (Z.to_pos (10 ^ Z.of_nat (length fp))) 0)
  | _ => f_zero
  end.

(** A cell of the data frame, as [row[column]] yields it: text, or a
    number or boolean when pandas inferred a numeric column; a missing
    cell is the float NaN. *)
Inductive cell : Type :=
| CStr (s : string)
| CInt (z : Z)
| CFloat (f : float)
| CBool (b : bool).

(** [pd.isna(cell)] *)
Definition isna (c : cell) : bool :=
  match c with
  | CFloat f => f_is_nan f
  | _ => false
  end.

(** [not cell] *)
Definition cell_falsy (c : cell) : bool :=
  match c with
  | CStr s => String.eqb s EmptyString
  | CInt z => z =? 0
  | CFloat f => f_is_zero f
  | CBool b => negb b
  end.

(** [str(cell)]; the shortest-repr printing of a finite or infinite
    float is left to [float_repr]. *)
Section CellText.

Variable float_repr : float -> string.

Definition py_str (c : cell) : string :=
  match c with
  | CStr s => s
  | CInt z => str_of_Z z
  | CFloat f => if f_is_nan f then "nan" else float_repr f
  | CBool b => if b then "True" else "False"
  end.

(** [clean_numeric_value(self, value_str)] *)
Definition clean_numeric_value (value_str : cell) : float :=
  if cell_falsy value_str || isna value_str then f_zero
  else
    let value_str := strip (py_str value_str) in
    match re_search numeral_re (list_ascii_of_string value_str) with
    | Some numeric_match => float_of_numeral numeric_match
    | None => f_zero
    end.

End CellText.

(** ** [format_date] *)

(** A [datetime] whose [tzinfo] is [timezone.utc]. *)
Record datetime : Type := mk_datetime {
  year : Z; month : Z; day : Z;
  hour : Z; minute : Z; second : Z; microsecond : Z
}.

Definition is_leap (y : Z) : bool :=
  (y mod 4 =? 0) && (negb (y mod 100 =? 0) || (y mod 400 =? 0)).

Definition days_in_month (y m : Z) : Z :=
  if m =? 2 then (if is_leap y then 29 else 28)
  else if (m =? 4) || (m =? 6) || (m =? 9) || (m =? 11) then 30
  else 31.

(** The check [datetime.date(y, m, d)] makes: [MINYEAR] is 1, [MAXYEAR] 9999. *)
Definition valid_date (y m d : Z) : bool :=
  (1 <=? y) && (y <=? 9999) && (1 <=? m) && (m <=? 12) &&
  (1 <=? d) && (d <=? days_in_month y m).

(** [%Y] is [(?P<Y>\d\d\d\d)]. *)
Definition re_Y : matcher Z :=
  let* a := m_class is_digit in
  let* b := m_class is_digit in
  let* c := m_class is_digit in
  let* d := m_class is_digit in
  m_ret (int_of_digits [a; b; c; d]).

(** [%m] is [(?P<m>1[0-2]|0[1-9]|[1-9])]. *)
Definition re_m : matcher Z :=
  m_alt (let* a := m_lit "1" in
         let* b := m_class (in_range "0" "2") in
         m_ret (int_of_digits [a; b]))
 (m_alt (let* a := m_lit "0" in
         let* b := m_class (in_range "1" "9") in
         m_ret (int_of_digits [a; b]))
        (let* a := m_class (in_range "1" "9") in
         m_ret (int_of_digits [a]))).

(** [%d] is [(?P<d>3[0-1]|[1-2]\d|0[1-9]|[1-9]| [1-9])]; [int] skips the
    blank of the last alternative. *)
Definition re_d : matcher Z :=
  m_alt (let* a := m_lit "3" in
         let* b := m_class (in_range "0" "1") in
         m_ret (int_of_digits [a; b]))
 (m_alt (let* a := m_class (in_range "1" "2") in
         let* b := m_class is_digit in
         m_ret (int_of_digits [a; b]))
 (m_alt (let* a := m_lit "0" in
         let* b := m_class (in_range "1" "9") in
         m_ret (int_of_digits [a; b]))
 (m_alt (let* a := m_class (in_range "1" "9") in
         m_ret (int_of_digits [a]))
        (let* _ := m_lit " " in
         let* b := m_class (in_range "1" "9") in
         m_ret (int_of_digits [b]))))).

(** The pattern [strptime] compiles for ['%Y<sep>%m<sep>%d']. *)
Definition date_re (sep : ascii) : matcher (Z * Z * Z) :=
  let* y := re_Y in
  let* _ := m_lit sep in
  let* m := re_m in
  let* _ := m_lit sep in
  let* d := re_d in
  m_ret (y, m, d).

(** [datetime.strptime(date_str, '%Y<sep>%m<sep>%d')]: the text must match
    the pattern, the match must reach the end of the text, and the three
    numbers must form a date. *)
Definition strptime (sep : ascii) (l : list ascii) : result datetime :=
  match date_re sep l with
  | [] => Raise ValueError
  | ((y, m, d), rest) :: _ =>
      match rest with
      | _ :: _ => Raise ValueError
      | [] => if valid_date y m d
              then Ok (mk_datetime y m d 0 0 0 0)
              else Raise ValueError
      end
  end.

(** [date_obj.isoformat()] for a UTC datetime. *)
Definition isoformat (t : datetime) : string :=
  string_of_list_ascii
    (pad_digits 4 (year t) ++ ["-"%char] ++ pad_digits 2 (month t) ++
     ["-"%char] ++ pad_digits 2 (day t) ++ ["T"%char] ++
     pad_digits 2 (hour t) ++ [":"%char] ++ pad_digits 2 (minute t) ++
     [":"%char] ++ pad_digits 2 (second t) ++
     (if microsecond t =? 0 then []
      else ["."%char] ++ pad_digits 6 (microsecond t)) ++
     list_ascii_of_string "+00:00").

(** The [try] block of [format_date]: the format is picked by the
    presence of a slash. *)
Definition parse_date (date_str : string) : result datetime :=
  let l := list_ascii_of_string date_str in
  if contains_char "/" l then strptime "/" l else strptime "-" l.

End Normalizer.

Import Normalizer.

(* ===================================================================== *)
(** * The digitizer                                                       *)
(* ===================================================================== *)

(** ** What goes over the wire *)

Inductive http_method : Type := GET | POST.

(** A request as [_make_request] sends it: the verb, the path below
    [<base_url>/api], and the JSON body of a POST. *)
Record request : Type := mk_request {
  req_method : http_method;
  req_endpoint : string;
  req_body : option dict
}.

(** [self.stats] *)
Record stats : Type := mk_stats {
  processed : Z;
  successful : Z;
  failed : Z;
  skipped : Z
}.

(** The instance fields of [CIADManifestDigitizer]. The three caches that
    are only looked up are finite maps; [system_users_cache] keeps its
    insertion order, which [get_default_inspector] reads. *)
Record digitizer : Type := mk_digitizer {
  vessels_cache : gmap string dict;
  persons_cache : gmap string dict;
  waste_types_cache : gmap string dict;
  system_users_cache : list (string * dict);
  the_stats : stats
}.

(** [CIADManifestDigitizer.__init__] *)
Definition init : digitizer :=
  mk_digitizer ∅ ∅ ∅ [] (mk_stats 0 0 0 0).

(** The dictionary [process_raw_data] builds for a row. *)
Record manifest : Type := mk_manifest {
  vessel_name : string;
  inspection_date : string;
  oil_used : float;
  oil_filters_used : float;
  diesel_filters_used : float;
  junk_reported : float;
  captain_name : string;
  chef_name : string;
  observations : string
}.

(** A row of the data frame ([pandas.Series]): column label to cell. *)
Abbreviation series := (gmap string cell).

(** [d[k] = v] on an insertion-ordered dictionary: an existing key keeps
    its place. *)
Fixpoint od_set {V} (d : list (string * V)) (k : string) (v : V)
  : list (string * V) :=
  match d with
  | [] => [(k, v)]
  | (k', v') :: d' =>
      if String.eqb k' k then (k, v) :: d' else (k', v') :: od_set d' k v
  end.

(** [x.get('ID') or x.get('id')] *)
Definition get_ID_or_id (x : dict) : json :=
  py_or (dict_get x "ID") (dict_get x "id").

(** What a run reads and writes: the digitizer object, the world outside
    (backend and clock), and a record of every request handed to the
    session so far with the result [_make_request] gave for it, oldest
    first. *)
Record state (World : Type) : Type := mk_state {
  self : digitizer;
  world : World;
  exchanges : list (request * option json)
}.
Arguments mk_state {World} self world exchanges.
Arguments self {World} s.
Arguments world {World} s.
Arguments exchanges {World} s.

(** ** A scripted backend and sample data, for the examples *)

(** A backend that answers the requests it gets with the responses of a
    list, in turn, and with transport errors once the list is used up. *)
Definition script : Type := list (option json).

Definition scripted (w : script) (req : request) : option json * script :=
  match w with
  | response :: w' => (response, w')
  | [] => (None, [])
  end.

(** A clock that stands still. *)
Definition frozen (now : datetime) (w : script) : datetime * script := (now, w).

Definition noon : datetime := mk_datetime 2024 6 1 12 0 0 0.

(** A float printer for data frames that hold no float but NaN. *)
Definition no_floats (f : float) : string := "".

Definition success (data : dict) : option json :=
  Some (JDict [("success", JBool true); ("data", JDict data)]).

Definition atlantic_star : dict :=
  [("ID", JInt 3); ("VesselName", JStr "Atlantic Star")].

Definition john_doe : dict := [("id", JInt 5); ("Name", JStr "John Doe")].

(** A waste type whose identifier comes under the uppercase key, as the
    identifiers of vessels and persons may. *)
Definition aceite : dict := [("ID", JInt 7); ("typeName", JStr "Aceite")].

Definition sample_digitizer : digitizer :=
  mk_digitizer {[ "atlantic star" := atlantic_star ]}
               {[ "john doe" := john_doe ]}
               {[ "aceite" := aceite ]}
               [] (mk_stats 0 0 0 0).

Definition new_row (id : Z) (vessel oil : string) (captain chef : cell)
  : series :=
  list_to_map
    [("ID", CInt id); ("Vessel Name", CStr vessel);
     ("Date", CStr "2024/01/10"); ("Oil Used", CStr oil);
     ("Oil Filters Used", CStr "0"); ("Diesel Filters Used", CStr "0");
     ("Junk Reported", CStr "0"); ("Captain Full Name", captain);
     ("Chef Full Name", chef)].

Definition missing : cell := CFloat S754_nan.

(** The row of the end-to-end scenario of the specification. *)
Definition sample_row : series :=
  new_row 7 "Atlantic Star" "50 litros" (CStr "John Doe") missing.

(** A row that reports no waste, for a vessel nobody has heard of. *)
Definition idle_row : series := new_row 8 "Ghost" "0" missing missing.

(** A row that reports waste, for a vessel nobody has heard of. *)
Definition ghost_row : series := new_row 9 "Ghost" "12.5 l" missing missing.

(** Three rows naming two vessels, two captains and one chef. *)
Definition three_rows : list series :=
  [new_row 1 "Atlantic Star" "50 litros" (CStr "John Doe") (CStr "Ana Ruiz");
   new_row 2 "Estrella" "10" (CStr "Luis Mora") (CStr "Ana Ruiz");
   new_row 3 "Atlantic Star" "0" (CStr "John Doe") missing].

(** The manifest of a row whose signers are not in the cache. *)
Definition unsigned_manifest : manifest :=
  mk_manifest "Atlantic Star" "2024-01-10T00:00:00+00:00"
              (float_of_Z 50) f_zero f_zero f_zero "Jane Roe" "" "".

(** A terminal beside the scripted backend: the lines still to be typed,
    and the responses still to come. *)
Definition console : Type := list string * script.

Definition typed (w : console) : option string * console :=
  match w.1 with
  | line :: lines => (Some line, (lines, w.2))
  | [] => (None, w)
  end.

Definition served (w : console) (req : request) : option json * console :=
  let '(response, s) := scripted w.2 req in (response, (w.1, s)).

Definition still (now : datetime) (w : console) : datetime * console :=
  (now, w).

(** An [int] for unsigned decimal numerals. *)
Definition decimal_int (text : string) : option Z :=
  match list_ascii_of_string text with
  | [] => None
  | l => if forallb is_digit l then Some (int_of_digits l) else None
  end.

(** Two listings of vessels under one name, in different spellings, and
    of system users likewise. *)
Definition atlantic_star_again : dict :=
  [("ID", JInt 4); ("VesselName", JStr "  ATLANTIC STAR ")].

Definition listing (entities : list dict) : option json :=
  Some (JDict [("success", JBool true); ("data", JList (map JDict entities))]).

Definition inspector_ana : dict := [("ID", JInt 21); ("FullName", JStr "Ana")].
Definition inspector_bob : dict := [("ID", JInt 22); ("FullName", JStr "Bob")].
Definition inspector_ana_again : dict :=
  [("ID", JInt 23); ("FullName", JStr "ANA ")].

(** A manifest whose captain and chef are one cached person, whose name
    is spelled in two ways. *)
Definition one_signer_manifest : manifest :=
  mk_manifest "Atlantic Star" "2024-01-10T00:00:00+00:00"
              (float_of_Z 50) f_zero f_zero f_zero "John Doe" " JOHN DOE" "".

Section Digitizer.

(** The environment the script runs in: the world outside, how Python
    prints a float, the backend behind [requests.Session] (its answer to
    a request is the decoded body, any JSON value, or nothing on a
    transport error, an error status or a body that is not JSON), the
    clock behind [datetime.now(timezone.utc)], and the order in which a
    [set] of strings is iterated. *)
Variable World : Type.
Variable float_repr : float -> string.
Variable http : World -> request -> option json * World.
Variable utcnow : World -> datetime * World.
Variable set_iter : gset string -> list string.

(** All that is known of the iteration order of a [set]: every element
    comes once. *)
Hypothesis set_iter_elements : forall names, set_iter names ≡ₚ elements names.

(** ** State and exceptions *)

Definition M (A : Type) : Type := state World -> result A * state World.

Definition ret {A} (a : A) : M A := fun st => (Ok a, st).

Definition bind {A B} (m : M A) (k : A -> M B) : M B :=
  fun st => match m st with
            | (Ok a, st') => k a st'
            | (Raise e, st') => (Raise e, st')
            end.

Definition raise {A} (e : exn) : M A := fun st => (Raise e, st).

Definition lift {A} (r : result A) : M A := fun st => (r, st).

(** [try: m  except Exception: h] *)
Definition try_except {A} (m : M A) (h : M A) : M A :=
  fun st => match m st with
            | (Ok a, st') => (Ok a, st')
            | (Raise _, st') => h st'
            end.

Definition get_self : M digitizer := fun st => (Ok (self st), st).

Definition modify_self (f : digitizer -> digitizer) : M unit :=
  fun st => (Ok tt, mk_state (f (self st)) (world st) (exchanges st)).

#[local] Notation "'let*' x ':=' m 'in' k" := (bind m (fun x => k))
  (at level 10, x name, m at level 100, k at level 200).
#[local] Notation "m ';;' k" := (bind m (fun _ => k))
  (at level 100, k at level 200, right associativity).

Fixpoint for_each {A} (l : list A) (body : A -> M unit) : M unit :=
  match l with
  | [] => ret tt
  | x :: l' => body x ;; for_each l' body
  end.

(** ** Backend client *)

(** What [session.get] and [session.post] give for a request. [requests]
    serialises a JSON body with [allow_nan=False]: a body that holds an
    infinite or NaN float raises [InvalidJSONError], a
    [RequestException], before anything goes to the backend. *)
Definition answer (w : World) (req : request) : option json * World :=
  if serialisable (req_body req) then http w req else (None, w).

(** [_make_request]: a [RequestException] (a transport error, an error
    status, a body that cannot be serialised or decoded) is the absent
    result; [response.json()], or [{}] for an empty body, otherwise. *)
Definition _make_request (method endpoint : string) (data : option dict)
  : M (option json) :=
  let send (req : request) : M (option json) :=
    fun st => let '(response, w) := answer (world st) req in
              (Ok response,
               mk_state (self st) w (exchanges st ++ [(req, response)])) in
  if String.eqb (upper method) "GET" then send (mk_request GET endpoint None)
  else if String.eqb (upper method) "POST" then send (mk_request POST endpoint data)
  else raise ValueError.

(** [response and response.get(key)] as a condition: [.get] is looked up
    on a truthy response only, and only a [dict] has it. *)
Definition response_has (response : option json) (key : string) : result bool :=
  match response with
  | None => Ok false
  | Some r =>
      if truthy r then
        match py_get r key with
        | Ok v => Ok (truthy v)
        | Raise e => Raise e
        end
      else Ok false
  end.

(** [response.get(key)] and [response[key]], once [response] passed the
    test above. *)
Definition response_get (response : option json) (key : string) : result json :=
  match response with
  | Some r => py_get r key
  | None => Raise AttributeError
  end.

Definition response_item (response : option json) (key : string) : result json :=
  match response with
  | Some r => py_item r key
  | None => Raise TypeError
  end.

(** ** Entity cache *)

(** The loop [for entity in response['data']: cache[key(entity)] = entity]
    with [key(entity) = entity[name_field].lower().strip()]. *)
Definition cache_key (entity : json) (name_field : string)
  : result (string * dict) :=
  match py_item entity name_field, entity with
  | Ok (JStr name), JDict d => Ok (strip (lower name), d)
  | Ok _, _ => Raise AttributeError
  | Raise e, _ => Raise e
  end.

Definition load_list (response : option json) (name_field : string)
    (store : string -> dict -> digitizer -> digitizer) : M unit :=
  let* has_data := lift (response_has response "data") in
  if has_data then
    let* data := lift (response_item response "data") in
    match data with
    | JList entities =>
        for_each entities (fun entity =>
          let* kv := lift (cache_key entity name_field) in
          modify_self (store kv.1 kv.2))
    | _ => raise TypeError
    end
  else ret tt.

Definition set_vessel (k : string) (v : dict) (d : digitizer) : digitizer :=
  mk_digitizer (<[k := v]> (vessels_cache d)) (persons_cache d)
               (waste_types_cache d) (system_users_cache d) (the_stats d).

Definition set_person (k : string) (v : dict) (d : digitizer) : digitizer :=
  mk_digitizer (vessels_cache d) (<[k := v]> (persons_cache d))
               (waste_types_cache d) (system_users_cache d) (the_stats d).

Definition set_waste_type (k : string) (v : dict) (d : digitizer) : digitizer :=
  mk_digitizer (vessels_cache d) (persons_cache d)
               (<[k := v]> (waste_types_cache d)) (system_users_cache d)
               (the_stats d).

Definition set_system_user (k : string) (v : dict) (d : digitizer) : digitizer :=
  mk_digitizer (vessels_cache d) (persons_cache d) (waste_types_cache d)
               (od_set (system_users_cache d) k v) (the_stats d).

(** [load_entities_cache] *)
Definition load_entities_cache : M unit :=
  let* vessels_response := _make_request "GET" "/vessels/0/1000" None in
  load_list vessels_response "VesselName" set_vessel ;;
  let* persons_response := _make_request "GET" "/persons/0/5000" None in
  load_list persons_response "Name" set_person ;;
  let* waste_types_response := _make_request "GET" "/wasteTypes/0/100" None in
  load_list waste_types_response "typeName" set_waste_type ;;
  let* system_users_response := _make_request "GET" "/systemUsers/0/100" None in
  load_list system_users_response "FullName" set_system_user.

(** ** Entity resolver *)

(** [find_or_create_vessel] *)
Definition find_or_create_vessel (d : digitizer) (vessel_name : string)
  : option dict :=
  let vessel_key := strip (lower vessel_name) in
  vessels_cache d !! vessel_key.

(** [find_or_create_person] *)
Definition find_or_create_person (d : digitizer) (person_name : string)
  : option dict :=
  if String.eqb person_name "" || String.eqb (strip person_name) "" then None
  else
    let person_key := strip (lower person_name) in
    persons_cache d !! person_key.

(** [get_waste_type_by_name] *)
Definition get_waste_type_by_name (d : digitizer) (waste_type_name : string)
  : option dict :=
  let waste_key := strip (lower waste_type_name) in
  waste_types_cache d !! waste_key.

(** [get_default_inspector] *)
Definition get_default_inspector (d : digitizer) : dict :=
  match system_users_cache d with
  | (_, user) :: _ => user
  | [] => [("ID", JInt 1); ("FullName", JStr "Default Inspector")]
  end.

(** [if entity:] for the result of a resolver. *)
Definition found (entity : option dict) : bool :=
  match entity with
  | Some e => truthy (JDict e)
  | None => false
  end.

(** ** Manifest importer *)

(** Lines 158-172: the signer list, with the default signer when it
    would be empty. *)
Definition add_signer (person : option dict) (signers_ids : list json)
  : list json :=
  match person with
  | Some p =>
      if truthy (JDict p) then
        let person_id := get_ID_or_id p in
        if truthy person_id then signers_ids ++ [person_id] else signers_ids
      else signers_ids
  | None => signers_ids
  end.

Definition collect_signers (captain chef : option dict) : list json :=
  let signers_ids := add_signer chef (add_signer captain []) in
  match signers_ids with
  | [] => [JInt 1]
  | _ => signers_ids
  end.

(** The body of the compliance creation request. *)
Definition compliance_data (vessel : dict) (manifest_data : manifest)
    (inspector_id : json) (signers_ids : list json) : dict :=
  [("vesselId", get_ID_or_id vessel);
   ("inspectionDate", JStr (inspection_date manifest_data));
   ("observations", JStr (observations manifest_data));
   ("systemUserId", inspector_id);
   ("signersIds", JList signers_ids)].

(** The body of a waste creation request. *)
Definition waste_data (vessel waste_type : dict) (quantity : float)
    (manifest_data : manifest) (compliance_id : json) : dict :=
  [("vesselId", get_ID_or_id vessel);
   ("wasteTypeId", dict_get waste_type "id");
   ("quantityGenerated", JFloat quantity);
   ("generationDate", JStr (inspection_date manifest_data));
   ("complianceId", compliance_id)].

(** One of the four waste blocks (lines 210-277), which differ in the
    quantity read and the waste type name only. The value threaded
    through is [waste_records_created]. *)
Definition create_waste (vessel : dict) (manifest_data : manifest)
    (compliance_id : json) (quantity : float) (type_name : string)
    (waste_records_created : Z) : M Z :=
  if f_ltb f_zero quantity then
    let* d := get_self in
    let waste_type := get_waste_type_by_name d type_name in
    match waste_type with
    | Some wt =>
        if truthy (JDict wt) then
          let* waste_response :=
            _make_request "POST" "/wastes"
              (Some (waste_data vessel wt quantity manifest_data compliance_id)) in
          let* created := lift (response_has waste_response "success") in
          if created
          then ret (waste_records_created + 1)
          else ret waste_records_created
        else ret waste_records_created
    | None => ret waste_records_created
    end
  else ret waste_records_created.

(** [create_compliance_manifest] *)
Definition create_compliance_manifest (manifest_data : manifest) : M bool :=
  try_except
    (let* d := get_self in
     (* 1. Find vessel *)
     match find_or_create_vessel d (vessel_name manifest_data) with
     | None => ret false
     | Some vessel =>
       if negb (truthy (JDict vessel)) then ret false else
       (* 2. Find signers *)
       let captain := find_or_create_person d (captain_name manifest_data) in
       let chef := find_or_create_person d (chef_name manifest_data) in
       let signers_ids := collect_signers captain chef in
       (* 3. Get inspector *)
       let inspector := get_default_inspector d in
       let inspector_id := get_ID_or_id inspector in
       (* 4. Create compliance record *)
       let* compliance_response :=
         _make_request "POST" "/compliances"
           (Some (compliance_data vessel manifest_data inspector_id signers_ids)) in
       let* created := lift (response_has compliance_response "success") in
       if negb created then ret false else
       let* compliance := lift (response_get compliance_response "data") in
       if negb (truthy compliance) then ret false else
       let* lower_id := lift (py_get compliance "id") in
       let* upper_id := lift (py_get compliance "ID") in
       let compliance_id := py_or lower_id upper_id in
       if negb (truthy compliance_id) then ret false else
       (* 5. Create waste records *)
       let waste_records_created := 0 in
       let* waste_records_created :=
         create_waste vessel manifest_data compliance_id
           (oil_used manifest_data) "Aceite" waste_records_created in
       let* waste_records_created :=
         create_waste vessel manifest_data compliance_id
           (oil_filters_used manifest_data) "Filtros de Aceite"
           waste_records_created in
       let* waste_records_created :=
         create_waste vessel manifest_data compliance_id
           (diesel_filters_used manifest_data) "Filtros Diesel"
           waste_records_created in
       let* waste_records_created :=
         create_waste vessel manifest_data compliance_id
           (junk_reported manifest_data) "Desechos Solidos"
           waste_records_created in
       ret true
     end)
    (ret false).

(** [format_date]: the clock is read only when parsing fails. *)
Definition format_date (date_str : string) : M string :=
  match parse_date date_str with
  | Ok date_obj => ret (isoformat date_obj)
  | Raise _ =>
      fun st => let '(now, w) := utcnow (world st) in
                (Ok (isoformat now), mk_state (self st) w (exchanges st))
  end.

(** [row[column]] *)
Definition row_item (row : series) (column : string) : M cell :=
  match row !! column with
  | Some c => ret c
  | None => raise (KeyError column)
  end.

(** [str(row[column]).strip() if pd.notna(row[column]) else ""] *)
Definition name_or_blank (row : series) (column : string) : M string :=
  let* c := row_item row column in
  if negb (isna c)
  then let* c := row_item row column in ret (strip (py_str float_repr c))
  else ret "".

(** Lines 351-361: the manifest dictionary, its entries evaluated in the
    order they are written. *)
Definition parse_manifest (row : series) : M manifest :=
  let* vessel := row_item row "Vessel Name" in
  let* date := row_item row "Date" in
  let* inspection_date := format_date (py_str float_repr date) in
  let* oil := row_item row "Oil Used" in
  let* oil_filters := row_item row "Oil Filters Used" in
  let* diesel_filters := row_item row "Diesel Filters Used" in
  let* junk := row_item row "Junk Reported" in
  let* captain := name_or_blank row "Captain Full Name" in
  let* chef := name_or_blank row "Chef Full Name" in
  let* id := row_item row "ID" in
  ret (mk_manifest
         (strip (py_str float_repr vessel))
         inspection_date
         (clean_numeric_value float_repr oil)
         (clean_numeric_value float_repr oil_filters)
         (clean_numeric_value float_repr diesel_filters)
         (clean_numeric_value float_repr junk)
         captain chef
         ("Digitized from physical manifest ID: " +:+ py_str float_repr id)).

Definition set_stats (s : stats) (d : digitizer) : digitizer :=
  mk_digitizer (vessels_cache d) (persons_cache d) (waste_types_cache d)
               (system_users_cache d) s.

Definition bump_processed (d : digitizer) : digitizer :=
  let s := the_stats d in
  set_stats (mk_stats (processed s + 1) (successful s) (failed s) (skipped s)) d.

Definition bump_successful (d : digitizer) : digitizer :=
  let s := the_stats d in
  set_stats (mk_stats (processed s) (successful s + 1) (failed s) (skipped s)) d.

Definition bump_failed (d : digitizer) : digitizer :=
  let s := the_stats d in
  set_stats (mk_stats (processed s) (successful s) (failed s + 1) (skipped s)) d.

Definition bump_skipped (d : digitizer) : digitizer :=
  let s := the_stats d in
  set_stats (mk_stats (processed s) (successful s) (failed s) (skipped s + 1)) d.

(** [total_waste], summed left to right. *)
Definition total_waste (manifest_data : manifest) : float :=
  f_add (f_add (f_add (oil_used manifest_data)
                      (oil_filters_used manifest_data))
               (diesel_filters_used manifest_data))
        (junk_reported manifest_data).

(** The body of the loop of [process_raw_data] (lines 347-391). *)
Definition process_row (row : series) : M unit :=
  modify_self bump_processed ;;
  try_except
    (let* manifest_data := parse_manifest row in
     if f_eqb (total_waste manifest_data) f_zero then
       modify_self bump_skipped
     else
       let* success := create_compliance_manifest manifest_data in
       if success
       then modify_self bump_successful
       else modify_self bump_failed)
    (modify_self bump_failed).

(** ** Input filtering *)

(** A data frame as [pd.read_csv] returns it: its rows, in order. *)
Abbreviation dataframe := (list series).

(** [df.dropna(how='all')]: rows whose every cell is missing go. *)
Definition dropna_all (df : dataframe) : dataframe :=
  List.filter
    (fun row : series =>
       negb (bool_decide (map_Forall (fun (_ : string) (c : cell) => isna c = true) row)))
    df.

Definition is_text (c : cell) : bool :=
  match c with CStr _ => true | _ => false end.

(** One entry of [df['Vessel Name'].str.lower().str.contains('test', na=False)]. *)
Definition is_test_name (c : cell) : bool :=
  match c with
  | CStr s => contains (list_ascii_of_string "test")
                       (list_ascii_of_string (lower s))
  | _ => false
  end.

(** [df[~df['Vessel Name'].str.lower().str.contains('test', na=False)]]
    for the rows [df] left of the frame [read]: the column must exist,
    and [.str] needs a column of text. The type of a column is settled
    when the frame is read, and [dropna] keeps it: a column without any
    text cell has a numeric type, unless the frame was read without a
    single row. *)
Fixpoint column (df : dataframe) (label : string) : result (list cell) :=
  match df with
  | [] => Ok []
  | row :: df' =>
      match row !! label, column df' label with
      | Some c, Ok cs => Ok (c :: cs)
      | None, _ => Raise (KeyError label)
      | _, Raise e => Raise e
      end
  end.

Definition drop_test_records (read df : dataframe) : result dataframe :=
  match column read "Vessel Name" with
  | Raise e => Raise e
  | Ok names =>
      if match names with
         | _ :: _ => existsb is_text names
         | [] => true
         end
      then Ok (List.filter
                 (fun row : series =>
                    match row !! "Vessel Name" with
                    | Some c => negb (is_test_name c)
                    | None => false
                    end) df)
      else Raise AttributeError
  end.

(** [df.head(n)]: the first [n] rows, or all but the last [-n]. *)
Definition df_head (n : Z) (df : dataframe) : dataframe :=
  if 0 <=? n then take (Z.to_nat n) df
  else take (length df - Z.to_nat (- n))%nat df.

(** [if max_records: df = df.head(max_records)] *)
Definition limit (max_records : option Z) (df : dataframe) : dataframe :=
  match max_records with
  | Some n => if n =? 0 then df else df_head n df
  | None => df
  end.

(** [process_raw_data], from the data frame [pd.read_csv] produced. *)
Definition process_raw_data (df : dataframe) (start_from : Z)
    (max_records : option Z) : M stats :=
  try_except
    (let read := df in
     let df := dropna_all df in
     let* df := lift (drop_test_records read df) in
     let df := if 0 <? start_from then drop (Z.to_nat start_from) df else df in
     let df := limit max_records df in
     load_entities_cache ;;
     for_each df process_row ;;
     let* d := get_self in
     ret (the_stats d))
    (let* d := get_self in
     ret (the_stats d)).

(** ** Entity bootstrapper *)

(** [create_person_batch] *)
Definition create_person_batch (name : string) (person_type_id : Z)
    (contact_info : string) : M (option dict) :=
  let data := [("name", JStr name);
               ("personTypeId", JInt person_type_id);
               ("contactInfo", JStr contact_info)] in
  let* response := _make_request "POST" "/persons" (Some data) in
  let* created := lift (response_has response "success") in
  if created then
    let* person := lift (response_get response "data") in
    let* upper_id := lift (py_get person "ID") in
    let* lower_id := lift (py_get person "id") in
    match person with
    | JDict p => ret (Some p)
    | _ => ret None
    end
  else ret None.

(** [create_vessel_batch] *)
Definition create_vessel_batch (vessel_name vessel_type : string)
    (owner_id : json) : M (option dict) :=
  let data := [("vesselName", JStr vessel_name);
               ("vesselType", JStr vessel_type);
               ("ownerId", owner_id)] in
  let* response := _make_request "POST" "/vessels" (Some data) in
  let* created := lift (response_has response "success") in
  if created then
    let* vessel := lift (response_get response "data") in
    let* upper_id := lift (py_get vessel "ID") in
    let* lower_id := lift (py_get vessel "id") in
    match vessel with
    | JDict v => ret (Some v)
    | _ => ret None
    end
  else ret None.

(** What [setup_base_entities] returns: the dictionary with the
    ['error'] key, from the abort or from the handler, or the counts. *)
Inductive setup_result : Type :=
| SetupAborted
| SetupError (e : exn)
| SetupDone (captains chefs vessels : Z).

(** The three sets of names. *)
Record unique_names : Type := mk_unique {
  unique_vessels : gset string;
  unique_captains : gset string;
  unique_chefs : gset string
}.

(** [if name and name != 'nan': names.add(name)] *)
Definition add_name (name : string) (names : gset string) : gset string :=
  if negb (String.eqb name "") && negb (String.eqb name "nan")
  then {[name]} ∪ names
  else names.

(** Lines 465-475, for one row. *)
Definition collect_row (row : series) (u : unique_names) : result unique_names :=
  match row !! "Vessel Name", row !! "Captain Full Name", row !! "Chef Full Name" with
  | Some v, Some c, Some h =>
      Ok (mk_unique
            (add_name (strip (py_str float_repr v)) (unique_vessels u))
            (add_name (strip (py_str float_repr c)) (unique_captains u))
            (add_name (strip (py_str float_repr h)) (unique_chefs u)))
  | None, _, _ => Raise (KeyError "Vessel Name")
  | _, None, _ => Raise (KeyError "Captain Full Name")
  | _, _, None => Raise (KeyError "Chef Full Name")
  end.

Fixpoint collect_names (df : dataframe) (u : unique_names) : result unique_names :=
  match df with
  | [] => Ok u
  | row :: df' =>
      match collect_row row u with
      | Ok u' => collect_names df' u'
      | Raise e => Raise e
      end
  end.

(** A loop [for name in names: if create(name): created += 1]. *)
Fixpoint create_all (names : list string) (create : string -> M (option dict))
    (created : Z) : M Z :=
  match names with
  | [] => ret created
  | name :: names' =>
      let* entity := create name in
      create_all names' create (if found entity then created + 1 else created)
  end.

Definition COCINERO_TYPE : Z := 1.
Definition MOTORISTA_TYPE : Z := 2.
Definition PROPIETARIO_TYPE : Z := 3.

(** Lines 445-475: the rows kept, and the names found in them. *)
Definition collect_unique (df : dataframe) (max_records : option Z)
  : result unique_names :=
  let read := df in
  let df := dropna_all df in
  match drop_test_records read df with
  | Ok df =>
      let df := limit max_records df in
      collect_names df (mk_unique ∅ ∅ ∅)
  | Raise e => Raise e
  end.

(** Lines 481-523: the four creation phases. *)
Definition create_entities (u : unique_names) : M setup_result :=
  (* Phase 1A: Create Unknown Owner *)
  let* unknown_owner :=
    create_person_batch "Unknown Owner" PROPIETARIO_TYPE
                        "Default vessel owner" in
  if negb (found unknown_owner) then ret SetupAborted else
  let unknown_owner_id :=
    match unknown_owner with
    | Some owner => get_ID_or_id owner
    | None => JNone
    end in
  (* Phase 1B: Create all Captains *)
  let* created_captains :=
    create_all (set_iter (unique_captains u))
      (fun captain_name =>
         create_person_batch captain_name MOTORISTA_TYPE "Captain") 0 in
  (* Phase 1C: Create all Chefs *)
  let* created_chefs :=
    create_all (set_iter (unique_chefs u))
      (fun chef_name =>
         create_person_batch chef_name COCINERO_TYPE "Chef") 0 in
  (* Phase 1D: Create all Vessels *)
  let* created_vessels :=
    create_all (set_iter (unique_vessels u))
      (fun vessel_name =>
         create_vessel_batch vessel_name "Boat" unknown_owner_id) 0 in
  ret (SetupDone created_captains created_chefs created_vessels).

(** [setup_base_entities], from the data frame [pd.read_csv] produced;
    whatever is raised inside becomes the ['error'] result. *)
Definition setup_base_entities (df : dataframe) (max_records : option Z)
  : M setup_result :=
  fun st =>
    match (let* u := lift (collect_unique df max_records) in
           create_entities u) st with
    | (Ok r, st') => (Ok r, st')
    | (Raise e, st') => (Ok (SetupError e), st')
    end.

(** ** Request URLs *)

(** [s.lstrip(c)] for a one-character [c], on the characters of [s]. *)
Fixpoint lstrip_char (c : ascii) (l : list ascii) : list ascii :=
  match l with
  | x :: r => if Ascii.eqb x c then lstrip_char c r else l
  | [] => []
  end.

(** [s.rstrip(c)] for a one-character [c]. *)
Definition rstrip_char (c : ascii) (s : string) : string :=
  string_of_list_ascii (rev (lstrip_char c (rev (list_ascii_of_string s)))).

(** [self.base_url], as [__init__] sets it from its argument. *)
Definition init_base_url (base_url : string) : string :=
  rstrip_char "/" base_url.

(** The URL [_make_request] builds for an endpoint: [f"{self.base_url}/api{endpoint}"]. *)
Definition request_url (self_base_url endpoint : string) : string :=
  self_base_url +:+ "/api" +:+ endpoint.

(** ** Command line *)

(** How [main] ends: it returns, or an exception leaves it. *)
Inductive main_exit : Type :=
| Returned
| Uncaught (e : exn)
| UncaughtEOFError.

(** A step of [main]: a value to go on with, or the end of [main]. *)
Definition C (A : Type) : Type :=
  state World -> (A + main_exit) * state World.

Definition c_ret {A} (a : A) : C A := fun st => (inl a, st).

Definition c_bind {A B} (m : C A) (k : A -> C B) : C B :=
  fun st => match m st with
            | (inl a, st') => k a st'
            | (inr x, st') => (inr x, st')
            end.

#[local] Notation "'let+' x ':=' m 'in' k" := (c_bind m (fun x => k))
  (at level 10, x name, m at level 100, k at level 200).

(** [return] *)
Definition c_return {A} : C A := fun st => (inr Returned, st).

(** [input(prompt).strip()], for the line [input] reads from the
    terminal, which is nothing when the terminal is closed. *)
Definition ask (input : World -> option string * World) : C string :=
  fun st =>
    let '(line, w) := input (world st) in
    let st' := mk_state (self st) w (exchanges st) in
    match line with
    | Some line => (inl (strip line), st')
    | None => (inr UncaughtEOFError, st')
    end.

(** [int(text) if text else None], for the integer [int] reads in a
    text, which is nothing when the text holds none. *)
Definition int_if_given (py_int : string -> option Z) (text : string)
  : C (option Z) :=
  if String.eqb text "" then c_ret None
  else match py_int text with
       | Some n => c_ret (Some n)
       | None => fun st => (inr (Uncaught ValueError), st)
       end.

(** A call of a method of the digitizer. *)
Definition call {A} (m : M A) : C A :=
  fun st => match m st with
            | (Ok a, st') => (inl a, st')
            | (Raise e, st') => (inr (Uncaught e), st')
            end.

(** ['error' in entity_stats] *)
Definition has_error (entity_stats : setup_result) : bool :=
  match entity_stats with
  | SetupDone _ _ _ => false
  | _ => true
  end.

(** The three modes of [main], for the data frame [rawdata.csv] reads
    as; what is printed is left out. *)
Definition main_body (input : World -> option string * World)
    (py_int : string -> option Z) (rawdata : dataframe) : C unit :=
  let+ mode := ask input in
  if String.eqb mode "1" then
    let+ max_records := ask input in
    let+ max_records := int_if_given py_int max_records in
    let+ entity_stats := call (setup_base_entities rawdata max_records) in
    c_ret tt
  else if String.eqb mode "2" then
    let+ start_from := ask input in
    let+ start_from := int_if_given py_int start_from in
    let start_from := default 0 start_from in
    let+ max_records := ask input in
    let+ max_records := int_if_given py_int max_records in
    let max_records := default 50 max_records in
    let+ stats := call (process_raw_data rawdata start_from (Some max_records)) in
    c_ret tt
  else if String.eqb mode "3" then
    let+ max_records := ask input in
    let+ max_records := int_if_given py_int max_records in
    let+ entity_stats := call (setup_base_entities rawdata max_records) in
    if has_error entity_stats then c_return else
    let+ manifest_records := ask input in
    let+ manifest_records := int_if_given py_int manifest_records in
    let manifest_records := default 50 manifest_records in
    let+ stats := call (process_raw_data rawdata 0 (Some manifest_records)) in
    c_ret tt
  else c_ret tt.

(** [main]: the digitizer is made anew. *)
Definition main (input : World -> option string * World)
    (py_int : string -> option Z) (rawdata : dataframe) (w : World)
  : main_exit * state World :=
  match main_body input py_int rawdata (mk_state init w []) with
  | (inl _, st) => (Returned, st)
  | (inr x, st) => (x, st)
  end.

(** ** The specification's vocabulary

    The notions the specification uses that the script does not name. *)

(** A nonempty run of decimal digits. *)
Definition digits1 (l : list ascii) : Prop :=
  l <> [] /\ Forall (fun c => is_digit c = true) l.

(** An integer or decimal numeral. *)
Inductive numeral : list ascii -> Prop :=
| numeral_int ip : digits1 ip -> numeral ip
| numeral_dec ip fp :
    digits1 ip -> digits1 fp -> numeral (ip ++ "."%char :: fp).

(** [num] is the first contiguous numeral of [l]: nothing before it is a
    digit, and no longer numeral starts where it starts. *)
Definition first_numeral (l num : list ascii) : Prop :=
  exists pre post,
    l = pre ++ num ++ post /\
    Forall (fun c => is_digit c = false) pre /\
    numeral num /\
    forall ext rest, post = ext ++ rest -> ext <> [] -> ~ numeral (num ++ ext).

(** The identifier of the compliance record a creation response carries,
    under either casing of its key. *)
Definition compliance_id (response : option json) : option json :=
  match response with
  | Some (JDict r) =>
      match dict_get r "data" with
      | JDict c =>
          let i := py_or (dict_get c "id") (dict_get c "ID") in
          if truthy i then Some i else None
      | _ => None
      end
  | _ => None
  end.

(** Compliance creation succeeded: there is a response, it carries the
    success indicator, and it carries the identifier of the record. *)
Definition compliance_created (response : option json) : bool :=
  match response_has response "success" with
  | Ok true =>
      match compliance_id response with Some _ => true | None => false end
  | _ => false
  end.

(** A response on which the test for the success indicator can be made:
    no response, a falsy value, or a JSON object. On any other value the
    test raises. *)
Definition readable (response : option json) : Prop :=
  exists b, response_has response "success" = Ok b.

(** An exchange that is a POST to [endpoint]. *)
Definition is_post (endpoint : string) (x : request * option json) : Prop :=
  req_method x.1 = POST /\ req_endpoint x.1 = endpoint.

(** The request of an exchange has a body, which holds [v] under
    [key]. *)
Definition sends (x : request * option json) (key : string) (v : json)
  : Prop :=
  exists body, req_body x.1 = Some body /\ dict_get body key = v.

(** The compliance creation request the importer sends for a manifest
    whose vessel resolved to [vessel]. *)
Definition compliance_request (d : digitizer) (vessel : dict)
    (manifest_data : manifest) : request :=
  mk_request POST "/compliances"
    (Some (compliance_data vessel manifest_data
             (get_ID_or_id (get_default_inspector d))
             (collect_signers
                (find_or_create_person d (captain_name manifest_data))
                (find_or_create_person d (chef_name manifest_data))))).

(** A name resolves to a cached person who has an identifier. *)
Definition resolves_with_id (d : digitizer) (person_name : string) : bool :=
  match find_or_create_person d person_name with
  | Some p => truthy (JDict p) && truthy (get_ID_or_id p)
  | None => false
  end.

(** The ways the specification lists for a compliance creation to fail:
    no response, no success indicator (none that can be read, for a
    response that is no object), no compliance identifier. *)
Definition creation_failed (response : option json) : Prop :=
  response = None \/
  response_has response "success" <> Ok true \/
  compliance_id response = None.

(** The columns of a raw row. *)
Definition columns : list string :=
  ["Vessel Name"; "Date"; "Oil Used"; "Oil Filters Used";
   "Diesel Filters Used"; "Junk Reported"; "Captain Full Name";
   "Chef Full Name"; "ID"].

(** A raw row has a cell, possibly a missing one, under every column. *)
Definition raw_row (row : series) : Prop :=
  Forall (fun label => is_Some (row !! label)) columns.

Definition cell_of (row : series) (label : string) : cell :=
  default (CStr "") (row !! label).

(** The quantity extracted from a column of a row. *)
Definition quantity (row : series) (label : string) : float :=
  clean_numeric_value float_repr (cell_of row label).

(** The name read from a column of a row, blank when the cell is missing. *)
Definition name_of (row : series) (label : string) : string :=
  if isna (cell_of row label) then ""
  else strip (py_str float_repr (cell_of row label)).

(** The manifest of a raw row, given its normalized date. *)
Definition manifest_of (row : series) (date : string) : manifest :=
  mk_manifest
    (strip (py_str float_repr (cell_of row "Vessel Name")))
    date
    (quantity row "Oil Used")
    (quantity row "Oil Filters Used")
    (quantity row "Diesel Filters Used")
    (quantity row "Junk Reported")
    (name_of row "Captain Full Name")
    (name_of row "Chef Full Name")
    ("Digitized from physical manifest ID: " +:+
     py_str float_repr (cell_of row "ID")).

(** The waste a row reports: its four quantities, summed left to right. *)
Definition reported_waste (row : series) : float :=
  f_add (f_add (f_add (quantity row "Oil Used")
                      (quantity row "Oil Filters Used"))
               (quantity row "Diesel Filters Used"))
        (quantity row "Junk Reported").

(** What the requests of one run of [create_compliance_manifest] look
    like, given its result [b]: none at all, or the compliance creation
    followed by at most four waste creations, none of them when the
    compliance creation failed; and the result is [True] when the
    compliance creation succeeded and the response to every waste
    creation is readable. *)
Definition manifest_trace (b : bool) (xs : list (request * option json))
  : Prop :=
  (xs = [] /\ b = false) \/
  (exists x ws,
      xs = x :: ws /\ is_post "/compliances" x /\
      Forall (is_post "/wastes") ws /\ (length ws <= 4)%nat /\
      (compliance_created x.2 = false -> ws = [] /\ b = false) /\
      (compliance_created x.2 = true ->
       Forall (fun w => readable w.2) ws -> b = true)).

(** In a list of exchanges, every waste creation comes after a compliance
    creation, and there is no waste creation at all when a compliance
    creation in it failed. *)
Definition compliance_first (xs : list (request * option json)) : Prop :=
  (forall i x,
      xs !! i = Some x -> is_post "/wastes" x ->
      exists j c, (j < i)%nat /\ xs !! j = Some c /\
                  is_post "/compliances" c) /\
  (forall c,
      c ∈ xs -> is_post "/compliances" c -> creation_failed c.2 ->
      forall x, x ∈ xs -> ~ is_post "/wastes" x).

(** The run statistics add up. *)
Definition balanced (s : stats) : Prop :=
  processed s = successful s + failed s + skipped s.

(** From [s] to [s'], one row was counted: [processed] went up by one,
    and so did exactly one of the three other counters. *)
Definition counted_once (s s' : stats) : Prop :=
  processed s' = processed s + 1 /\
  ((successful s' = successful s + 1 /\ failed s' = failed s /\
    skipped s' = skipped s) \/
   (successful s' = successful s /\ failed s' = failed s + 1 /\
    skipped s' = skipped s) \/
   (successful s' = successful s /\ failed s' = failed s /\
    skipped s' = skipped s + 1)).

(** The person and vessel creation requests of the bootstrap pass. *)
Definition person_request (name : string) (person_type_id : Z)
    (contact_info : string) : request :=
  mk_request POST "/persons"
    (Some [("name", JStr name);
           ("personTypeId", JInt person_type_id);
           ("contactInfo", JStr contact_info)]).

Definition vessel_request (owner_id : json) (vessel_name : string) : request :=
  mk_request POST "/vessels"
    (Some [("vesselName", JStr vessel_name);
           ("vesselType", JStr "Boat");
           ("ownerId", owner_id)]).

(** What [create_person_batch] and [create_vessel_batch] make of a
    response: the entity under [data] when the response carries the
    success indicator, nothing when it does not; a truthy response that
    is no object, and one that carries the indicator but no object under
    [data], make them raise. *)
Definition entity_of_response (response : option json) : result (option dict) :=
  match response_has response "success" with
  | Ok true =>
      match response_get response "data" with
      | Ok (JDict e) => Ok (Some e)
      | Ok _ => Raise AttributeError
      | Raise e => Raise e
      end
  | Ok false => Ok None
  | Raise e => Raise e
  end.

(** The entity a creation response brings, when the creation succeeded. *)
Definition created (response : option json) : option dict :=
  match entity_of_response response with
  | Ok (Some e) => if truthy (JDict e) then Some e else None
  | _ => None
  end.

(** A creation response of the expected shape: a failure (no response, a
    falsy one, or an object without the success indicator), or a success
    with an object under [data]. *)
Definition in_schema (response : option json) : Prop :=
  exists e, entity_of_response response = Ok e.

(** The names a column of the data frame holds: blank cells and missing
    ones, printed [nan], do not count. *)
Definition column_names (df : dataframe) (label : string) : gset string :=
  list_to_set
    (List.filter
       (fun name => negb (String.eqb name "") && negb (String.eqb name "nan"))
       (map (fun row : series => strip (py_str float_repr (cell_of row label)))
            df)).

(** The requests of the three creation loops, for given orders of the
    names and a given owner identifier. *)
Definition loop_requests (owner_id : json) (captains chefs vessels : list string)
  : list request :=
  map (fun name => person_request name MOTORISTA_TYPE "Captain") captains ++
  map (fun name => person_request name COCINERO_TYPE "Chef") chefs ++
  map (vessel_request owner_id) vessels.

(** The date [y]-[m]-[d] written [YYYY<sep>MM<sep>DD]. *)
Definition date_text (sep : ascii) (y m d : Z) : string :=
  string_of_list_ascii
    (pad_digits 4 y ++ [sep] ++ pad_digits 2 m ++ [sep] ++ pad_digits 2 d).

(** The ISO-8601 timestamp of midnight UTC on the date [y]-[m]-[d]. *)
Definition iso_midnight (y m d : Z) : string :=
  string_of_list_ascii
    (pad_digits 4 y ++ ["-"%char] ++ pad_digits 2 m ++ ["-"%char] ++
     pad_digits 2 d ++ list_ascii_of_string "T00:00:00+00:00").

(** The longest run of digits at the head of a text, and what follows. *)
Fixpoint span_digits (l : list ascii) : list ascii * list ascii :=
  match l with
  | c :: r => if is_digit c
              then let '(ds, t) := span_digits r in (c :: ds, t)
              else ([], l)
  | [] => ([], [])
  end.

(** The text does not start with a digit. *)
Definition no_lead_digit (l : list ascii) : Prop :=
  match l with
  | c :: _ => is_digit c = false
  | [] => True
  end.

(** What [re.match] of the numeral pattern reports, read off the text. *)
Definition numeral_at (l : list ascii) : option (list ascii) :=
  let '(ip, rest) := span_digits l in
  match ip, rest with
  | [], _ => None
  | _, d :: r =>
      if Ascii.eqb "." d then
        match span_digits r with
        | ([], _) => Some ip
        | (fp, _) => Some (ip ++ d :: fp)
        end
      else Some ip
  | _, [] => Some ip
  end.

(** The entity listed last under a key. *)
Fixpoint latest (kvs : list (string * dict)) (key : string) : option dict :=
  match kvs with
  | [] => None
  | (k, v) :: kvs' =>
      match latest kvs' key with
      | Some v' => Some v'
      | None => if String.eqb k key then Some v else None
      end
  end.

(** The entities of a listing that come before the first one without a
    text under [name_field], and whether there is such an entity. *)
Fixpoint entries_before_error (entities : list json) (name_field : string)
  : list (string * dict) * option exn :=
  match entities with
  | [] => ([], None)
  | entity :: entities' =>
      match cache_key entity name_field with
      | Ok kv => let '(kvs, e) := entries_before_error entities' name_field in
                 (kv :: kvs, e)
      | Raise e => ([], Some e)
      end
  end.

(** The four listings [load_entities_cache] asks for, in order. *)
Definition cache_requests : list request :=
  [mk_request GET "/vessels/0/1000" None;
   mk_request GET "/persons/0/5000" None;
   mk_request GET "/wasteTypes/0/100" None;
   mk_request GET "/systemUsers/0/100" None].

(** The entities a listing response brings: those under a truthy [data]. *)
Definition listed (response : option json) : result (list json) :=
  match response_has response "data" with
  | Ok true =>
      match response_item response "data" with
      | Ok (JList entities) => Ok entities
      | Ok _ => Raise TypeError
      | Raise e => Raise e
      end
  | Ok false => Ok []
  | Raise e => Raise e
  end.

(** What a listing response adds to a cache: the entities that come
    before the first ill-formed one, and the error that one raises. *)
Definition entries (response : option json) (name_field : string)
  : list (string * dict) :=
  match listed response with
  | Ok entities => (entries_before_error entities name_field).1
  | Raise _ => []
  end.

Definition load_error (response : option json) (name_field : string)
  : option exn :=
  match listed response with
  | Ok entities => (entries_before_error entities name_field).2
  | Raise e => Some e
  end.

(** The response recorded at a position of a list of exchanges. *)
Definition response_at (xs : list (request * option json)) (i : nat)
  : option json :=
  match xs !! i with
  | Some x => x.2
  | None => None
  end.

(** The digitizer after the listings recorded in [xs] were loaded into
    the caches of [d]: vessels from the first response, persons from the
    second, waste types from the third, system users from the fourth. *)
Definition loaded (d : digitizer) (xs : list (request * option json))
  : digitizer :=
  foldl (fun d kv => set_system_user kv.1 kv.2 d)
    (foldl (fun d kv => set_waste_type kv.1 kv.2 d)
       (foldl (fun d kv => set_person kv.1 kv.2 d)
          (foldl (fun d kv => set_vessel kv.1 kv.2 d) d
             (entries (response_at xs 0) "VesselName"))
          (entries (response_at xs 1) "Name"))
       (entries (response_at xs 2) "typeName"))
    (entries (response_at xs 3) "FullName").

(** The waste creation request of one category: sent when the quantity
    is positive and the waste type is cached, and not otherwise. *)
Definition waste_request (waste_type : option dict) (vessel : dict)
    (manifest_data : manifest) (compliance_id : json) (quantity : float)
  : list request :=
  if f_ltb f_zero quantity then
    match waste_type with
    | Some wt =>
        if truthy (JDict wt)
        then [mk_request POST "/wastes"
                (Some (waste_data vessel wt quantity manifest_data compliance_id))]
        else []
    | None => []
    end
  else [].

(** The waste creation requests of a manifest, category by category. *)
Definition waste_requests (d : digitizer) (vessel : dict)
    (manifest_data : manifest) (compliance_id : json) : list request :=
  waste_request (waste_types_cache d !! "aceite") vessel manifest_data
                compliance_id (oil_used manifest_data) ++
  waste_request (waste_types_cache d !! "filtros de aceite") vessel
                manifest_data compliance_id (oil_filters_used manifest_data) ++
  waste_request (waste_types_cache d !! "filtros diesel") vessel manifest_data
                compliance_id (diesel_filters_used manifest_data) ++
  waste_request (waste_types_cache d !! "desechos solidos") vessel
                manifest_data compliance_id (junk_reported manifest_data).

(** The rows a pass works on (lines 329-338): rows that are not empty
    and whose vessel name does not read as a test, from [start_from] on,
    cut to [max_records]. *)
Definition kept_rows (df : dataframe) (start_from : Z) (max_records : option Z)
  : result dataframe :=
  match drop_test_records df (dropna_all df) with
  | Ok df' =>
      Ok (limit max_records
            (if 0 <? start_from then drop (Z.to_nat start_from) df' else df'))
  | Raise e => Raise e
  end.

(** Two digitizers hold the same caches. *)
Definition same_caches (d d' : digitizer) : Prop :=
  vessels_cache d' = vessels_cache d /\
  persons_cache d' = persons_cache d /\
  waste_types_cache d' = waste_types_cache d /\
  system_users_cache d' = system_users_cache d.

(** An exchange of the manifest importer: the creation of a compliance
    record or of a waste record. *)
Definition is_creation (x : request * option json) : Prop :=
  is_post "/compliances" x \/ is_post "/wastes" x.

(** Every cell of the row is missing. *)
Definition all_missing (row : series) : Prop :=
  map_Forall (fun (_ : string) (c : cell) => isna c = true) row.

(** A float that is zero, positive or plus infinity: neither negative
    nor NaN. *)
Definition nonnegative (f : float) : Prop :=
  match f with
  | S754_zero s | S754_infinity s | S754_finite s _ _ => s = false
  | S754_nan => False
  end.

(** A month or a day written without a leading zero. *)
Definition short_digits (n : Z) : list ascii :=
  if n <? 10 then [digit_char n] else pad_digits 2 n.

(** The date [y]-[m]-[d] written [YYYY<sep>M<sep>D]. *)
Definition date_text_unpadded (sep : ascii) (y m d : Z) : string :=
  string_of_list_ascii
    (pad_digits 4 y ++ [sep] ++ short_digits m ++ [sep] ++ short_digits d).

(** The number of exchanges whose response brings a created entity. *)
Definition creations (xs : list (request * option json)) : Z :=
  Z.of_nat
    (length (List.filter
               (fun x : request * option json =>
                  match created x.2 with Some _ => true | None => false end)
               xs)).

(** An exchange of the bootstrap pass: the creation of a person or of a
    vessel. *)
Definition is_bootstrap (x : request * option json) : Prop :=
  is_post "/persons" x \/ is_post "/vessels" x.

(** An exchange of the import pass: one of the four listings, or the
    creation of a compliance record or of a waste record. *)
Definition is_import (x : request * option json) : Prop :=
  x.1 ∈ cache_requests \/ is_creation x.

(** The creation request of the default owner. *)
Definition owner_request : request :=
  person_request "Unknown Owner" PROPIETARIO_TYPE "Default vessel owner".

(* ===================================================================== *)
(** * Properties of the value normalizer                                  *)
(* ===================================================================== *)

#[local] Arguments Ascii.eqb : simpl never.

(** ** The numeral pattern *)

Lemma m_digits1_head c r :
  is_digit c = true ->
  exists tl, m_digits1 (c :: r)
             = (c :: (span_digits r).1, (span_digits r).2) :: tl.
Proof.
  revert c. induction r as [|c' r IH]; intros c Hc; simpl; rewrite Hc.
  - exists []. reflexivity.
  - destruct (is_digit c') eqn:Hc'.
    + destruct (IH c' Hc') as [tl Htl]. simpl in Htl. rewrite Hc' in Htl.
      rewrite Htl. destruct (span_digits r) as [ds t]. simpl.
      eexists. reflexivity.
    + simpl. exists []. reflexivity.
Qed.

Lemma m_digits1_nil l :
  match l with c :: _ => is_digit c = false | [] => True end ->
  m_digits1 l = [].
Proof. destruct l as [|c r]; simpl; [reflexivity|]. intros ->. reflexivity. Qed.

Lemma re_match_numeral l : re_match numeral_re l = numeral_at l.
Proof.
  unfold re_match, numeral_at, numeral_re, m_bind.
  destruct l as [|c r]; [reflexivity|].
  destruct (is_digit c) eqn:Hc.
  - destruct (m_digits1_head c r Hc) as [tl ->].
    simpl span_digits. rewrite Hc.
    destruct (span_digits r) as [ds t]. simpl.
    unfold m_alt, m_lit, m_class, m_ret.
    destruct t as [|d t']; simpl; [reflexivity|].
    destruct (Ascii.eqb "." d) eqn:Hd; simpl; [|reflexivity].
    destruct t' as [|e t'']; simpl; [reflexivity|].
    destruct (is_digit e) eqn:He.
    + destruct (m_digits1_head e t'' He) as [tl' Htl']. simpl in Htl'.
      rewrite He in Htl'. rewrite Htl'.
      destruct (span_digits t'') as [fs u]. simpl. reflexivity.
    + simpl. reflexivity.
  - rewrite m_digits1_nil by exact Hc. simpl. rewrite Hc. reflexivity.
Qed.

(** No digit, no match: the search moves on. *)
Lemma re_search_skip c l :
  is_digit c = false ->
  re_search numeral_re (c :: l) = re_search numeral_re l.
Proof.
  intros Hc. simpl. rewrite re_match_numeral. unfold numeral_at. simpl.
  rewrite Hc. reflexivity.
Qed.

Lemma re_search_skip_all pre l :
  Forall (fun c => is_digit c = false) pre ->
  re_search numeral_re (pre ++ l) = re_search numeral_re l.
Proof.
  induction 1 as [|c pre Hc _ IH]; [reflexivity|].
  rewrite <- app_comm_cons, re_search_skip by exact Hc. exact IH.
Qed.

Lemma re_search_no_digit l :
  Forall (fun c => is_digit c = false) l -> re_search numeral_re l = None.
Proof.
  intros H. rewrite <- (app_nil_r l), re_search_skip_all by exact H.
  reflexivity.
Qed.

Lemma re_search_at_digit c l :
  is_digit c = true ->
  re_search numeral_re (c :: l) = numeral_at (c :: l).
Proof.
  intros Hc. simpl re_search. rewrite re_match_numeral.
  destruct (numeral_at (c :: l)) eqn:E; [reflexivity|].
  unfold numeral_at in E. simpl in E. rewrite Hc in E.
  destruct (span_digits l) as [ds t].
  destruct t as [|d t']; [discriminate|].
  destruct (Ascii.eqb "." d); [|discriminate].
  destruct (span_digits t') as [[|f fs] u]; discriminate.
Qed.

(** ** Digit runs *)

Lemma span_digits_run ds rest :
  Forall (fun c => is_digit c = true) ds ->
  no_lead_digit rest ->
  span_digits (ds ++ rest) = (ds, rest).
Proof.
  intros Hds Hrest. induction Hds as [|c ds Hc _ IH]; simpl.
  - destruct rest as [|c r]; [reflexivity|]. simpl in *.
    rewrite Hrest. reflexivity.
  - rewrite Hc, IH. reflexivity.
Qed.

Lemma span_digits_app_r x b :
  no_lead_digit b ->
  span_digits (x ++ b) = ((span_digits x).1, (span_digits x).2 ++ b).
Proof.
  intros Hb. induction x as [|c x IH]; simpl.
  - destruct b as [|d b]; [reflexivity|]. simpl in *. rewrite Hb. reflexivity.
  - destruct (is_digit c); [|reflexivity].
    rewrite IH. destruct (span_digits x). reflexivity.
Qed.

Lemma space_not_digit c : is_space c = true -> is_digit c = false.
Proof.
  unfold is_space, is_digit. intros H.
  apply andb_false_iff. apply orb_true_iff in H.
  destruct H as [H|H]; apply andb_true_iff in H; destruct H as [H1 H2];
    apply Z.leb_le in H1, H2; left; apply Z.leb_gt; lia.
Qed.

Lemma space_not_dot c : is_space c = true -> Ascii.eqb "." c = false.
Proof.
  intros H. destruct (Ascii.eqb "." c) eqn:E; [|reflexivity].
  apply Ascii.eqb_eq in E. subst c. discriminate H.
Qed.

Lemma spaces_no_lead_digit b :
  Forall (fun c => is_space c = true) b -> no_lead_digit b.
Proof. destruct 1 as [|c b Hc _]; simpl; auto using space_not_digit. Qed.

Lemma numeral_at_app_spaces x b :
  Forall (fun c => is_space c = true) b ->
  numeral_at (x ++ b) = numeral_at x.
Proof.
  intros Hb. unfold numeral_at.
  rewrite span_digits_app_r by (apply spaces_no_lead_digit, Hb).
  destruct (span_digits x) as [ip rest]. simpl.
  destruct ip as [|i ip]; [reflexivity|].
  destruct rest as [|d r]; simpl.
  - destruct Hb as [|c b Hc _]; [reflexivity|].
    rewrite (space_not_dot c Hc). reflexivity.
  - destruct (Ascii.eqb "." d); [|reflexivity].
    rewrite span_digits_app_r by (apply spaces_no_lead_digit, Hb).
    destruct (span_digits r) as [fp u]. reflexivity.
Qed.

Lemma re_search_app_spaces l b :
  Forall (fun c => is_space c = true) b ->
  re_search numeral_re (l ++ b) = re_search numeral_re l.
Proof.
  intros Hb. induction l as [|c l IH].
  - simpl app. rewrite re_search_no_digit; [reflexivity|].
    eapply Forall_impl; [exact Hb|]. apply space_not_digit.
  - rewrite <- app_comm_cons. destruct (is_digit c) eqn:Hc.
    + rewrite !re_search_at_digit by exact Hc.
      rewrite app_comm_cons. apply numeral_at_app_spaces, Hb.
    + rewrite !re_search_skip by exact Hc. exact IH.
Qed.

(** ** [strip] only removes blanks at both ends *)

Lemma lstrip_split l :
  exists a, l = a ++ lstrip l /\ Forall (fun c => is_space c = true) a.
Proof.
  induction l as [|c l [a [E Ha]]]; simpl.
  - exists []. split; [reflexivity|constructor].
  - destruct (is_space c) eqn:Hc.
    + exists (c :: a). split; [simpl; congruence|constructor; assumption].
    + exists []. split; [reflexivity|constructor].
Qed.

Lemma strip_chars_split l :
  exists a b, l = a ++ strip_chars l ++ b /\
              Forall (fun c => is_space c = true) a /\
              Forall (fun c => is_space c = true) b.
Proof.
  destruct (lstrip_split l) as [a [E Ha]].
  destruct (lstrip_split (rev (lstrip l))) as [b [E' Hb]].
  exists a, (rev b). split; [|split].
  - unfold strip_chars. rewrite <- rev_app_distr, <- E', rev_involutive.
    exact E.
  - exact Ha.
  - apply Forall_rev. exact Hb.
Qed.

Lemma re_search_strip l :
  re_search numeral_re (strip_chars l) = re_search numeral_re l.
Proof.
  destruct (strip_chars_split l) as [a [b [E [Ha Hb]]]].
  rewrite E at 2. rewrite re_search_skip_all.
  - symmetry. apply re_search_app_spaces, Hb.
  - eapply Forall_impl; [exact Ha|]. apply space_not_digit.
Qed.

(** ** [clean_numeric_value] on text *)

Lemma clean_numeric_value_text s :
  clean_numeric_value float_repr (CStr s)
  = match re_search numeral_re (list_ascii_of_string s) with
    | Some numeric_match => float_of_numeral numeric_match
    | None => f_zero
    end.
Proof.
  unfold clean_numeric_value. simpl.
  destruct (String.eqb_spec s "") as [->|_]; [reflexivity|].
  simpl. unfold strip.
  rewrite list_ascii_of_string_of_list_ascii, re_search_strip. reflexivity.
Qed.

Lemma digits1_cons ds :
  digits1 ds -> exists c r, ds = c :: r /\ is_digit c = true.
Proof.
  intros [Hne Hall]. destruct ds as [|c r]; [congruence|].
  exists c, r. split; [reflexivity|]. apply Forall_cons in Hall. tauto.
Qed.

Lemma digits1_snoc ds d : digits1 ds -> is_digit d = true -> digits1 (ds ++ [d]).
Proof.
  intros [Hne Hall] Hd. split.
  - destruct ds; discriminate.
  - apply Forall_app. split; [exact Hall|]. constructor; [exact Hd|constructor].
Qed.

(** The search finds the first numeral of the specification. *)
Lemma re_search_first_numeral l num :
  first_numeral l num -> re_search numeral_re l = Some num.
Proof.
  intros (pre & post & -> & Hpre & Hnum & Hmax).
  rewrite re_search_skip_all by exact Hpre.
  assert (Hpost : no_lead_digit post).
  { destruct post as [|d post']; simpl; [exact I|].
    destruct (is_digit d) eqn:Hd; [exfalso|reflexivity].
    apply (Hmax [d] post' eq_refl); [discriminate|].
    destruct Hnum as [ip Hip|ip fp Hip Hfp].
    - apply numeral_int, digits1_snoc; assumption.
    - rewrite <- app_assoc. simpl. apply numeral_dec; [exact Hip|].
      apply digits1_snoc; assumption. }
  destruct Hnum as [ip Hip|ip fp Hip Hfp].
  - destruct (digits1_cons ip Hip) as (c & r & -> & Hc).
    rewrite <- app_comm_cons, re_search_at_digit by exact Hc.
    unfold numeral_at. rewrite app_comm_cons.
    rewrite span_digits_run by (apply Hip || exact Hpost).
    destruct post as [|d post']; [reflexivity|].
    destruct (Ascii.eqb "." d) eqn:Hd; [|reflexivity].
    apply Ascii.eqb_eq in Hd. subst d.
    destruct post' as [|e post'']; [reflexivity|].
    simpl span_digits. destruct (is_digit e) eqn:He; [exfalso|reflexivity].
    apply (Hmax ["."%char; e] post'' eq_refl); [discriminate|].
    apply numeral_dec; [exact Hip|].
    split; [discriminate|]. constructor; [exact He|constructor].
  - destruct (digits1_cons ip Hip) as (c & r & -> & Hc).
    rewrite <- app_assoc, <- !app_comm_cons, re_search_at_digit by exact Hc.
    unfold numeral_at. rewrite app_comm_cons.
    rewrite span_digits_run; [|apply Hip|reflexivity].
    change (Ascii.eqb "." ".") with true. cbv iota.
    rewrite span_digits_run by (apply Hfp || exact Hpost).
    destruct (digits1_cons fp Hfp) as (f & fr & -> & _). reflexivity.
Qed.

(** C7: [clean_numeric_value] returns 0.0 for empty or missing input;
    for any other text it returns, as a float, the first contiguous
    integer-or-decimal numeral of the text (["120 litros"] gives 120.0),
    and 0.0 when the text holds no digit at all (["n/a"] gives 0.0). *)
Theorem clean_numeric_value_first_numeral :
  clean_numeric_value float_repr (CStr "") = f_zero /\
  (forall c, isna c = true -> clean_numeric_value float_repr c = f_zero) /\
  (forall s num,
      first_numeral (list_ascii_of_string s) num ->
      clean_numeric_value float_repr (CStr s) = float_of_numeral num) /\
  (forall s,
      Forall (fun c => is_digit c = false) (list_ascii_of_string s) ->
      clean_numeric_value float_repr (CStr s) = f_zero) /\
  clean_numeric_value float_repr (CStr "120 litros") = float_of_Z 120 /\
  clean_numeric_value float_repr (CStr "n/a") = f_zero.
Proof.
  split; [reflexivity|]. split; [|split; [|split; [|split]]].
  - intros c Hc. unfold clean_numeric_value. rewrite Hc, orb_true_r.
    reflexivity.
  - intros s num H. rewrite clean_numeric_value_text.
    rewrite (re_search_first_numeral _ _ H). reflexivity.
  - intros s H. rewrite clean_numeric_value_text.
    rewrite (re_search_no_digit _ H). reflexivity.
  - vm_compute. reflexivity.
  - vm_compute. reflexivity.
Qed.

(** ** The date pattern on a padded date *)

Lemma digit_char_is_digit k : 0 <= k <= 9 -> is_digit (digit_char k) = true.
Proof.
  intros H.
  assert (E : In k [0; 1; 2; 3; 4; 5; 6; 7; 8; 9]) by (simpl; lia).
  simpl in E. intuition (subst; reflexivity).
Qed.

Lemma digit_val_char k : 0 <= k <= 9 -> digit_val (digit_char k) = k.
Proof.
  intros H.
  assert (E : In k [0; 1; 2; 3; 4; 5; 6; 7; 8; 9]) by (simpl; lia).
  simpl in E. intuition (subst; reflexivity).
Qed.

Lemma pad_digits_all_digits w n :
  Forall (fun c => is_digit c = true) (pad_digits w n).
Proof.
  revert n. induction w as [|w IH]; intros n; simpl; [constructor|].
  apply Forall_app. split; [apply IH|].
  constructor; [|constructor].
  apply digit_char_is_digit. pose proof (Z.mod_pos_bound n 10). lia.
Qed.

Lemma m_bind_head {A B} (m : matcher A) (k : A -> matcher B) l a r tl z tl' :
  m l = (a, r) :: tl ->
  k a r = z :: tl' ->
  m_bind m k l = z :: tl' ++ flat_map (fun '(a, r) => k a r) tl.
Proof. intros Hm Hk. unfold m_bind. rewrite Hm. simpl. rewrite Hk. reflexivity. Qed.

Ltac digit_bound :=
  match goal with
  | |- _ <= ?n mod 10 <= _ => pose proof (Z.mod_pos_bound n 10); lia
  end.

Lemma re_Y_pad y rest :
  0 <= y <= 9999 -> re_Y (pad_digits 4 y ++ rest) = [(y, rest)].
Proof.
  intros Hy. unfold re_Y, m_bind, m_class. simpl.
  do 4 (rewrite !digit_char_is_digit by digit_bound; simpl).
  unfold m_ret, int_of_digits. simpl.
  rewrite !digit_val_char by digit_bound.
  do 2 f_equal. Z.to_euclidean_division_equations. lia.
Qed.

Lemma in_range_Z (P : Z -> Prop) lo n :
  Forall P (seqZ lo n) -> forall z, lo <= z < lo + n -> P z.
Proof.
  intros H z Hz. rewrite Forall_forall in H. apply H.
  apply elem_of_seqZ. lia.
Qed.

Lemma re_m_pad m rest :
  1 <= m <= 12 -> exists tl, re_m (pad_digits 2 m ++ rest) = (m, rest) :: tl.
Proof.
  intros Hm. revert rest.
  apply (in_range_Z (fun m => forall rest, exists tl,
           re_m (pad_digits 2 m ++ rest) = (m, rest) :: tl) 1 12); [|lia].
  repeat (constructor; [intros rest; eexists; reflexivity|]). constructor.
Qed.

Lemma re_d_pad d rest :
  1 <= d <= 31 -> exists tl, re_d (pad_digits 2 d ++ rest) = (d, rest) :: tl.
Proof.
  intros Hd. revert rest.
  apply (in_range_Z (fun d => forall rest, exists tl,
           re_d (pad_digits 2 d ++ rest) = (d, rest) :: tl) 1 31); [|lia].
  repeat (constructor; [intros rest; eexists; reflexivity|]). constructor.
Qed.

Lemma m_lit_same c rest : m_lit c (c :: rest) = [(c, rest)].
Proof. unfold m_lit, m_class. rewrite Ascii.eqb_refl. reflexivity. Qed.

Lemma valid_date_bounds y m d :
  valid_date y m d = true -> 1 <= y <= 9999 /\ 1 <= m <= 12 /\ 1 <= d <= 31.
Proof.
  unfold valid_date. rewrite !andb_true_iff, !Z.leb_le.
  intros [[[[[? ?] ?] ?] ?] Hd].
  assert (days_in_month y m <= 31).
  { unfold days_in_month.
    repeat match goal with |- context [if ?b then _ else _] => destruct b end;
      lia. }
  lia.
Qed.

Lemma date_re_pad sep y m d :
  valid_date y m d = true ->
  exists tl,
    date_re sep (pad_digits 4 y ++ [sep] ++ pad_digits 2 m ++ [sep] ++
                 pad_digits 2 d)
    = ((y, m, d), []) :: tl.
Proof.
  intros Hv. destruct (valid_date_bounds _ _ _ Hv) as (Hy & Hm & Hd).
  destruct (re_m_pad m ([sep] ++ pad_digits 2 d) Hm) as [tlm Em].
  destruct (re_d_pad d [] Hd) as [tld Ed]. rewrite app_nil_r in Ed.
  unfold date_re. eexists.
  eapply m_bind_head; [apply re_Y_pad; lia|].
  eapply m_bind_head; [apply m_lit_same|].
  eapply m_bind_head; [exact Em|].
  eapply m_bind_head; [apply m_lit_same|].
  eapply m_bind_head; [exact Ed|]. reflexivity.
Qed.

Lemma strptime_pad sep y m d :
  valid_date y m d = true ->
  strptime sep (pad_digits 4 y ++ [sep] ++ pad_digits 2 m ++ [sep] ++
                pad_digits 2 d)
  = Ok (mk_datetime y m d 0 0 0 0).
Proof.
  intros Hv. unfold strptime.
  destruct (date_re_pad sep y m d Hv) as [tl ->]. rewrite Hv. reflexivity.
Qed.

Lemma digit_not_slash c : is_digit c = true -> Ascii.eqb "/" c = false.
Proof.
  intros H. destruct (Ascii.eqb "/" c) eqn:E; [|reflexivity].
  apply Ascii.eqb_eq in E. subst c. discriminate H.
Qed.

Lemma no_slash_in_digits sep y m d :
  Ascii.eqb "/" sep = false ->
  contains_char "/" (pad_digits 4 y ++ [sep] ++ pad_digits 2 m ++ [sep] ++
                     pad_digits 2 d) = false.
Proof.
  intros Hsep. unfold contains_char.
  assert (Hd : forall w n, existsb (Ascii.eqb "/") (pad_digits w n) = false).
  { intros w n. apply not_true_is_false. intros H.
    apply existsb_exists in H. destruct H as (c & Hin & Hc).
    pose proof (pad_digits_all_digits w n) as Hall.
    rewrite Forall_forall in Hall. apply list_elem_of_In in Hin.
    rewrite (digit_not_slash c (Hall c Hin)) in Hc. discriminate. }
  rewrite !existsb_app, !Hd. simpl. rewrite Hsep. reflexivity.
Qed.

Lemma slash_found l r : contains_char "/" (l ++ ["/"%char] ++ r) = true.
Proof.
  unfold contains_char. rewrite !existsb_app.
  change (existsb (Ascii.eqb "/") ["/"%char]) with true.
  apply orb_true_r.
Qed.

Lemma parse_date_text_slash y m d :
  valid_date y m d = true ->
  parse_date (date_text "/" y m d) = Ok (mk_datetime y m d 0 0 0 0).
Proof.
  intros Hv. unfold parse_date, date_text.
  rewrite list_ascii_of_string_of_list_ascii, slash_found.
  apply strptime_pad, Hv.
Qed.

Lemma parse_date_text_dash y m d :
  valid_date y m d = true ->
  parse_date (date_text "-" y m d) = Ok (mk_datetime y m d 0 0 0 0).
Proof.
  intros Hv. unfold parse_date, date_text.
  rewrite list_ascii_of_string_of_list_ascii, no_slash_in_digits by reflexivity.
  apply strptime_pad, Hv.
Qed.

Lemma isoformat_midnight y m d :
  isoformat (mk_datetime y m d 0 0 0 0) = iso_midnight y m d.
Proof.
  unfold isoformat, iso_midnight. reflexivity.
Qed.

(** C8: [format_date] maps a date written [YYYY/MM/DD] and the same date
    written [YYYY-MM-DD] to the same ISO-8601 timestamp of midnight UTC,
    without reading the clock; when the text does not parse it returns
    the ISO-8601 form of the clock's current UTC instant; it never
    raises. *)
Theorem format_date_same_for_both_formats :
  (forall y m d st,
      valid_date y m d = true ->
      format_date (date_text "/" y m d) st = (Ok (iso_midnight y m d), st) /\
      format_date (date_text "-" y m d) st = (Ok (iso_midnight y m d), st)) /\
  (forall date_str st e,
      parse_date date_str = Raise e ->
      format_date date_str st
      = (Ok (isoformat (utcnow (world st)).1),
         mk_state (self st) (utcnow (world st)).2 (exchanges st))) /\
  (forall date_str st, exists t st', format_date date_str st = (Ok t, st')).
Proof.
  split; [|split].
  - intros y m d st Hv. unfold format_date.
    rewrite parse_date_text_slash, parse_date_text_dash by exact Hv.
    rewrite isoformat_midnight. split; reflexivity.
  - intros date_str st e He. unfold format_date. rewrite He.
    destruct (utcnow (world st)). reflexivity.
  - intros date_str st. unfold format_date.
    destruct (parse_date date_str).
    + eexists _, _. reflexivity.
    + destruct (utcnow (world st)). eexists _, _. reflexivity.
Qed.

(* ===================================================================== *)
(** * Properties of the manifest importer                                 *)
(* ===================================================================== *)

(** ** Requests *)

Lemma make_request_post endpoint data st :
  _make_request "POST" endpoint data st
  = let req := mk_request POST endpoint data in
    (Ok (answer (world st) req).1,
     mk_state (self st) (answer (world st) req).2
              (exchanges st ++ [(req, (answer (world st) req).1)])).
Proof.
  unfold _make_request. simpl. destruct (answer (world st) _). reflexivity.
Qed.

(** A request whose body cannot be serialised gets no answer, and the
    backend is not reached. *)
Lemma answer_unserialisable w req :
  serialisable (req_body req) = false -> answer w req = (None, w).
Proof. unfold answer. intros ->. reflexivity. Qed.

(** The exchanges of a run in which every request that could not be
    serialised went unanswered. *)
Lemma unanswered_app (xs ys : list (request * option json)) :
  Forall (fun x => serialisable (req_body x.1) = false -> x.2 = None) xs ->
  Forall (fun x => serialisable (req_body x.1) = false -> x.2 = None) ys ->
  Forall (fun x => serialisable (req_body x.1) = false -> x.2 = None) (xs ++ ys).
Proof. intros Hx Hy. apply Forall_app. split; assumption. Qed.

Lemma waste_request_shape waste_type vessel md cid quantity :
  Forall (fun q => req_method q = POST /\ req_endpoint q = "/wastes")
         (waste_request waste_type vessel md cid quantity) /\
  (length (waste_request waste_type vessel md cid quantity) <= 1)%nat.
Proof.
  unfold waste_request. destruct (f_ltb f_zero quantity); [|split; [constructor|simpl; lia]].
  destruct waste_type as [wt|]; [|split; [constructor|simpl; lia]].
  destruct (truthy (JDict wt)); split; repeat constructor; simpl; lia.
Qed.

Lemma waste_requests_shape d vessel md cid :
  Forall (fun q => req_method q = POST /\ req_endpoint q = "/wastes")
         (waste_requests d vessel md cid) /\
  (length (waste_requests d vessel md cid) <= 4)%nat.
Proof.
  unfold waste_requests. rewrite !Forall_app, !length_app.
  pose proof (waste_request_shape (waste_types_cache d !! "aceite") vessel md
                cid (oil_used md)) as [F1 L1].
  pose proof (waste_request_shape (waste_types_cache d !! "filtros de aceite")
                vessel md cid (oil_filters_used md)) as [F2 L2].
  pose proof (waste_request_shape (waste_types_cache d !! "filtros diesel")
                vessel md cid (diesel_filters_used md)) as [F3 L3].
  pose proof (waste_request_shape (waste_types_cache d !! "desechos solidos")
                vessel md cid (junk_reported md)) as [F4 L4].
  split; [repeat split; assumption|lia].
Qed.

Lemma prefix_shape (P : request -> Prop) (n : nat)
    (ws : list (request * option json)) (qs : list request) :
  map fst ws `prefix_of` qs ->
  Forall P qs -> (length qs <= n)%nat ->
  Forall (fun w => P w.1) ws /\ (length ws <= n)%nat.
Proof.
  intros [k Hk] HF HL. rewrite Hk in HF, HL. apply Forall_app in HF.
  destruct HF as [HF _]. rewrite Forall_map in HF.
  rewrite length_app, length_map in HL. split; [exact HF|lia].
Qed.

(** A waste block keeps the digitizer as it is and makes the request of
    its category, if there is one; it raises when the response to it is
    not readable, and returns otherwise. *)
Lemma create_waste_run vessel md cid quantity type_name n st :
  exists r ws w',
    create_waste vessel md cid quantity type_name n st
    = (r, mk_state (self st) w' (exchanges st ++ ws)) /\
    map fst ws
    = waste_request (get_waste_type_by_name (self st) type_name)
                    vessel md cid quantity /\
    ((exists n', r = Ok n') <-> Forall (fun w => readable w.2) ws) /\
    Forall (fun x => serialisable (req_body x.1) = false -> x.2 = None) ws.
Proof.
  assert (Hnone : exists r ws w',
             (Ok n, st) = (r, mk_state (self st) w' (exchanges st ++ ws)) /\
             map fst ws = [] /\
             ((exists n', r = Ok n') <-> Forall (fun w => readable w.2) ws) /\
             Forall (fun x => serialisable (req_body x.1) = false -> x.2 = None)
                    ws).
  { exists (Ok n), [], (world st). rewrite app_nil_r.
    split; [destruct st; reflexivity|]. split; [reflexivity|].
    split; [|constructor]. split; [constructor|eexists; reflexivity]. }
  unfold create_waste, waste_request.
  destruct (f_ltb f_zero quantity); [|exact Hnone].
  unfold bind, get_self.
  destruct (get_waste_type_by_name (self st) type_name) as [wt|];
    [|exact Hnone].
  destruct (truthy (JDict wt)); [|exact Hnone]. clear Hnone.
  rewrite make_request_post. cbv beta zeta.
  set (req := mk_request POST "/wastes" _).
  pose proof (answer_unserialisable (world st) req) as Hu.
  destruct (answer (world st) req) as [waste_response w]. cbn [fst snd].
  unfold lift.
  exists (match response_has waste_response "success" with
          | Ok created => Ok (if created then n + 1 else n)
          | Raise e => Raise e
          end), [(req, waste_response)], w.
  split; [destruct (response_has waste_response "success") as [[]|]; reflexivity|].
  split; [reflexivity|]. split.
  - unfold readable. split.
    + intros [n' Hn]. constructor; [|constructor]. cbn [snd].
      destruct (response_has waste_response "success") as [b|e];
        [eexists; reflexivity|discriminate Hn].
    + intros HF. apply Forall_cons in HF. destruct HF as [[b Hb] _].
      cbn [snd] in Hb. rewrite Hb. eexists. reflexivity.
  - constructor; [|constructor]. cbn [fst snd]. intros Hs.
    specialize (Hu Hs). congruence.
Qed.

(** ** [create_compliance_manifest], case by case *)

Lemma create_compliance_manifest_no_vessel md st :
  found (find_or_create_vessel (self st) (vessel_name md)) = false ->
  create_compliance_manifest md st = (Ok false, st).
Proof.
  intros H. unfold create_compliance_manifest, try_except, bind, get_self.
  unfold found in H.
  destruct (find_or_create_vessel (self st) (vessel_name md)) as [vessel|];
    [|reflexivity].
  rewrite H. reflexivity.
Qed.

(** The four waste blocks in a row, under the handler of
    [create_compliance_manifest]: the requests made are those of the
    categories, up to the first whose response is not readable. *)
Lemma create_wastes_run vessel md cid st :
  exists b ws w',
    try_except
      (let* n1 := create_waste vessel md cid (oil_used md) "Aceite" 0 in
       let* n2 := create_waste vessel md cid (oil_filters_used md)
                    "Filtros de Aceite" n1 in
       let* n3 := create_waste vessel md cid (diesel_filters_used md)
                    "Filtros Diesel" n2 in
       let* n4 := create_waste vessel md cid (junk_reported md)
                    "Desechos Solidos" n3 in
       ret true)
      (ret false) st
    = (Ok b, mk_state (self st) w' (exchanges st ++ ws)) /\
    map fst ws `prefix_of` waste_requests (self st) vessel md cid /\
    (b = true <-> Forall (fun w => readable w.2) ws) /\
    (b = true -> map fst ws = waste_requests (self st) vessel md cid) /\
    Forall (fun x => serialisable (req_body x.1) = false -> x.2 = None) ws.
Proof.
  unfold try_except, bind.
  destruct (create_waste_run vessel md cid (oil_used md) "Aceite" 0 st)
    as (r1 & ws1 & w1 & E1 & M1 & R1 & U1).
  rewrite E1. destruct r1 as [n1|e1].
  2:{ exists false, ws1, w1. split; [reflexivity|].
      split; [unfold waste_requests; rewrite M1; apply prefix_app_r;
              reflexivity|].
      split; [|split; [discriminate|exact U1]].
      split; [discriminate|]. intros HF. apply R1 in HF.
      destruct HF as [n' Hn]. discriminate Hn. }
  assert (H1 : Forall (fun w => readable w.2) ws1)
    by (apply R1; eexists; reflexivity).
  destruct (create_waste_run vessel md cid (oil_filters_used md)
              "Filtros de Aceite" n1
              (mk_state (self st) w1 (exchanges st ++ ws1)))
    as (r2 & ws2 & w2 & E2 & M2 & R2 & U2).
  cbn [self exchanges] in E2, M2. rewrite E2.
  destruct r2 as [n2|e2].
  2:{ exists false, (ws1 ++ ws2), w2. rewrite <- app_assoc.
      split; [reflexivity|].
      split; [unfold waste_requests; rewrite map_app, M1, M2;
              apply prefix_app, prefix_app_r; reflexivity|].
      split; [|split; [discriminate|apply unanswered_app; assumption]].
      split; [discriminate|]. intros HF. apply Forall_app in HF.
      destruct HF as [_ HF]. apply R2 in HF.
      destruct HF as [n' Hn]. discriminate Hn. }
  assert (H2 : Forall (fun w => readable w.2) ws2)
    by (apply R2; eexists; reflexivity).
  destruct (create_waste_run vessel md cid (diesel_filters_used md)
              "Filtros Diesel" n2
              (mk_state (self st) w2 ((exchanges st ++ ws1) ++ ws2)))
    as (r3 & ws3 & w3 & E3 & M3 & R3 & U3).
  cbn [self exchanges] in E3, M3. rewrite E3.
  destruct r3 as [n3|e3].
  2:{ exists false, (ws1 ++ ws2 ++ ws3), w3. rewrite <- !app_assoc.
      split; [reflexivity|].
      split; [unfold waste_requests; rewrite !map_app, M1, M2, M3;
              apply prefix_app, prefix_app, prefix_app_r; reflexivity|].
      split; [|split; [discriminate|repeat apply unanswered_app; assumption]].
      split; [discriminate|]. intros HF. apply Forall_app in HF.
      destruct HF as [_ HF]. apply Forall_app in HF.
      destruct HF as [_ HF]. apply R3 in HF.
      destruct HF as [n' Hn]. discriminate Hn. }
  assert (H3 : Forall (fun w => readable w.2) ws3)
    by (apply R3; eexists; reflexivity).
  destruct (create_waste_run vessel md cid (junk_reported md)
              "Desechos Solidos" n3
              (mk_state (self st) w3 (((exchanges st ++ ws1) ++ ws2) ++ ws3)))
    as (r4 & ws4 & w4 & E4 & M4 & R4 & U4).
  cbn [self exchanges] in E4, M4. rewrite E4.
  destruct r4 as [n4|e4].
  2:{ exists false, (ws1 ++ ws2 ++ ws3 ++ ws4), w4. rewrite <- !app_assoc.
      split; [reflexivity|].
      split; [unfold waste_requests; rewrite !map_app, M1, M2, M3, M4;
              reflexivity|].
      split; [|split; [discriminate|repeat apply unanswered_app; assumption]].
      split; [discriminate|]. intros HF. apply Forall_app in HF.
      destruct HF as [_ HF]. apply Forall_app in HF.
      destruct HF as [_ HF]. apply Forall_app in HF.
      destruct HF as [_ HF]. apply R4 in HF.
      destruct HF as [n' Hn]. discriminate Hn. }
  assert (H4 : Forall (fun w => readable w.2) ws4)
    by (apply R4; eexists; reflexivity).
  exists true, (ws1 ++ ws2 ++ ws3 ++ ws4), w4. rewrite <- !app_assoc.
  split; [reflexivity|].
  assert (HM : map fst (ws1 ++ ws2 ++ ws3 ++ ws4)
               = waste_requests (self st) vessel md cid).
  { unfold waste_requests. rewrite !map_app, M1, M2, M3, M4. reflexivity. }
  split; [rewrite HM; reflexivity|].
  split; [|split; [intros _; exact HM
                  |repeat apply unanswered_app; assumption]].
  split; [intros _; repeat (apply Forall_app; split); assumption|reflexivity].
Qed.

(** A run whose vessel resolves: the compliance creation is requested,
    and after it, when it succeeded, the waste creations are. *)
Lemma create_compliance_manifest_resolved md st vessel :
  find_or_create_vessel (self st) (vessel_name md) = Some vessel ->
  truthy (JDict vessel) = true ->
  let req := compliance_request (self st) vessel md in
  let response := (answer (world st) req).1 in
  exists b ws w',
    create_compliance_manifest md st
    = (Ok b, mk_state (self st) w' (exchanges st ++ (req, response) :: ws)) /\
    (compliance_created response = false -> ws = [] /\ b = false) /\
    (forall cid,
        response_has response "success" = Ok true ->
        compliance_id response = Some cid ->
        map fst ws `prefix_of` waste_requests (self st) vessel md cid /\
        (b = true <-> Forall (fun w => readable w.2) ws) /\
        (b = true -> map fst ws = waste_requests (self st) vessel md cid)) /\
    Forall (fun x => serialisable (req_body x.1) = false -> x.2 = None)
           ((req, response) :: ws).
Proof.
  intros Hv Ht req response.
  unfold create_compliance_manifest.
  assert (Hsplit : forall (A : Type) (m : M A) (k : A -> M bool) s,
             try_except (let* a := m in k a) (ret false) s
             = match m s with
               | (Ok a, s') => try_except (k a) (ret false) s'
               | (Raise e, s') => (Ok false, s')
               end).
  { intros A m k s. unfold try_except, bind. destruct (m s) as [[a|e] s'];
      reflexivity. }
  rewrite Hsplit. unfold get_self. rewrite Hv, Ht. cbn [negb].
  rewrite Hsplit, make_request_post. cbv beta zeta.
  fold (compliance_request (self st) vessel md). fold req.
  pose proof (answer_unserialisable (world st) req) as Hu.
  fold response.
  set (st1 := mk_state (self st) (answer (world st) req).2
                       (exchanges st ++ [(req, response)])).
  assert (Hun : Forall (fun x => serialisable (req_body x.1) = false ->
                                 x.2 = None) [(req, response)]).
  { constructor; [|constructor]. cbn [fst snd]. intros Hs.
    unfold response. rewrite (Hu Hs). reflexivity. }
  assert (Hstop : compliance_created response = false ->
             exists b ws w',
               (Ok false, st1)
               = (Ok b, mk_state (self st) w'
                          (exchanges st ++ (req, response) :: ws)) /\
               (compliance_created response = false -> ws = [] /\ b = false) /\
               (forall cid,
                   response_has response "success" = Ok true ->
                   compliance_id response = Some cid ->
                   map fst ws
                     `prefix_of` waste_requests (self st) vessel md cid /\
                   (b = true <-> Forall (fun w => readable w.2) ws) /\
                   (b = true ->
                    map fst ws = waste_requests (self st) vessel md cid)) /\
               Forall (fun x => serialisable (req_body x.1) = false ->
                                x.2 = None) ((req, response) :: ws)).
  { intros Hc. exists false, [], (answer (world st) req).2.
    split; [reflexivity|]. split; [auto|]. split; [|exact Hun].
    intros cid Hs Hi. unfold compliance_created in Hc. rewrite Hs, Hi in Hc.
    discriminate Hc. }
  cbv beta iota. rewrite Hsplit. unfold lift at 1.
  destruct (response_has response "success") as [[]|e] eqn:Hs;
    [|apply Hstop; unfold compliance_created; rewrite Hs; reflexivity
     |apply Hstop; unfold compliance_created; rewrite Hs; reflexivity].
  cbn [negb]. rewrite Hsplit. unfold lift at 1.
  assert (Hobj : exists r, response = Some (JDict r)).
  { unfold response_has in Hs. destruct response as [v|]; [|discriminate Hs].
    destruct (truthy v); [|discriminate Hs].
    destruct v; try discriminate Hs. eexists. reflexivity. }
  destruct Hobj as [r Hr]. rewrite Hr in *.
  cbn [response_get py_get].
  destruct (truthy (dict_get r "data")) eqn:Hd; cbn [negb];
    [|apply Hstop; unfold compliance_created, compliance_id; rewrite Hs;
      destruct (dict_get r "data") as [| | | | | |c]; try reflexivity;
      destruct c; [reflexivity|discriminate Hd]].
  rewrite Hsplit. unfold lift at 1.
  destruct (dict_get r "data") as [|b|z|f|t|l|c] eqn:Hdata;
    try (cbn [py_get]; apply Hstop; unfold compliance_created, compliance_id;
         rewrite Hs, Hdata; reflexivity).
  cbn [py_get]. rewrite Hsplit. unfold lift at 1.
  destruct (truthy (py_or (dict_get c "id") (dict_get c "ID"))) eqn:Hid;
    cbn [negb];
    [|apply Hstop; unfold compliance_created, compliance_id;
      rewrite Hs, Hdata; cbv zeta; rewrite Hid; reflexivity].
  clear Hstop. set (cid := py_or (dict_get c "id") (dict_get c "ID")) in *.
  cbv zeta.
  destruct (create_wastes_run vessel md cid st1)
    as (b & ws & w' & E & Hp & Hb & Hall & Hu').
  rewrite E. exists b, ws, w'. unfold st1. cbn [self exchanges].
  rewrite <- app_assoc, Hr. cbn [app]. split; [reflexivity|].
  cbn [self] in Hp, Hall.
  split.
  - unfold compliance_created, compliance_id. rewrite Hs, Hdata. cbv zeta.
    fold cid. rewrite Hid. discriminate.
  - split.
    + intros cid' _ Hi. unfold compliance_id in Hi. rewrite Hdata in Hi.
      cbv zeta in Hi. fold cid in Hi. rewrite Hid in Hi. injection Hi as <-.
      split; [exact Hp|]. split; [exact Hb|exact Hall].
    + apply (unanswered_app [_] ws); assumption.
Qed.

Lemma compliance_created_id response :
  compliance_created response = true ->
  response_has response "success" = Ok true /\
  exists cid, compliance_id response = Some cid.
Proof.
  unfold compliance_created.
  destruct (response_has response "success") as [[]|]; try discriminate.
  destruct (compliance_id response) as [cid|]; [|discriminate].
  intros _. split; [reflexivity|]. exists cid. reflexivity.
Qed.

Lemma create_compliance_manifest_vessel md st vessel :
  find_or_create_vessel (self st) (vessel_name md) = Some vessel ->
  truthy (JDict vessel) = true ->
  let req := compliance_request (self st) vessel md in
  let response := (answer (world st) req).1 in
  exists b ws w',
    create_compliance_manifest md st
    = (Ok b, mk_state (self st) w' (exchanges st ++ (req, response) :: ws)) /\
    Forall (is_post "/wastes") ws /\
    (length ws <= 4)%nat /\
    (compliance_created response = false -> ws = [] /\ b = false) /\
    (compliance_created response = true ->
     Forall (fun w => readable w.2) ws -> b = true).
Proof.
  intros Hv Ht req response.
  destruct (create_compliance_manifest_resolved md st vessel Hv Ht)
    as (b & ws & w' & E & Hfail & Hok & _).
  fold req response in E, Hfail, Hok.
  exists b, ws, w'. split; [exact E|].
  destruct (compliance_created response) eqn:Hc.
  - destruct (compliance_created_id _ Hc) as [Hs [cid Hi]].
    destruct (Hok cid Hs Hi) as (Hp & Hb & _).
    destruct (waste_requests_shape (self st) vessel md cid) as [HF HL].
    destruct (prefix_shape _ 4 ws _ Hp HF HL) as [HF' HL'].
    split; [exact HF'|]. split; [exact HL'|]. split; [discriminate|].
    intros _ Hr. apply Hb, Hr.
  - destruct (Hfail eq_refl) as [-> ->].
    split; [constructor|]. split; [simpl; lia|]. split; [auto|discriminate].
Qed.

(** Whatever the state, [create_compliance_manifest] returns, leaves the
    digitizer as it is, and its requests have the shape of
    [manifest_trace]. *)
Lemma create_compliance_manifest_run md st :
  exists b w' xs,
    create_compliance_manifest md st
    = (Ok b, mk_state (self st) w' (exchanges st ++ xs)) /\
    manifest_trace b xs.
Proof.
  destruct (find_or_create_vessel (self st) (vessel_name md)) as [vessel|] eqn:Hv.
  - destruct (truthy (JDict vessel)) eqn:Ht.
    + destruct (create_compliance_manifest_vessel md st vessel Hv Ht)
        as (b & ws & w' & E & Hws & Hlen & Hfail & Hok).
      eexists b, w', (_ :: ws). split; [exact E|]. right.
      eexists _, ws. repeat split; try assumption.
      * apply Hfail. assumption.
      * apply Hfail. assumption.
    + exists false, (world st), []. split; [|left; split; reflexivity].
      rewrite app_nil_r, create_compliance_manifest_no_vessel;
        [destruct st; reflexivity|].
      rewrite Hv. exact Ht.
  - exists false, (world st), []. split; [|left; split; reflexivity].
    rewrite app_nil_r, create_compliance_manifest_no_vessel;
      [destruct st; reflexivity|].
    rewrite Hv. reflexivity.
Qed.

Lemma format_date_run date_str st :
  exists t w',
    format_date date_str st = (Ok t, mk_state (self st) w' (exchanges st)).
Proof.
  unfold format_date. destruct (parse_date date_str).
  - exists (isoformat a), (world st). destruct st. reflexivity.
  - destruct (utcnow (world st)) as [now w]. eexists _, _. reflexivity.
Qed.

Lemma raw_row_lookup row label :
  raw_row row -> In label columns -> row !! label = Some (cell_of row label).
Proof.
  intros H Hin. unfold raw_row in H. rewrite Forall_forall in H.
  destruct (H label) as [c Hc]; [apply list_elem_of_In, Hin|].
  unfold cell_of. rewrite Hc. reflexivity.
Qed.

Lemma not_raw_row row label :
  In label columns -> row !! label = None -> ~ raw_row row.
Proof.
  intros Hin Hnone H. rewrite (raw_row_lookup row label H Hin) in Hnone.
  discriminate.
Qed.

(** Reading a row touches neither the digitizer nor the backend; it
    succeeds exactly on raw rows. *)
Lemma parse_manifest_run row st :
  (raw_row row /\
   exists date w',
     parse_manifest row st
     = (Ok (manifest_of row date), mk_state (self st) w' (exchanges st))) \/
  (~ raw_row row /\
   exists e w',
     parse_manifest row st
     = (Raise e, mk_state (self st) w' (exchanges st))).
Proof.
  assert (Hst : st = mk_state (self st) (world st) (exchanges st))
    by (destruct st; reflexivity).
  unfold parse_manifest, name_or_blank, bind, row_item, ret, raise.
  destruct (row !! "Vessel Name") as [v|] eqn:Ev;
    [|right; split;
      [eapply not_raw_row; [|exact Ev]; simpl; tauto
      |eexists _, _; rewrite Hst at 1; reflexivity]].
  destruct (row !! "Date") as [dt|] eqn:Edt;
    [|right; split;
      [eapply not_raw_row; [|exact Edt]; simpl; tauto
      |eexists _, _; rewrite Hst at 1; reflexivity]].
  destruct (format_date_run (py_str float_repr dt) st) as (t & w1 & Ef).
  rewrite Ef. clear Hst Ef.
  destruct (row !! "Oil Used") as [c1|] eqn:E1;
    [|right; split;
      [eapply not_raw_row; [|exact E1]; simpl; tauto
      |eexists _, _; reflexivity]].
  destruct (row !! "Oil Filters Used") as [c2|] eqn:E2;
    [|right; split;
      [eapply not_raw_row; [|exact E2]; simpl; tauto
      |eexists _, _; reflexivity]].
  destruct (row !! "Diesel Filters Used") as [c3|] eqn:E3;
    [|right; split;
      [eapply not_raw_row; [|exact E3]; simpl; tauto
      |eexists _, _; reflexivity]].
  destruct (row !! "Junk Reported") as [c4|] eqn:E4;
    [|right; split;
      [eapply not_raw_row; [|exact E4]; simpl; tauto
      |eexists _, _; reflexivity]].
  destruct (row !! "Captain Full Name") as [cap|] eqn:Ecap;
    [|right; split;
      [eapply not_raw_row; [|exact Ecap]; simpl; tauto
      |eexists _, _; reflexivity]].
  destruct (row !! "Chef Full Name") as [chef|] eqn:Echef.
  2:{ right. split; [eapply not_raw_row; [|exact Echef]; simpl; tauto|].
      eexists _, _. destruct (isna cap); reflexivity. }
  destruct (row !! "ID") as [id|] eqn:Eid.
  2:{ right. split; [eapply not_raw_row; [|exact Eid]; simpl; tauto|].
      eexists _, _. destruct (isna cap), (isna chef); reflexivity. }
  left. split.
  - unfold raw_row, columns.
    repeat (apply Forall_cons; split; [eexists; eassumption|]).
    constructor.
  - exists t, w1. unfold manifest_of, quantity, name_of, cell_of.
    rewrite Ev, E1, E2, E3, E4, Ecap, Echef, Eid. simpl default.
    destruct (isna cap), (isna chef); reflexivity.
Qed.

(** ** One iteration of the loop *)

(** The three ways an iteration can go. *)
Lemma process_row_run row st :
  let d0 := bump_processed (self st) in
  (~ raw_row row /\
   exists w',
     process_row row st
     = (Ok tt, mk_state (bump_failed d0) w' (exchanges st))) \/
  (raw_row row /\
   exists date w1,
     let md := manifest_of row date in
     (f_eqb (total_waste md) f_zero = true /\
      process_row row st
      = (Ok tt, mk_state (bump_skipped d0) w1 (exchanges st))) \/
     (f_eqb (total_waste md) f_zero = false /\
      exists b w' xs,
        create_compliance_manifest md (mk_state d0 w1 (exchanges st))
        = (Ok b, mk_state d0 w' (exchanges st ++ xs)) /\
        manifest_trace b xs /\
        process_row row st
        = (Ok tt,
           mk_state ((if b then bump_successful else bump_failed) d0) w'
                    (exchanges st ++ xs)))).
Proof.
  intros d0. unfold process_row, bind, modify_self, try_except.
  set (st0 := mk_state (bump_processed (self st)) (world st) (exchanges st)).
  destruct (parse_manifest_run row st0)
    as [[Hraw (date & w1 & E)]|[Hraw (e & w' & E)]]; rewrite E; simpl self;
    simpl exchanges.
  - right. split; [exact Hraw|]. exists date, w1. cbv zeta.
    destruct (f_eqb (total_waste (manifest_of row date)) f_zero) eqn:Hz.
    + left. split; reflexivity.
    + right. split; [reflexivity|].
      destruct (create_compliance_manifest_run (manifest_of row date)
                  (mk_state d0 w1 (exchanges st)))
        as (b & w' & xs & Ec & Htrace).
      simpl in Ec. exists b, w', xs. split; [exact Ec|]. split; [exact Htrace|].
      fold d0. rewrite Ec. destruct b; reflexivity.
  - left. split; [exact Hraw|]. exists w'. reflexivity.
Qed.

(** ** Order of the requests of a row *)

Lemma creation_failed_not_created response :
  creation_failed response -> compliance_created response = false.
Proof.
  unfold creation_failed, compliance_created.
  intros [->|[H|H]]; [reflexivity| |].
  - destruct (response_has response "success") as [[]|]; congruence.
  - rewrite H. destruct (response_has response "success") as [[]|];
      reflexivity.
Qed.

Lemma not_both_endpoints x :
  is_post "/compliances" x -> is_post "/wastes" x -> False.
Proof. intros [_ H1] [_ H2]. rewrite H1 in H2. discriminate. Qed.

Lemma manifest_trace_compliance_first b xs :
  manifest_trace b xs -> compliance_first xs.
Proof.
  intros [[-> _]|(x0 & ws & -> & Hx0 & Hws & _ & Hfail & _)]; split.
  - intros i x Hi. rewrite lookup_nil in Hi. discriminate.
  - intros c Hc. apply elem_of_nil in Hc. destruct Hc.
  - intros i x Hi Hx. destruct i as [|i].
    + simpl in Hi. injection Hi as <-.
      destruct (not_both_endpoints _ Hx0 Hx).
    + exists 0%nat, x0. split; [lia|]. split; [reflexivity|exact Hx0].
  - intros c Hc Hpost Hfailed x Hx Hwaste.
    assert (c = x0) as ->.
    { apply elem_of_cons in Hc. destruct Hc as [Hc|Hc]; [exact Hc|].
      rewrite Forall_forall in Hws.
      destruct (not_both_endpoints _ Hpost (Hws _ Hc)). }
    destruct (Hfail (creation_failed_not_created _ Hfailed)) as [-> _].
    apply list_elem_of_singleton in Hx. subst x.
    exact (not_both_endpoints _ Hx0 Hwaste).
Qed.

(** C2: in the requests issued for a row, by [create_compliance_manifest]
    and so by the iteration of the loop that calls it, every waste
    creation request comes after a compliance creation request; and when
    the compliance creation fails (no response, no success indicator, or
    no compliance identifier), the row has no waste creation request at
    all. *)
Theorem compliance_is_created_before_wastes :
  (forall md st,
      exists b w' xs,
        create_compliance_manifest md st
        = (Ok b, mk_state (self st) w' (exchanges st ++ xs)) /\
        compliance_first xs) /\
  (forall row st,
      exists st' xs,
        process_row row st = (Ok tt, st') /\
        exchanges st' = exchanges st ++ xs /\
        compliance_first xs).
Proof.
  split.
  - intros md st.
    destruct (create_compliance_manifest_run md st) as (b & w' & xs & E & Ht).
    exists b, w', xs. split; [exact E|].
    exact (manifest_trace_compliance_first _ _ Ht).
  - intros row st.
    destruct (process_row_run row st)
      as [[_ (w' & E)]
         |[_ (date & w1 & [[_ E]|(_ & b & w' & xs & _ & Ht & E)])]].
    + eexists _, []. split; [exact E|]. simpl. rewrite app_nil_r.
      split; [reflexivity|]. apply (manifest_trace_compliance_first false).
      left. split; reflexivity.
    + eexists _, []. split; [exact E|]. simpl. rewrite app_nil_r.
      split; [reflexivity|]. apply (manifest_trace_compliance_first false).
      left. split; reflexivity.
    + eexists _, xs. split; [exact E|]. split; [reflexivity|].
      exact (manifest_trace_compliance_first _ _ Ht).
Qed.

(** ** Signers *)

Lemma add_signer_without_id d person_name signers_ids :
  resolves_with_id d person_name = false ->
  add_signer (find_or_create_person d person_name) signers_ids = signers_ids.
Proof.
  unfold resolves_with_id, add_signer.
  destruct (find_or_create_person d person_name) as [p|]; [|reflexivity].
  destruct (truthy (JDict p)); [|reflexivity]. simpl.
  intros ->. reflexivity.
Qed.

(** C5: when neither the captain nor the chef of a row resolves to a
    cached person with an identifier, the compliance creation request
    sent for the row, which is sent as soon as the vessel resolves,
    carries [[1]], the single fallback identifier, as its [signersIds]. *)
Theorem unresolved_signers_fall_back_to_default md st :
  resolves_with_id (self st) (captain_name md) = false ->
  resolves_with_id (self st) (chef_name md) = false ->
  exists b w' xs,
    create_compliance_manifest md st
    = (Ok b, mk_state (self st) w' (exchanges st ++ xs)) /\
    (forall x,
        x ∈ xs -> is_post "/compliances" x ->
        exists body, req_body x.1 = Some body /\
                     dict_get body "signersIds" = JList [JInt 1]) /\
    (found (find_or_create_vessel (self st) (vessel_name md)) = true ->
     exists x, head xs = Some x /\ is_post "/compliances" x).
Proof.
  intros Hcap Hchef.
  destruct (found (find_or_create_vessel (self st) (vessel_name md))) eqn:Hf.
  - unfold found in Hf.
    destruct (find_or_create_vessel (self st) (vessel_name md))
      as [vessel|] eqn:Hv; [|discriminate].
    destruct (create_compliance_manifest_vessel md st vessel Hv Hf)
      as (b & ws & w' & E & Hws & _ & _).
    eexists b, w', (_ :: ws). split; [exact E|]. split.
    + intros x Hx Hpost. apply elem_of_cons in Hx. destruct Hx as [->|Hx].
      * eexists. split; [reflexivity|]. unfold collect_signers.
        rewrite !add_signer_without_id by assumption. reflexivity.
      * rewrite Forall_forall in Hws.
        destruct (not_both_endpoints _ Hpost (Hws _ Hx)).
    + intros _. eexists. split; [reflexivity|]. split; reflexivity.
  - exists false, (world st), []. rewrite app_nil_r.
    rewrite create_compliance_manifest_no_vessel by exact Hf.
    split; [destruct st; reflexivity|]. split; [|discriminate].
    intros x Hx. apply elem_of_nil in Hx. destruct Hx.
Qed.

(** ** Outcome of a row *)

(** C6, as amended: for a raw row that reports waste and whose vessel
    resolves, the compliance creation is requested, followed by waste
    creations only. When the compliance creation succeeds (its response
    carries the success indicator and the compliance identifier) and the
    response to every waste creation is readable (no response, a falsy
    value or a JSON object, whether or not it reports success), the row
    is counted successful and not failed. A response to a waste creation
    that is not readable makes the row count as failed instead. *)
Theorem created_compliance_makes_row_successful row st vessel :
  raw_row row ->
  f_eqb (reported_waste row) f_zero = false ->
  find_or_create_vessel (self st)
    (strip (py_str float_repr (cell_of row "Vessel Name"))) = Some vessel ->
  truthy (JDict vessel) = true ->
  exists w' x ws d',
    process_row row st = (Ok tt, mk_state d' w' (exchanges st ++ x :: ws)) /\
    is_post "/compliances" x /\
    Forall (is_post "/wastes") ws /\
    processed (the_stats d') = processed (the_stats (self st)) + 1 /\
    skipped (the_stats d') = skipped (the_stats (self st)) /\
    (compliance_created x.2 = true ->
     (Forall (fun w => readable w.2) ws ->
      successful (the_stats d') = successful (the_stats (self st)) + 1 /\
      failed (the_stats d') = failed (the_stats (self st))) /\
     (~ Forall (fun w => readable w.2) ws ->
      successful (the_stats d') = successful (the_stats (self st)) /\
      failed (the_stats d') = failed (the_stats (self st)) + 1)).
Proof.
  intros Hraw Hnz Hv Ht.
  destruct (process_row_run row st)
    as [[Hno _]|[_ (date & w1 & [[Hz _]|(_ & b & w' & xs & Ec & _ & E)])]].
  - destruct (Hno Hraw).
  - unfold total_waste, manifest_of in Hz. cbn in Hz.
    unfold reported_waste in Hnz. congruence.
  - set (d0 := bump_processed (self st)) in *.
    destruct (create_compliance_manifest_resolved (manifest_of row date)
                (mk_state d0 w1 (exchanges st)) vessel Hv Ht)
      as (b' & ws & w'' & E' & _ & Hok & _).
    cbn [self world exchanges] in E', Hok.
    rewrite E' in Ec. injection Ec as Hb Hw Hx.
    apply app_inv_head in Hx. subst b w' xs.
    destruct (create_compliance_manifest_vessel (manifest_of row date)
                (mk_state d0 w1 (exchanges st)) vessel Hv Ht)
      as (b2 & ws2 & w2 & E2 & HF & _).
    cbn [self world exchanges] in E2. rewrite E' in E2.
    injection E2 as _ _ Hws. apply app_inv_head in Hws.
    injection Hws as Hws. subst ws2.
    eexists w'', _, ws, _. split; [exact E|].
    split; [split; reflexivity|]. split; [exact HF|].
    split; [destruct b'; reflexivity|]. split; [destruct b'; reflexivity|].
    intros Hc. destruct (compliance_created_id _ Hc) as [Hs [cid Hi]].
    destruct (Hok cid Hs Hi) as (_ & Hb & _). split.
    + intros Hr. apply Hb in Hr. subst b'. split; reflexivity.
    + intros Hr. destruct b'; [destruct Hr; apply Hb; reflexivity|].
      split; reflexivity.
Qed.

Lemma zero_total a b c d :
  f_is_zero a = true -> f_is_zero b = true ->
  f_is_zero c = true -> f_is_zero d = true ->
  f_eqb (f_add (f_add (f_add a b) c) d) f_zero = true.
Proof.
  destruct a as [[]| | |], b as [[]| | |], c as [[]| | |], d as [[]| | |];
    try discriminate; reflexivity.
Qed.

(** C4: a raw row whose four extracted waste quantities are all zero is
    skipped before any submission: no request is issued, [skipped] and
    [processed] go up by one, [successful] and [failed] stay. *)
Theorem zero_waste_row_is_skipped row st :
  raw_row row ->
  f_is_zero (quantity row "Oil Used") = true ->
  f_is_zero (quantity row "Oil Filters Used") = true ->
  f_is_zero (quantity row "Diesel Filters Used") = true ->
  f_is_zero (quantity row "Junk Reported") = true ->
  exists st',
    process_row row st = (Ok tt, st') /\
    exchanges st' = exchanges st /\
    skipped (the_stats (self st')) = skipped (the_stats (self st)) + 1 /\
    successful (the_stats (self st')) = successful (the_stats (self st)) /\
    failed (the_stats (self st')) = failed (the_stats (self st)) /\
    processed (the_stats (self st')) = processed (the_stats (self st)) + 1.
Proof.
  intros Hraw H1 H2 H3 H4.
  destruct (process_row_run row st)
    as [[Hno _]|[_ (date & w1 & [[_ E]|(Hnz & _)])]].
  - destruct (Hno Hraw).
  - eexists. split; [exact E|]. simpl. repeat split; reflexivity.
  - unfold total_waste in Hnz. simpl in Hnz.
    rewrite zero_total in Hnz by assumption. discriminate.
Qed.

(** C3, as amended: a raw row that is not skipped, the waste it reports
    not being zero, and whose vessel name does not resolve against the
    vessel cache fails at the vessel lookup: no request is issued,
    [failed] and [processed] go up by one, [successful] and [skipped]
    stay. *)
Theorem unresolved_vessel_fails_unskipped_row row st :
  raw_row row ->
  f_eqb (reported_waste row) f_zero = false ->
  found (find_or_create_vessel (self st)
           (strip (py_str float_repr (cell_of row "Vessel Name")))) = false ->
  exists st',
    process_row row st = (Ok tt, st') /\
    exchanges st' = exchanges st /\
    failed (the_stats (self st')) = failed (the_stats (self st)) + 1 /\
    successful (the_stats (self st')) = successful (the_stats (self st)) /\
    skipped (the_stats (self st')) = skipped (the_stats (self st)) /\
    processed (the_stats (self st')) = processed (the_stats (self st)) + 1.
Proof.
  intros Hraw Hnz Hv.
  destruct (process_row_run row st)
    as [[Hno _]|[_ (date & w1 & [[Hz _]|(_ & b & w' & xs & Ec & _ & E)])]].
  - destruct (Hno Hraw).
  - change (total_waste (manifest_of row date))
      with (reported_waste row) in Hz.
    rewrite Hz in Hnz. discriminate.
  - rewrite create_compliance_manifest_no_vessel in Ec by exact Hv.
    injection Ec as <- <- Hxs.
    assert (xs = []) as ->.
    { apply (f_equal length) in Hxs. rewrite length_app in Hxs.
      destruct xs; [reflexivity|simpl in Hxs; lia]. }
    rewrite app_nil_r in E.
    eexists. split; [exact E|]. simpl. repeat split; reflexivity.
Qed.

Lemma empty_cache_finds_no_vessel d name :
  vessels_cache d = ∅ -> found (find_or_create_vessel d name) = false.
Proof.
  intros H. unfold find_or_create_vessel. rewrite H, lookup_empty.
  reflexivity.
Qed.

(** ** The run statistics *)

Lemma process_row_counts row st :
  exists st',
    process_row row st = (Ok tt, st') /\
    counted_once (the_stats (self st)) (the_stats (self st')) /\
    (~ raw_row row ->
     failed (the_stats (self st')) = failed (the_stats (self st)) + 1).
Proof.
  destruct (process_row_run row st)
    as [[Hno (w' & E)]
       |[Hraw (date & w1 & [[_ E]|(_ & b & w' & xs & _ & _ & E)])]];
    (eexists; split; [exact E|]); unfold counted_once; simpl.
  - split; [|reflexivity]. split; [reflexivity|]. right. left. auto.
  - split; [|intros H; destruct (H Hraw)].
    split; [reflexivity|]. right. right. auto.
  - split; [|intros H; destruct (H Hraw)].
    destruct b; simpl; (split; [reflexivity|]); [left|right; left]; auto.
Qed.

Lemma counted_once_balanced s s' :
  balanced s -> counted_once s s' -> balanced s'.
Proof. unfold balanced, counted_once. lia. Qed.

Lemma process_rows_balanced df st :
  balanced (the_stats (self st)) ->
  exists st',
    for_each df process_row st = (Ok tt, st') /\
    balanced (the_stats (self st')) /\
    processed (the_stats (self st'))
    = processed (the_stats (self st)) + Z.of_nat (length df).
Proof.
  revert st. induction df as [|row df IH]; intros st Hb.
  - exists st. simpl. split; [reflexivity|]. split; [exact Hb|lia].
  - destruct (process_row_counts row st) as (st1 & E1 & Hc & _).
    destruct (IH st1 (counted_once_balanced _ _ Hb Hc)) as (st' & E' & Hb' & Hp').
    exists st'. simpl for_each. unfold bind. rewrite E1.
    split; [exact E'|]. split; [exact Hb'|].
    rewrite Hp'. destruct Hc as [Hp _]. rewrite Hp. simpl length. lia.
Qed.

(** C10: every iteration of the loop of [process_raw_data] returns,
    raises [processed] by one and exactly one of [successful], [failed]
    and [skipped] by one, a row that raises while being read (one that
    lacks a column) being counted as failed; so statistics that add up,
    as those of a new digitizer do, add up after every iteration:
    [processed = successful + failed + skipped]. *)
Theorem stats_stay_balanced :
  balanced (the_stats init) /\
  (forall row st,
      exists st',
        process_row row st = (Ok tt, st') /\
        counted_once (the_stats (self st)) (the_stats (self st')) /\
        (~ raw_row row ->
         failed (the_stats (self st')) = failed (the_stats (self st)) + 1)) /\
  (forall df st,
      balanced (the_stats (self st)) ->
      forall n,
      exists st',
        for_each (take n df) process_row st = (Ok tt, st') /\
        balanced (the_stats (self st')) /\
        processed (the_stats (self st'))
        = processed (the_stats (self st)) + Z.of_nat (length (take n df))).
Proof.
  split; [reflexivity|]. split; [exact process_row_counts|].
  intros df st Hb n. apply process_rows_balanced, Hb.
Qed.

(** ** The whole pass *)

Lemma make_request_get endpoint data st :
  _make_request "GET" endpoint data st
  = let req := mk_request GET endpoint None in
    (Ok (answer (world st) req).1,
     mk_state (self st) (answer (world st) req).2
              (exchanges st ++ [(req, (answer (world st) req).1)])).
Proof.
  unfold _make_request. simpl. destruct (answer (world st) _). reflexivity.
Qed.

(** Loading a list of entities leaves the statistics alone. *)
Lemma load_list_stats response name_field store st :
  (forall k v d, the_stats (store k v d) = the_stats d) ->
  exists r st',
    load_list response name_field store st = (r, st') /\
    the_stats (self st') = the_stats (self st).
Proof.
  intros Hstore. unfold load_list. unfold bind at 1, lift at 1.
  destruct (response_has response "data") as [[]|e];
    [|exists (Ok tt), st; split; reflexivity
     |exists (Raise e), st; split; reflexivity].
  unfold bind at 1, lift at 1.
  destruct (response_item response "data") as [[|b|z|f|s|entities|d]|e];
    try (eexists _, st; split; reflexivity).
  revert st. induction entities as [|entity entities IH]; intros st.
  - exists (Ok tt), st. split; reflexivity.
  - simpl for_each. unfold bind at 1. unfold bind at 1. unfold lift at 1.
    destruct (cache_key entity name_field) as [kv|e];
      [|eexists _, st; split; reflexivity].
    unfold modify_self at 1.
    destruct (IH (mk_state (store kv.1 kv.2 (self st)) (world st)
                           (exchanges st))) as (r' & st' & E & Hs).
    exists r', st'. split; [exact E|]. rewrite Hs. simpl. apply Hstore.
Qed.

Lemma load_entities_cache_stats st :
  exists r st',
    load_entities_cache st = (r, st') /\
    the_stats (self st') = the_stats (self st).
Proof.
  unfold load_entities_cache, bind. rewrite make_request_get. cbv beta zeta.
  set (st1 := mk_state (self st) _ _).
  destruct (load_list_stats (answer (world st)
              (mk_request GET "/vessels/0/1000" None)).1
              "VesselName" set_vessel st1 (fun _ _ _ => eq_refl))
    as ([[]|e] & st2 & -> & H2); [|eexists _, _; split; [reflexivity|exact H2]].
  rewrite make_request_get. cbv beta zeta.
  set (st3 := mk_state (self st2) _ _).
  destruct (load_list_stats (answer (world st2)
              (mk_request GET "/persons/0/5000" None)).1
              "Name" set_person st3 (fun _ _ _ => eq_refl))
    as ([[]|e] & st4 & -> & H4);
    [|eexists _, _; split; [reflexivity|exact (eq_trans H4 H2)]].
  rewrite make_request_get. cbv beta zeta.
  set (st5 := mk_state (self st4) _ _).
  destruct (load_list_stats (answer (world st4)
              (mk_request GET "/wasteTypes/0/100" None)).1
              "typeName" set_waste_type st5 (fun _ _ _ => eq_refl))
    as ([[]|e] & st6 & -> & H6);
    [|eexists _, _; split;
      [reflexivity|exact (eq_trans H6 (eq_trans H4 H2))]].
  rewrite make_request_get. cbv beta zeta.
  set (st7 := mk_state (self st6) _ _).
  destruct (load_list_stats (answer (world st6)
              (mk_request GET "/systemUsers/0/100" None)).1
              "FullName" set_system_user st7 (fun _ _ _ => eq_refl))
    as (r & st8 & -> & H8).
  exists r, st8. split; [reflexivity|].
  exact (eq_trans H8 (eq_trans H6 (eq_trans H4 H2))).
Qed.

(** [process_raw_data] always returns the statistics of the digitizer, and
    they add up when they did before the pass. *)
Lemma process_raw_data_balanced df start_from max_records st :
  balanced (the_stats (self st)) ->
  exists st',
    process_raw_data df start_from max_records st
    = (Ok (the_stats (self st')), st') /\
    balanced (the_stats (self st')).
Proof.
  intros Hb. unfold process_raw_data, try_except, bind, lift, get_self, ret.
  destruct (drop_test_records df (dropna_all df)) as [df'|e];
    [|exists st; split; [reflexivity|exact Hb]].
  destruct (load_entities_cache_stats st) as (r & st1 & -> & H1).
  destruct r as [[]|e]; [|exists st1; split; [reflexivity|rewrite H1; exact Hb]].
  rewrite <- H1 in Hb.
  destruct (process_rows_balanced
              (limit max_records
                 (if 0 <? start_from then drop (Z.to_nat start_from) df'
                  else df')) st1 Hb) as (st2 & -> & H2 & _).
  exists st2. split; [reflexivity|exact H2].
Qed.

(* ===================================================================== *)
(** * Properties of the entity bootstrapper                               *)
(* ===================================================================== *)

(** ** One creation *)

Lemma create_person_batch_run name person_type_id contact_info st :
  let req := person_request name person_type_id contact_info in
  create_person_batch name person_type_id contact_info st
  = (entity_of_response (answer (world st) req).1,
     mk_state (self st) (answer (world st) req).2
              (exchanges st ++ [(req, (answer (world st) req).1)])).
Proof.
  intros req. subst req. unfold create_person_batch, person_request, bind.
  rewrite make_request_post. cbv beta zeta.
  unfold entity_of_response.
  destruct (answer (world st) _) as [response w]. cbn [fst snd].
  unfold lift.
  destruct (response_has response "success") as [[]|e]; try reflexivity.
  destruct (response_get response "data") as [[]|e]; reflexivity.
Qed.

Lemma create_vessel_batch_run vessel_name owner_id st :
  let req := vessel_request owner_id vessel_name in
  create_vessel_batch vessel_name "Boat" owner_id st
  = (entity_of_response (answer (world st) req).1,
     mk_state (self st) (answer (world st) req).2
              (exchanges st ++ [(req, (answer (world st) req).1)])).
Proof.
  intros req. subst req. unfold create_vessel_batch, vessel_request, bind.
  rewrite make_request_post. cbv beta zeta.
  unfold entity_of_response.
  destruct (answer (world st) _) as [response w]. cbn [fst snd].
  unfold lift.
  destruct (response_has response "success") as [[]|e]; try reflexivity.
  destruct (response_get response "data") as [[]|e]; reflexivity.
Qed.

(** ** A creation loop *)

(** A loop over [names] sends the requests of a prefix of [names], in
    order; it sends them all, and returns, when every response it gets
    has the expected shape. *)
Lemma create_all_run (mk : string -> request)
    (create : string -> M (option dict)) names :
  (forall name st,
      create name st
      = (entity_of_response (answer (world st) (mk name)).1,
         mk_state (self st) (answer (world st) (mk name)).2
                  (exchanges st ++ [(mk name, (answer (world st) (mk name)).1)]))) ->
  forall created st,
  exists r w' xs,
    create_all names create created st
    = (r, mk_state (self st) w' (exchanges st ++ xs)) /\
    map fst xs `prefix_of` map mk names /\
    (Forall (fun x => in_schema x.2) xs -> exists k, r = Ok k) /\
    ((exists k, r = Ok k) ->
     map fst xs = map mk names /\ Forall (fun x => in_schema x.2) xs).
Proof.
  intros Hcreate. induction names as [|name names IH]; intros created st.
  - exists (Ok created), (world st), []. rewrite app_nil_r.
    split; [destruct st; reflexivity|]. split; [apply prefix_nil|].
    split; [eexists; reflexivity|]. intros _. split; [reflexivity|constructor].
  - simpl create_all. unfold bind. rewrite Hcreate.
    set (response := (answer (world st) (mk name)).1).
    set (st1 := mk_state _ _ _).
    destruct (entity_of_response response) as [entity|e] eqn:He.
    + destruct (IH (if found entity then created + 1 else created) st1)
        as (r & w' & xs & E & Hpre & Hall & Hok).
      exists r, w', ((mk name, response) :: xs). split; [|split; [|split]].
      * rewrite E. unfold st1. simpl. rewrite <- app_assoc. reflexivity.
      * simpl. apply prefix_cons, Hpre.
      * intros HF. apply Forall_cons in HF. destruct HF as [_ HF]. auto.
      * intros Hk. destruct (Hok Hk) as [Hm HF]. split.
        -- simpl. rewrite Hm. reflexivity.
        -- constructor; [|exact HF]. exists entity. exact He.
    + exists (Raise e), (world st1), [(mk name, response)].
      split; [reflexivity|]. split; [|split].
      * simpl. apply prefix_cons, prefix_nil.
      * intros HF. apply Forall_cons in HF. destruct HF as [[x Hx] _].
        simpl in Hx. rewrite He in Hx. discriminate.
      * intros [k Hk]. discriminate.
Qed.

(** ** The names collected *)

#[local] Set Warnings "-clear-no-such-hyp".

Lemma add_name_union name names :
  add_name name names
  = list_to_set
      (List.filter
         (fun name => negb (String.eqb name "") && negb (String.eqb name "nan"))
         [name]) ∪ names.
Proof.
  unfold add_name. simpl.
  destruct (negb (String.eqb name "") && negb (String.eqb name "nan")); simpl.
  - rewrite (right_id_L ∅ (∪)). reflexivity.
  - rewrite (left_id_L ∅ (∪)). reflexivity.
Qed.

Lemma column_names_cons row df label :
  column_names (row :: df) label
  = add_name (strip (py_str float_repr (cell_of row label)))
             (column_names df label).
Proof.
  rewrite add_name_union. unfold column_names. simpl.
  destruct (negb _ && negb _); simpl.
  - rewrite (right_id_L ∅ (∪)). reflexivity.
  - rewrite (left_id_L ∅ (∪)). reflexivity.
Qed.

Lemma add_name_comm_union name a b :
  add_name name (a ∪ b) = a ∪ add_name name b.
Proof. rewrite !add_name_union. set_solver. Qed.

(** The three sets hold the names of the three columns. *)
Lemma collect_names_columns df u0 u :
  collect_names df u0 = Ok u ->
  unique_vessels u = column_names df "Vessel Name" ∪ unique_vessels u0 /\
  unique_captains u = column_names df "Captain Full Name" ∪ unique_captains u0 /\
  unique_chefs u = column_names df "Chef Full Name" ∪ unique_chefs u0.
Proof.
  revert u0. induction df as [|row df IH]; intros u0; simpl.
  - intros [= <-]. unfold column_names. simpl.
    rewrite !(left_id_L ∅ (∪)). auto.
  - unfold collect_row.
    destruct (row !! "Vessel Name") as [v|] eqn:Ev; [|discriminate].
    destruct (row !! "Captain Full Name") as [c|] eqn:Ec; [|discriminate].
    destruct (row !! "Chef Full Name") as [h|] eqn:Eh; [|discriminate].
    intros H. apply IH in H. simpl in H. destruct H as (Hv & Hc & Hh).
    rewrite Hv, Hc, Hh, !column_names_cons. unfold cell_of.
    rewrite Ev, Ec, Eh. simpl default.
    rewrite !add_name_union. repeat split; set_solver.
Qed.

(** ** The creation phases *)

Lemma create_entities_run u st :
  let response := (answer (world st) owner_request).1 in
  exists r w' rest,
    create_entities u st
    = (r, mk_state (self st) w'
            (exchanges st ++ (owner_request, response) :: rest)) /\
    (created response = None ->
     rest = [] /\ (r = Ok SetupAborted \/ exists e, r = Raise e)) /\
    (forall owner,
        created response = Some owner ->
        let expected :=
          loop_requests (get_ID_or_id owner)
            (set_iter (unique_captains u)) (set_iter (unique_chefs u))
            (set_iter (unique_vessels u)) in
        map fst rest `prefix_of` expected /\
        (Forall (fun x => in_schema x.2) rest ->
         map fst rest = expected /\
         exists c h v, r = Ok (SetupDone c h v)) /\
        (~ Forall (fun x => in_schema x.2) rest -> exists e, r = Raise e)).
Proof.
  intros response.
  unfold create_entities, bind. rewrite create_person_batch_run.
  fold owner_request. fold response.
  set (st1 := mk_state (self st) _ _).
  assert (Hstop : forall r,
             (r = Ok SetupAborted \/ exists e, r = Raise e) ->
             created response = None ->
             exists r' w' rest,
               (r, st1)
               = (r', mk_state (self st) w'
                        (exchanges st ++ (owner_request, response) :: rest)) /\
               (created response = None ->
                rest = [] /\ (r' = Ok SetupAborted \/ exists e, r' = Raise e)) /\
               (forall owner,
                   created response = Some owner ->
                   let expected :=
                     loop_requests (get_ID_or_id owner)
                       (set_iter (unique_captains u))
                       (set_iter (unique_chefs u))
                       (set_iter (unique_vessels u)) in
                   map fst rest `prefix_of` expected /\
                   (Forall (fun x => in_schema x.2) rest ->
                    map fst rest = expected /\
                    exists c h v, r' = Ok (SetupDone c h v)) /\
                   (~ Forall (fun x => in_schema x.2) rest ->
                    exists e, r' = Raise e))).
  { intros r Hr Hnone. exists r, (world st1), []. split; [reflexivity|].
    split; [auto|]. intros owner Ho. rewrite Hnone in Ho. discriminate. }
  unfold created in *.
  destruct (entity_of_response response) as [[owner|]|e] eqn:He;
    [|apply (Hstop (Ok SetupAborted)); [left|]; reflexivity
     |apply (Hstop (Raise e)); [right; exists e|]; reflexivity].
  unfold found.
  destruct (truthy (JDict owner)) eqn:Ho; cbn [negb]; cbv beta iota;
    [|apply (Hstop (Ok SetupAborted)); [left|]; reflexivity].
  clear Hstop.
  destruct (create_all_run
              (fun name => person_request name MOTORISTA_TYPE "Captain")
              (fun captain_name =>
                 create_person_batch captain_name MOTORISTA_TYPE "Captain")
              (set_iter (unique_captains u))
              (fun name st => create_person_batch_run name _ _ st) 0 st1)
    as (r1 & w1 & xs1 & E1 & P1 & A1 & K1).
  rewrite E1. simpl self. simpl exchanges.
  destruct r1 as [created_captains|e1].
  2:{ exists (Raise e1), w1, xs1. rewrite <- app_assoc. split; [reflexivity|].
      split; [discriminate|]. cbv zeta. intros owner' [= <-].
      split; [unfold loop_requests; apply prefix_app_r, P1|].
      split; [|intros _; eexists; reflexivity].
      intros HF. destruct (A1 HF) as [k Hk]. discriminate. }
  destruct (K1 (ex_intro _ _ eq_refl)) as [M1 S1].
  set (st2 := mk_state (self st) w1 _).
  destruct (create_all_run
              (fun name => person_request name COCINERO_TYPE "Chef")
              (fun chef_name =>
                 create_person_batch chef_name COCINERO_TYPE "Chef")
              (set_iter (unique_chefs u))
              (fun name st => create_person_batch_run name _ _ st) 0 st2)
    as (r2 & w2 & xs2 & E2 & P2 & A2 & K2).
  rewrite E2. simpl self. simpl exchanges.
  destruct r2 as [created_chefs|e2].
  2:{ exists (Raise e2), w2, (xs1 ++ xs2). rewrite <- !app_assoc.
      split; [reflexivity|].
      split; [discriminate|]. cbv zeta. intros owner' [= <-].
      split; [unfold loop_requests; rewrite map_app, M1;
              apply prefix_app, prefix_app_r, P2|].
      split; [|intros _; eexists; reflexivity].
      intros HF. apply Forall_app in HF. destruct HF as [_ HF].
      destruct (A2 HF) as [k Hk]. discriminate. }
  destruct (K2 (ex_intro _ _ eq_refl)) as [M2 S2].
  set (st3 := mk_state (self st) w2 _).
  destruct (create_all_run
              (vessel_request (get_ID_or_id owner))
              (fun vessel_name =>
                 create_vessel_batch vessel_name "Boat" (get_ID_or_id owner))
              (set_iter (unique_vessels u))
              (fun name st => create_vessel_batch_run name _ st) 0 st3)
    as (r3 & w3 & xs3 & E3 & P3 & A3 & K3).
  rewrite E3. simpl self. simpl exchanges.
  exists (match r3 with
          | Ok created_vessels =>
              Ok (SetupDone created_captains created_chefs created_vessels)
          | Raise e => Raise e
          end), w3, (xs1 ++ xs2 ++ xs3).
  rewrite <- !app_assoc. split; [destruct r3; reflexivity|].
  split; [discriminate|]. cbv zeta. intros owner' [= <-].
  split; [unfold loop_requests; rewrite !map_app, M1, M2;
          apply prefix_app, prefix_app, P3|].
  split.
  - intros HF. apply Forall_app in HF. destruct HF as [_ HF].
    apply Forall_app in HF. destruct HF as [_ HF].
    destruct (A3 HF) as [k ->].
    split; [|eexists _, _, _; reflexivity].
    unfold loop_requests.
    destruct (K3 (ex_intro _ _ eq_refl)) as [M3 _].
    rewrite !map_app, M1, M2, M3. reflexivity.
  - intros HF. destruct r3 as [k|e]; [|eexists; reflexivity].
    destruct HF. destruct (K3 (ex_intro _ _ eq_refl)) as [_ S3].
    repeat (apply Forall_app; split); assumption.
Qed.

Lemma collect_names_raw df u0 :
  Forall raw_row df -> exists u, collect_names df u0 = Ok u.
Proof.
  intros H. revert u0. induction H as [|row df Hrow _ IH]; intros u0.
  - exists u0. reflexivity.
  - cbn [collect_names]. unfold collect_row.
    rewrite (raw_row_lookup row "Vessel Name" Hrow) by (simpl; tauto).
    rewrite (raw_row_lookup row "Captain Full Name" Hrow) by (simpl; tauto).
    rewrite (raw_row_lookup row "Chef Full Name" Hrow) by (simpl; tauto).
    apply IH.
Qed.

(** The three sets hold the names of the three columns of the rows
    kept. *)
Lemma collect_unique_columns df max_records kept :
  kept_rows df 0 max_records = Ok kept ->
  Forall raw_row kept ->
  exists u,
    collect_unique df max_records = Ok u /\
    unique_vessels u = column_names kept "Vessel Name" /\
    unique_captains u = column_names kept "Captain Full Name" /\
    unique_chefs u = column_names kept "Chef Full Name".
Proof.
  unfold kept_rows, collect_unique. cbv zeta.
  destruct (drop_test_records df (dropna_all df)) as [df'|]; [|discriminate].
  change (0 <? 0) with false. cbv iota. intros [= <-] Hraw.
  destruct (collect_names_raw _ (mk_unique ∅ ∅ ∅) Hraw) as [u Hu].
  exists u. split; [exact Hu|].
  apply collect_names_columns in Hu. simpl in Hu.
  rewrite !(right_id_L ∅ (∪)) in Hu. exact Hu.
Qed.

(** A bootstrap pass over rows that have the columns of a raw row: the
    owner creation comes first, and the three loops follow it when it
    brought an owner. *)
Lemma setup_base_entities_run df max_records kept st :
  kept_rows df 0 max_records = Ok kept ->
  Forall raw_row kept ->
  let response := (answer (world st) owner_request).1 in
  exists r w' rest,
    setup_base_entities df max_records st
    = (Ok r, mk_state (self st) w'
               (exchanges st ++ (owner_request, response) :: rest)) /\
    (created response = None ->
     rest = [] /\ (r = SetupAborted \/ exists e, r = SetupError e)) /\
    (forall owner,
        created response = Some owner ->
        let expected :=
          loop_requests (get_ID_or_id owner)
            (set_iter (column_names kept "Captain Full Name"))
            (set_iter (column_names kept "Chef Full Name"))
            (set_iter (column_names kept "Vessel Name")) in
        map fst rest `prefix_of` expected /\
        (Forall (fun x => in_schema x.2) rest ->
         map fst rest = expected /\ exists c h v, r = SetupDone c h v) /\
        (~ Forall (fun x => in_schema x.2) rest ->
         exists e, r = SetupError e)).
Proof.
  intros Hkept Hraw response.
  destruct (collect_unique_columns df max_records kept Hkept Hraw)
    as (u & Hu & Hv & Hc & Hh).
  unfold setup_base_entities, bind, lift. rewrite Hu.
  destruct (create_entities_run u st) as (r & w' & rest & E & Hnone & Hsome).
  rewrite E. fold response in Hnone, Hsome.
  exists (match r with Ok r' => r' | Raise e => SetupError e end), w', rest.
  split; [destruct r; reflexivity|]. split.
  - intros Ho. destruct (Hnone Ho) as [-> [->|[e ->]]].
    + split; [reflexivity|]. left. reflexivity.
    + split; [reflexivity|]. right. exists e. reflexivity.
  - intros owner Ho. destruct (Hsome owner Ho) as (Hpre & Hall & Hbad).
    cbv zeta in *. rewrite Hc, Hh, Hv in Hpre, Hall.
    split; [exact Hpre|]. split.
    + intros HF. destruct (Hall HF) as [Hm (c & h & v & ->)].
      split; [exact Hm|]. exists c, h, v. reflexivity.
    + intros HF. destruct (Hbad HF) as [e ->]. exists e. reflexivity.
Qed.


(* ===================================================================== *)
(** * Further properties of the entity cache and resolver                 *)
(* ===================================================================== *)

(** ** Keys: lower-cased and trimmed names *)

Lemma lower_upper_char c : lower_char (upper_char c) = lower_char c.
Proof. destruct c as [[] [] [] [] [] [] [] []]; reflexivity. Qed.

Lemma lower_char_space c : is_space c = true -> lower_char c = c.
Proof. destruct c as [[] [] [] [] [] [] [] []]; intros H; try reflexivity; discriminate H. Qed.

Lemma lower_upper s : lower (upper s) = lower s.
Proof.
  unfold lower, upper. rewrite list_ascii_of_string_of_list_ascii.
  rewrite map_map. f_equal. apply map_ext. exact lower_upper_char.
Qed.

Lemma lstrip_blanks a l :
  Forall (fun c => is_space c = true) a -> lstrip (a ++ l) = lstrip l.
Proof. induction 1 as [|c a Hc _ IH]; simpl; [reflexivity|]. rewrite Hc. exact IH. Qed.

Lemma lstrip_all_blanks a :
  Forall (fun c => is_space c = true) a -> lstrip a = [].
Proof.
  intros H. rewrite <- (app_nil_r a), lstrip_blanks by exact H. reflexivity.
Qed.

Lemma lstrip_app_blanks l b :
  Forall (fun c => is_space c = true) b ->
  rev (lstrip (rev (lstrip (l ++ b)))) = rev (lstrip (rev (lstrip l))).
Proof.
  intros Hb. induction l as [|c l IH].
  - simpl. rewrite (lstrip_all_blanks b Hb). reflexivity.
  - change ((c :: l) ++ b) with (c :: (l ++ b)).
    cbn [lstrip]. destruct (is_space c); [exact IH|].
    change (c :: (l ++ b)) with ((c :: l) ++ b).
    rewrite rev_app_distr, lstrip_blanks; [reflexivity|].
    apply Forall_forall. intros x Hx. rewrite Forall_forall in Hb. apply Hb.
    apply list_elem_of_In. apply list_elem_of_In, in_rev in Hx. exact Hx.
Qed.

(** Blanks around a text do not survive [strip]. *)
Lemma strip_chars_blanks a l b :
  Forall (fun c => is_space c = true) a ->
  Forall (fun c => is_space c = true) b ->
  strip_chars (a ++ l ++ b) = strip_chars l.
Proof.
  intros Ha Hb. unfold strip_chars. rewrite lstrip_blanks by exact Ha.
  apply lstrip_app_blanks, Hb.
Qed.

Lemma lower_blanks a :
  Forall (fun c => is_space c = true) a -> map lower_char a = a.
Proof.
  induction 1 as [|c a Hc _ IH]; simpl; [reflexivity|].
  rewrite (lower_char_space c Hc), IH. reflexivity.
Qed.

(** The key of a name with blanks around it is the key of the name. *)
Lemma key_of_padded a name b :
  Forall (fun c => is_space c = true) a ->
  Forall (fun c => is_space c = true) b ->
  strip (lower (string_of_list_ascii (a ++ list_ascii_of_string name ++ b)))
  = strip (lower name).
Proof.
  intros Ha Hb. unfold strip, lower.
  rewrite !list_ascii_of_string_of_list_ascii, !map_app.
  rewrite (lower_blanks a Ha), (lower_blanks b Hb).
  rewrite strip_chars_blanks by assumption. reflexivity.
Qed.

Lemma strip_padded a name b :
  Forall (fun c => is_space c = true) a ->
  Forall (fun c => is_space c = true) b ->
  strip (string_of_list_ascii (a ++ list_ascii_of_string name ++ b))
  = strip name.
Proof.
  intros Ha Hb. unfold strip.
  rewrite !list_ascii_of_string_of_list_ascii.
  rewrite strip_chars_blanks by assumption. reflexivity.
Qed.

Lemma strip_blank_iff_key_blank name :
  String.eqb (strip name) "" = String.eqb (strip (lower name)) "".
Proof.
  assert (H : forall l, strip_chars l = [] <-> strip_chars (map lower_char l) = []).
  { assert (Hl : forall l, lstrip l = [] <-> lstrip (map lower_char l) = []).
    { induction l as [|c l IH]; simpl; [tauto|].
      destruct (is_space c) eqn:Hc.
      - rewrite (lower_char_space c Hc), Hc. exact IH.
      - replace (is_space (lower_char c)) with false
          by (clear -Hc; destruct c as [[] [] [] [] [] [] [] []];
              try reflexivity; discriminate Hc).
        split; discriminate. }
    intros l. unfold strip_chars.
    assert (Hrev : forall x : list ascii, rev x = [] <-> x = []).
    { intros x. split; intros Hx; [|subst; reflexivity].
      apply (f_equal (@rev ascii)) in Hx. rewrite rev_involutive in Hx. exact Hx. }
    rewrite !Hrev.
    assert (Hstrip : forall x, lstrip (rev (lstrip x)) = [] <-> lstrip x = []).
    { intros x. split; intros Hx; [|rewrite Hx; reflexivity].
      destruct (lstrip_split (rev (lstrip x))) as [sp [E Hsp]].
      rewrite Hx, app_nil_r in E.
      destruct (lstrip x) as [|c t] eqn:Ex; [reflexivity|exfalso].
      assert (Hc : is_space c = false).
      { clear -Ex. induction x as [|y x IH]; simpl in Ex; [discriminate|].
        destruct (is_space y) eqn:Hy; [exact (IH Ex)|].
        injection Ex as <- _. exact Hy. }
      assert (Hin : is_space c = true).
      { rewrite Forall_forall in Hsp. apply Hsp. rewrite <- E.
        apply list_elem_of_In, in_rev. rewrite rev_involutive. left. reflexivity. }
      congruence. }
    rewrite !Hstrip. apply Hl. }
  unfold strip, lower. rewrite list_ascii_of_string_of_list_ascii.
  destruct (String.eqb_spec
              (string_of_list_ascii (strip_chars (list_ascii_of_string name))) "")
    as [E|E];
  destruct (String.eqb_spec
              (string_of_list_ascii
                 (strip_chars (map lower_char (list_ascii_of_string name)))) "")
    as [E'|E']; try reflexivity; exfalso.
  - apply E'. apply (f_equal list_ascii_of_string) in E.
    rewrite list_ascii_of_string_of_list_ascii in E. simpl in E.
    apply H in E. rewrite E. reflexivity.
  - apply E. apply (f_equal list_ascii_of_string) in E'.
    rewrite list_ascii_of_string_of_list_ascii in E'. simpl in E'.
    apply H in E'. rewrite E'. reflexivity.
Qed.

Lemma blank_test s :
  (String.eqb s "" || String.eqb (strip s) "") = String.eqb (strip s) "".
Proof. destruct (String.eqb_spec s "") as [->|_]; reflexivity. Qed.

(** X1: the three resolvers match names without regard to the case of
    their ASCII letters: a name in capitals resolves as the name itself
    does, blank names included. *)
Theorem resolvers_ignore_case d name :
  find_or_create_vessel d (upper name) = find_or_create_vessel d name /\
  get_waste_type_by_name d (upper name) = get_waste_type_by_name d name /\
  find_or_create_person d (upper name) = find_or_create_person d name /\
  find_or_create_vessel d (lower name) = find_or_create_vessel d name /\
  get_waste_type_by_name d (lower name) = get_waste_type_by_name d name /\
  find_or_create_person d (lower name) = find_or_create_person d name.
Proof.
  assert (Hll : lower (lower name) = lower name).
  { unfold lower. rewrite list_ascii_of_string_of_list_ascii, map_map.
    f_equal. apply map_ext. intros c.
    destruct c as [[] [] [] [] [] [] [] []]; reflexivity. }
  unfold find_or_create_vessel, get_waste_type_by_name, find_or_create_person.
  rewrite lower_upper, Hll.
  rewrite !blank_test, (strip_blank_iff_key_blank (upper name)),
    (strip_blank_iff_key_blank (lower name)),
    (strip_blank_iff_key_blank name), lower_upper, Hll.
  repeat split; reflexivity.
Qed.

(** X2: blanks before and after a name do not matter to the three
    resolvers. *)
Theorem resolvers_ignore_surrounding_blanks d name a b :
  Forall (fun c => is_space c = true) a ->
  Forall (fun c => is_space c = true) b ->
  let padded := string_of_list_ascii (a ++ list_ascii_of_string name ++ b) in
  find_or_create_vessel d padded = find_or_create_vessel d name /\
  get_waste_type_by_name d padded = get_waste_type_by_name d name /\
  find_or_create_person d padded = find_or_create_person d name.
Proof.
  intros Ha Hb padded.
  unfold find_or_create_vessel, get_waste_type_by_name, find_or_create_person.
  unfold padded. rewrite key_of_padded by assumption.
  split; [reflexivity|]. split; [reflexivity|].
  rewrite !blank_test, strip_padded by assumption. reflexivity.
Qed.

(** ** Loading the cache *)

Lemma for_each_store entities name_field
    (store : string -> dict -> digitizer -> digitizer) st :
  for_each entities
    (fun entity =>
       let* kv := lift (cache_key entity name_field) in
       modify_self (store kv.1 kv.2)) st
  = let '(kvs, e) := entries_before_error entities name_field in
    (match e with Some e => Raise e | None => Ok tt end,
     mk_state (foldl (fun d kv => store kv.1 kv.2 d) (self st) kvs)
              (world st) (exchanges st)).
Proof.
  revert st. induction entities as [|entity entities IH]; intros st.
  - destruct st; reflexivity.
  - cbn [for_each entries_before_error]. unfold bind at 1. unfold bind at 1.
    unfold lift at 1.
    destruct (cache_key entity name_field) as [kv|e].
    + unfold modify_self at 1. rewrite IH. cbn [self world exchanges].
      destruct (entries_before_error entities name_field) as [kvs e].
      reflexivity.
    + destruct st; reflexivity.
Qed.

Lemma load_list_listed response name_field store st :
  load_list response name_field store st
  = match listed response with
    | Ok entities =>
        let '(kvs, e) := entries_before_error entities name_field in
        (match e with Some e => Raise e | None => Ok tt end,
         mk_state (foldl (fun d kv => store kv.1 kv.2 d) (self st) kvs)
                  (world st) (exchanges st))
    | Raise e => (Raise e, st)
    end.
Proof.
  unfold load_list, listed, bind, lift, ret, raise.
  destruct (response_has response "data") as [[]|e]; try reflexivity.
  - destruct (response_item response "data") as [[]|e]; try reflexivity.
    apply for_each_store.
  - destruct st; reflexivity.
Qed.

Lemma vessels_after_load kvs d key :
  vessels_cache (foldl (fun d kv => set_vessel kv.1 kv.2 d) d kvs) !! key
  = match latest kvs key with
    | Some v => Some v
    | None => vessels_cache d !! key
    end.
Proof.
  revert d. induction kvs as [|[k v] kvs IH]; intros d; [reflexivity|].
  cbn [foldl latest]. rewrite IH. destruct (latest kvs key); [reflexivity|].
  cbn [set_vessel vessels_cache fst snd].
  destruct (String.eqb_spec k key) as [->|Hne].
  - apply lookup_insert_eq.
  - apply lookup_insert_ne. exact Hne.
Qed.

Lemma persons_after_load kvs d key :
  persons_cache (foldl (fun d kv => set_person kv.1 kv.2 d) d kvs) !! key
  = match latest kvs key with
    | Some v => Some v
    | None => persons_cache d !! key
    end.
Proof.
  revert d. induction kvs as [|[k v] kvs IH]; intros d; [reflexivity|].
  cbn [foldl latest]. rewrite IH. destruct (latest kvs key); [reflexivity|].
  cbn [set_person persons_cache fst snd].
  destruct (String.eqb_spec k key) as [->|Hne].
  - apply lookup_insert_eq.
  - apply lookup_insert_ne. exact Hne.
Qed.

Lemma waste_types_after_load kvs d key :
  waste_types_cache (foldl (fun d kv => set_waste_type kv.1 kv.2 d) d kvs) !! key
  = match latest kvs key with
    | Some v => Some v
    | None => waste_types_cache d !! key
    end.
Proof.
  revert d. induction kvs as [|[k v] kvs IH]; intros d; [reflexivity|].
  cbn [foldl latest]. rewrite IH. destruct (latest kvs key); [reflexivity|].
  cbn [set_waste_type waste_types_cache fst snd].
  destruct (String.eqb_spec k key) as [->|Hne].
  - apply lookup_insert_eq.
  - apply lookup_insert_ne. exact Hne.
Qed.

Lemma load_list_entries response name_field store st :
  load_list response name_field store st
  = (match load_error response name_field with
     | Some e => Raise e
     | None => Ok tt
     end,
     mk_state (foldl (fun d kv => store kv.1 kv.2 d) (self st)
                     (entries response name_field))
              (world st) (exchanges st)).
Proof.
  rewrite load_list_listed. unfold load_error, entries.
  destruct (listed response) as [entities|e].
  - destruct (entries_before_error entities name_field) as [kvs e]. reflexivity.
  - destruct st; reflexivity.
Qed.

Lemma load_stage endpoint name_field store st :
  (let* response := _make_request "GET" endpoint None in
   load_list response name_field store) st
  = let req := mk_request GET endpoint None in
    let a := answer (world st) req in
    (match load_error a.1 name_field with
     | Some e => Raise e
     | None => Ok tt
     end,
     mk_state (foldl (fun d kv => store kv.1 kv.2 d) (self st)
                     (entries a.1 name_field))
              a.2 (exchanges st ++ [(req, a.1)])).
Proof.
  unfold bind. rewrite make_request_get. cbv beta iota zeta.
  rewrite load_list_entries. reflexivity.
Qed.

Lemma load_stage_bind {B} endpoint name_field store (k : M B) st :
  (let* response := _make_request "GET" endpoint None in
   load_list response name_field store ;; k) st
  = let req := mk_request GET endpoint None in
    let a := answer (world st) req in
    let st1 := mk_state (foldl (fun d kv => store kv.1 kv.2 d) (self st)
                               (entries a.1 name_field))
                        a.2 (exchanges st ++ [(req, a.1)]) in
    match load_error a.1 name_field with
    | Some e => (Raise e, st1)
    | None => k st1
    end.
Proof.
  unfold bind. rewrite make_request_get. cbv beta iota zeta.
  rewrite load_list_entries.
  destruct (load_error _ name_field); reflexivity.
Qed.

(** The run of [load_entities_cache], stage by stage. *)
Lemma load_entities_cache_run st :
  let q1 := mk_request GET "/vessels/0/1000" None in
  let q2 := mk_request GET "/persons/0/5000" None in
  let q3 := mk_request GET "/wasteTypes/0/100" None in
  let q4 := mk_request GET "/systemUsers/0/100" None in
  let a1 := answer (world st) q1 in
  let d1 := foldl (fun d kv => set_vessel kv.1 kv.2 d) (self st)
                  (entries a1.1 "VesselName") in
  let x1 := exchanges st ++ [(q1, a1.1)] in
  let a2 := answer a1.2 q2 in
  let d2 := foldl (fun d kv => set_person kv.1 kv.2 d) d1
                  (entries a2.1 "Name") in
  let x2 := x1 ++ [(q2, a2.1)] in
  let a3 := answer a2.2 q3 in
  let d3 := foldl (fun d kv => set_waste_type kv.1 kv.2 d) d2
                  (entries a3.1 "typeName") in
  let x3 := x2 ++ [(q3, a3.1)] in
  let a4 := answer a3.2 q4 in
  let d4 := foldl (fun d kv => set_system_user kv.1 kv.2 d) d3
                  (entries a4.1 "FullName") in
  let x4 := x3 ++ [(q4, a4.1)] in
  load_entities_cache st
  = match load_error a1.1 "VesselName" with
    | Some e => (Raise e, mk_state d1 a1.2 x1)
    | None =>
    match load_error a2.1 "Name" with
    | Some e => (Raise e, mk_state d2 a2.2 x2)
    | None =>
    match load_error a3.1 "typeName" with
    | Some e => (Raise e, mk_state d3 a3.2 x3)
    | None =>
        (match load_error a4.1 "FullName" with
         | Some e => Raise e
         | None => Ok tt
         end, mk_state d4 a4.2 x4)
    end end end.
Proof.
  cbv zeta. unfold load_entities_cache.
  rewrite load_stage_bind. cbv zeta.
  destruct (load_error _ "VesselName"); [reflexivity|].
  rewrite load_stage_bind. cbv zeta. cbn [self world exchanges].
  destruct (load_error _ "Name"); [reflexivity|].
  rewrite load_stage_bind. cbv zeta. cbn [self world exchanges].
  destruct (load_error _ "typeName"); [reflexivity|].
  rewrite load_stage. cbv zeta. cbn [self world exchanges]. reflexivity.
Qed.

Lemma no_data_no_entries response name_field :
  response_has response "data" = Ok false ->
  load_error response name_field = None /\ entries response name_field = [].
Proof.
  intros H. unfold load_error, entries, listed. rewrite H. split; reflexivity.
Qed.

Lemma load_entities_cache_summary st :
  exists r w' xs,
    load_entities_cache st
    = (r, mk_state (loaded (self st) xs) w' (exchanges st ++ xs)) /\
    map fst xs `prefix_of` cache_requests /\
    (r = Ok tt -> map fst xs = cache_requests) /\
    (Forall (fun x => response_has x.2 "data" = Ok false) xs -> r = Ok tt).
Proof.
  rewrite load_entities_cache_run. cbv zeta.
  set (q1 := mk_request GET "/vessels/0/1000" None).
  set (q2 := mk_request GET "/persons/0/5000" None).
  set (q3 := mk_request GET "/wasteTypes/0/100" None).
  set (q4 := mk_request GET "/systemUsers/0/100" None).
  destruct (answer (world st) q1) as [r1 w1]. cbn [fst snd].
  destruct (answer w1 q2) as [r2 w2]. cbn [fst snd].
  destruct (answer w2 q3) as [r3 w3]. cbn [fst snd].
  destruct (answer w3 q4) as [r4 w4]. cbn [fst snd].
  destruct (load_error r1 "VesselName") as [e1|] eqn:E1.
  { exists (Raise e1), w1, [(q1, r1)]. split; [reflexivity|].
    split; [exists [q2; q3; q4]; reflexivity|].
    split; [discriminate|].
    intros HF. inversion HF as [|? ? H1 _]; subst.
    apply (no_data_no_entries _ "VesselName") in H1. cbn [snd] in H1.
    destruct H1 as [H1 _]. congruence. }
  destruct (load_error r2 "Name") as [e2|] eqn:E2.
  { exists (Raise e2), w2, [(q1, r1); (q2, r2)].
    rewrite <- !app_assoc. split; [reflexivity|].
    split; [exists [q3; q4]; reflexivity|].
    split; [discriminate|].
    intros HF. inversion HF as [|? ? _ HF1]; subst.
    inversion HF1 as [|? ? H1 _]; subst.
    apply (no_data_no_entries _ "Name") in H1. cbn [snd] in H1.
    destruct H1 as [H1 _]. congruence. }
  destruct (load_error r3 "typeName") as [e3|] eqn:E3.
  { exists (Raise e3), w3, [(q1, r1); (q2, r2); (q3, r3)].
    rewrite <- !app_assoc. split; [reflexivity|].
    split; [exists [q4]; reflexivity|].
    split; [discriminate|].
    intros HF. inversion HF as [|? ? _ HF1]; subst.
    inversion HF1 as [|? ? _ HF2]; subst.
    inversion HF2 as [|? ? H1 _]; subst.
    apply (no_data_no_entries _ "typeName") in H1. cbn [snd] in H1.
    destruct H1 as [H1 _]. congruence. }
  exists (match load_error r4 "FullName" with
          | Some e => Raise e
          | None => Ok tt
          end), w4, [(q1, r1); (q2, r2); (q3, r3); (q4, r4)].
  rewrite <- !app_assoc. split; [reflexivity|].
  split; [exists []; reflexivity|].
  split; [reflexivity|].
  intros HF. inversion HF as [|? ? _ HF1]; subst.
  inversion HF1 as [|? ? _ HF2]; subst.
  inversion HF2 as [|? ? _ HF3]; subst.
  inversion HF3 as [|? ? H1 _]; subst.
  apply (no_data_no_entries _ "FullName") in H1. cbn [snd] in H1.
  destruct H1 as [H1 _]. rewrite H1. reflexivity.
Qed.

Lemma loaded_stats d xs : the_stats (loaded d xs) = the_stats d.
Proof.
  assert (H : forall (store : string -> dict -> digitizer -> digitizer) kvs d,
             (forall k v d, the_stats (store k v d) = the_stats d) ->
             the_stats (foldl (fun d kv => store kv.1 kv.2 d) d kvs) = the_stats d).
  { intros store kvs. induction kvs as [|kv kvs IH]; intros d0 Hs; [reflexivity|].
    cbn [foldl]. rewrite IH by exact Hs. apply Hs. }
  unfold loaded. rewrite !H by reflexivity. reflexivity.
Qed.



Lemma loaded_vessels d xs key :
  vessels_cache (loaded d xs) !! key
  = match latest (entries (response_at xs 0) "VesselName") key with
    | Some v => Some v
    | None => vessels_cache d !! key
    end.
Proof.
  assert (H : forall (store : string -> dict -> digitizer -> digitizer) kvs d,
             (forall k v d, vessels_cache (store k v d) = vessels_cache d) ->
             vessels_cache (foldl (fun d kv => store kv.1 kv.2 d) d kvs)
             = vessels_cache d).
  { intros store kvs. induction kvs as [|kv kvs IH]; intros d0 Hs; [reflexivity|].
    cbn [foldl]. rewrite IH by exact Hs. apply Hs. }
  unfold loaded. rewrite !H by reflexivity. apply vessels_after_load.
Qed.

Lemma loaded_persons d xs key :
  persons_cache (loaded d xs) !! key
  = match latest (entries (response_at xs 1) "Name") key with
    | Some v => Some v
    | None => persons_cache d !! key
    end.
Proof.
  assert (H : forall (store : string -> dict -> digitizer -> digitizer) kvs d,
             (forall k v d, persons_cache (store k v d) = persons_cache d) ->
             persons_cache (foldl (fun d kv => store kv.1 kv.2 d) d kvs)
             = persons_cache d).
  { intros store kvs. induction kvs as [|kv kvs IH]; intros d0 Hs; [reflexivity|].
    cbn [foldl]. rewrite IH by exact Hs. apply Hs. }
  unfold loaded. rewrite !H by reflexivity. rewrite persons_after_load.
  rewrite H by reflexivity. reflexivity.
Qed.

Lemma loaded_waste_types d xs key :
  waste_types_cache (loaded d xs) !! key
  = match latest (entries (response_at xs 2) "typeName") key with
    | Some v => Some v
    | None => waste_types_cache d !! key
    end.
Proof.
  assert (H : forall (store : string -> dict -> digitizer -> digitizer) kvs d,
             (forall k v d, waste_types_cache (store k v d) = waste_types_cache d) ->
             waste_types_cache (foldl (fun d kv => store kv.1 kv.2 d) d kvs)
             = waste_types_cache d).
  { intros store kvs. induction kvs as [|kv kvs IH]; intros d0 Hs; [reflexivity|].
    cbn [foldl]. rewrite IH by exact Hs. apply Hs. }
  unfold loaded. rewrite !H by reflexivity. rewrite waste_types_after_load.
  rewrite !H by reflexivity. reflexivity.
Qed.

(** X4: after [load_entities_cache], also after one that raised, a
    resolver finds under a name the entity that was listed last under
    the key of that name, among those listed before any ill-formed one,
    and what it found before the load when none was; the person resolver
    keeps finding nothing under a blank name. *)
Theorem resolvers_find_latest_listed st :
  exists r st' xs,
    load_entities_cache st = (r, st') /\
    exchanges st' = exchanges st ++ xs /\
    forall name,
      let key := strip (lower name) in
      find_or_create_vessel (self st') name
      = match latest (entries (response_at xs 0) "VesselName") key with
        | Some v => Some v
        | None => find_or_create_vessel (self st) name
        end /\
      find_or_create_person (self st') name
      = match latest (entries (response_at xs 1) "Name") key with
        | Some v => if String.eqb (strip name) "" then None else Some v
        | None => find_or_create_person (self st) name
        end /\
      get_waste_type_by_name (self st') name
      = match latest (entries (response_at xs 2) "typeName") key with
        | Some v => Some v
        | None => get_waste_type_by_name (self st) name
        end.
Proof.
  destruct (load_entities_cache_summary st) as (r & w' & xs & E & _).
  exists r, (mk_state (loaded (self st) xs) w' (exchanges st ++ xs)), xs.
  split; [exact E|]. split; [reflexivity|].
  intros name key. cbn [self].
  unfold find_or_create_vessel, find_or_create_person, get_waste_type_by_name.
  fold key. rewrite loaded_vessels, loaded_persons, loaded_waste_types.
  split; [reflexivity|]. split; [|reflexivity].
  rewrite blank_test.
  destruct (String.eqb (strip name) "");
    destruct (latest (entries (response_at xs 1) "Name") key); reflexivity.
Qed.

Lemma od_set_head {V} (k0 : string) (v0 : V) l k v :
  exists l',
    od_set ((k0, v0) :: l) k v
    = (k0, if String.eqb k0 k then v else v0) :: l'.
Proof.
  cbn [od_set]. destruct (String.eqb_spec k0 k) as [->|_]; eexists; reflexivity.
Qed.

Lemma users_after_load kvs d :
  system_users_cache (foldl (fun d kv => set_system_user kv.1 kv.2 d) d kvs)
  = foldl (fun l kv => od_set l kv.1 kv.2) (system_users_cache d) kvs.
Proof.
  revert d. induction kvs as [|kv kvs IH]; intros d; [reflexivity|].
  cbn [foldl]. rewrite IH. reflexivity.
Qed.

Lemma od_set_fold_head kvs : forall (k0 : string) (v0 : dict) l,
  exists l',
    foldl (fun l kv => od_set l kv.1 kv.2) ((k0, v0) :: l) kvs
    = (k0, default v0 (latest kvs k0)) :: l'.
Proof.
  induction kvs as [|[k v] kvs IH]; intros k0 v0 l.
  - exists l. reflexivity.
  - cbn [foldl fst snd]. destruct (od_set_head k0 v0 l k v) as [l1 ->].
    destruct (IH k0 (if String.eqb k0 k then v else v0) l1) as [l' ->].
    exists l'. cbn [latest]. rewrite (String.eqb_sym k k0).
    destruct (latest kvs k0); [reflexivity|].
    destruct (String.eqb k0 k); reflexivity.
Qed.

(** X5: the default inspector after [load_entities_cache]. The key that
    was first in the system users cache stays first, and the inspector
    is the user listed last under that key; with an empty cache the key
    is that of the first user listed; with no user at all the inspector
    is the built-in one, whose identifier is 1. *)
Theorem default_inspector_after_load st :
  exists r st' xs,
    load_entities_cache st = (r, st') /\
    exchanges st' = exchanges st ++ xs /\
    get_default_inspector (self st')
    = match system_users_cache (self st),
            entries (response_at xs 3) "FullName" with
      | (k0, v0) :: _, kvs => default v0 (latest kvs k0)
      | [], (k0, v0) :: kvs => default v0 (latest kvs k0)
      | [], [] => [("ID", JInt 1); ("FullName", JStr "Default Inspector")]
      end.
Proof.
  destruct (load_entities_cache_summary st) as (r & w' & xs & E & _).
  exists r, (mk_state (loaded (self st) xs) w' (exchanges st ++ xs)), xs.
  split; [exact E|]. split; [reflexivity|]. cbn [self].
  unfold get_default_inspector, loaded. rewrite users_after_load.
  cbn [set_waste_type set_person set_vessel system_users_cache].
  assert (H : forall (store : string -> dict -> digitizer -> digitizer) kvs d,
             (forall k v d, system_users_cache (store k v d) = system_users_cache d) ->
             system_users_cache (foldl (fun d kv => store kv.1 kv.2 d) d kvs)
             = system_users_cache d).
  { intros store kvs. induction kvs as [|kv kvs IH]; intros d0 Hs; [reflexivity|].
    cbn [foldl]. rewrite IH by exact Hs. apply Hs. }
  rewrite !H by reflexivity.
  destruct (system_users_cache (self st)) as [|[k0 v0] l].
  - destruct (entries (response_at xs 3) "FullName") as [|[k0 v0] kvs];
      [reflexivity|].
    cbn [foldl od_set fst snd].
    destruct (od_set_fold_head kvs k0 v0 []) as [l' ->]. reflexivity.
  - destruct (od_set_fold_head (entries (response_at xs 3) "FullName") k0 v0 l)
      as [l' ->]. reflexivity.
Qed.

(* ===================================================================== *)
(** * Further properties of the manifest importer                         *)
(* ===================================================================== *)


(** X18: when the captain and the chef of a manifest both resolve to
    persons with identifiers, the compliance creation request carries
    the captain's identifier and then the chef's as its signers, twice
    the same identifier when both names resolve to one person; and its
    inspector is the default inspector. *)
Theorem signers_are_captain_then_chef md st vessel captain chef :
  find_or_create_vessel (self st) (vessel_name md) = Some vessel ->
  truthy (JDict vessel) = true ->
  find_or_create_person (self st) (captain_name md) = Some captain ->
  truthy (get_ID_or_id captain) = true ->
  find_or_create_person (self st) (chef_name md) = Some chef ->
  truthy (get_ID_or_id chef) = true ->
  exists b w' x ws body,
    create_compliance_manifest md st
    = (Ok b, mk_state (self st) w' (exchanges st ++ x :: ws)) /\
    is_post "/compliances" x /\
    req_body x.1 = Some body /\
    dict_get body "signersIds"
    = JList [get_ID_or_id captain; get_ID_or_id chef] /\
    dict_get body "systemUserId"
    = get_ID_or_id (get_default_inspector (self st)).
Proof.
  intros Hv Ht Hc Hci Hh Hhi.
  destruct (create_compliance_manifest_vessel md st vessel Hv Ht)
    as (b & ws & w' & E & _).
  exists b, w'. eexists _, ws, _. split; [exact E|].
  split; [split; reflexivity|]. split; [reflexivity|].
  split; [|reflexivity].
  assert (Hp : forall p, truthy (get_ID_or_id p) = true ->
                         truthy (JDict p) = true).
  { intros [|kv p] H; [discriminate H|reflexivity]. }
  unfold compliance_data, dict_get. cbn [assoc String.eqb Ascii.eqb].
  change (assoc _ "signersIds") with
    (Some (JList (collect_signers
                    (find_or_create_person (self st) (captain_name md))
                    (find_or_create_person (self st) (chef_name md))))).
  cbv beta iota. rewrite Hc, Hh. unfold collect_signers, add_signer.
  rewrite (Hp captain Hci), (Hp chef Hhi), Hci, Hhi. reflexivity.
Qed.

(* ===================================================================== *)
(** * Further properties of the passes over the data                      *)
(* ===================================================================== *)

Lemma filter_sublist {A} (f : A -> bool) (l : list A) :
  List.filter f l `sublist_of` l.
Proof.
  induction l as [|x l IH]; simpl; [constructor|].
  destruct (f x); [apply sublist_skip|apply sublist_cons]; exact IH.
Qed.

Lemma filter_Forall {A} (f : A -> bool) (l : list A) :
  Forall (fun x => f x = true) (List.filter f l).
Proof.
  apply Forall_forall. intros x Hx. apply list_elem_of_In, filter_In in Hx.
  apply Hx.
Qed.

Lemma limit_sublist max_records (df : dataframe) :
  limit max_records df `sublist_of` df.
Proof.
  unfold limit, df_head. destruct max_records as [n|]; [|reflexivity].
  destruct (n =? 0); [reflexivity|].
  destruct (0 <=? n); apply sublist_take.
Qed.

(** X7: the rows a pass works on are rows of the data frame, in their
    order; none of them is empty, and each has a vessel name that does
    not contain [test], in whatever case; there are at most
    [max_records] of them when that bound is positive, and a bound of
    zero is no bound at all. *)
Theorem kept_rows_are_filtered df start_from max_records kept :
  kept_rows df start_from max_records = Ok kept ->
  kept `sublist_of` df /\
  Forall (fun row : series =>
            ~ all_missing row /\
            exists c, row !! "Vessel Name" = Some c /\ is_test_name c = false)
         kept /\
  (forall n, max_records = Some n -> 0 < n ->
             Z.of_nat (length kept) <= n) /\
  kept_rows df start_from (Some 0) = kept_rows df start_from None.
Proof.
  unfold kept_rows.
  destruct (drop_test_records df (dropna_all df)) as [df'|e] eqn:Hd;
    [|discriminate].
  intros H. injection H as <-.
  set (sliced := if 0 <? start_from then drop (Z.to_nat start_from) df' else df').
  assert (Hs : sliced `sublist_of` df').
  { unfold sliced. destruct (0 <? start_from); [apply sublist_drop|reflexivity]. }
  unfold drop_test_records in Hd.
  destruct (column df "Vessel Name") as [names|]; [|discriminate Hd].
  destruct (match names with _ :: _ => existsb is_text names | [] => true end);
    [|discriminate Hd].
  injection Hd as Hd.
  assert (Hk : limit max_records sliced `sublist_of` df').
  { etransitivity; [apply limit_sublist|exact Hs]. }
  split; [|split; [|split]].
  - etransitivity; [exact Hk|]. rewrite <- Hd.
    etransitivity; [apply filter_sublist|]. apply filter_sublist.
  - apply Forall_forall. intros row Hrow.
    apply (elem_of_sublist _ _ _ Hrow) in Hk. clear Hrow. rename Hk into Hrow.
    rewrite <- Hd in Hrow.
    apply list_elem_of_In, filter_In in Hrow. destruct Hrow as [Hin Hname].
    apply filter_In in Hin. destruct Hin as [_ Hna].
    split.
    + intros Hall. unfold all_missing in Hall.
      rewrite (bool_decide_eq_true_2 _ Hall) in Hna. discriminate Hna.
    + destruct (row !! "Vessel Name") as [c|]; [|discriminate Hname].
      exists c. split; [reflexivity|].
      destruct (is_test_name c); [discriminate Hname|reflexivity].
  - intros n -> Hn. unfold limit, df_head.
    destruct (Z.eqb_spec n 0) as [->|_]; [lia|].
    destruct (Z.leb_spec 0 n); [|lia].
    pose proof (firstn_le_length (Z.to_nat n) sliced). lia.
  - reflexivity.
Qed.

Lemma manifest_trace_creations b xs :
  manifest_trace b xs -> Forall is_creation xs.
Proof.
  intros [[-> _]|(x & ws & -> & Hx & Hws & _)]; [constructor|].
  constructor; [left; exact Hx|].
  eapply Forall_impl; [exact Hws|]. intros y Hy. right. exact Hy.
Qed.

Lemma process_row_frame row st :
  exists st' xs,
    process_row row st = (Ok tt, st') /\
    exchanges st' = exchanges st ++ xs /\
    Forall is_creation xs /\
    same_caches (self st) (self st') /\
    processed (the_stats (self st')) = processed (the_stats (self st)) + 1.
Proof.
  destruct (process_row_run row st)
    as [[_ (w' & E)]
       |[_ (date & w1 & [[_ E]|(_ & b & w' & xs & _ & Ht & E)])]].
  - eexists _, []. split; [exact E|]. cbn [self exchanges].
    rewrite app_nil_r. repeat split; constructor.
  - eexists _, []. split; [exact E|]. cbn [self exchanges].
    rewrite app_nil_r. repeat split; constructor.
  - eexists _, xs. split; [exact E|]. cbn [self exchanges].
    split; [reflexivity|]. split; [exact (manifest_trace_creations _ _ Ht)|].
    destruct b; repeat split; reflexivity.
Qed.

Lemma process_rows_frame df st :
  exists st' xs,
    for_each df process_row st = (Ok tt, st') /\
    exchanges st' = exchanges st ++ xs /\
    Forall is_creation xs /\
    same_caches (self st) (self st') /\
    processed (the_stats (self st'))
    = processed (the_stats (self st)) + Z.of_nat (length df).
Proof.
  revert st. induction df as [|row df IH]; intros st.
  - exists st, []. rewrite app_nil_r. cbn [length]. 
    repeat split; [constructor|lia].
  - cbn [for_each]. unfold bind at 1.
    destruct (process_row_frame row st) as (st1 & xs1 & E1 & X1 & F1 & C1 & P1).
    rewrite E1.
    destruct (IH st1) as (st2 & xs2 & E2 & X2 & F2 & C2 & P2).
    exists st2, (xs1 ++ xs2). split; [exact E2|].
    split; [rewrite X2, X1, app_assoc; reflexivity|].
    split; [apply Forall_app; split; assumption|].
    split.
    + destruct C1 as (a1 & a2 & a3 & a4), C2 as (b1 & b2 & b3 & b4).
      repeat split; congruence.
    + rewrite P2, P1. cbn [length]. lia.
Qed.

(** X8: a run of [process_raw_data]. When the filtering of the data
    frame raises, nothing is sent and the statistics come back as they
    were. Otherwise the cache is loaded first; when that raises, no row
    is processed and the statistics come back as they were; when it does
    not, every row kept is processed, in creation requests that all come
    after the listings, and the rows leave the caches alone. *)
Theorem process_raw_data_loads_then_processes df start_from max_records st :
  match kept_rows df start_from max_records with
  | Raise _ =>
      process_raw_data df start_from max_records st
      = (Ok (the_stats (self st)), st)
  | Ok kept =>
      exists r st1 gets,
        load_entities_cache st = (r, st1) /\
        exchanges st1 = exchanges st ++ gets /\
        map fst gets `prefix_of` cache_requests /\
        match r with
        | Raise _ =>
            process_raw_data df start_from max_records st
            = (Ok (the_stats (self st)), st1)
        | Ok _ =>
            exists st' posts,
              process_raw_data df start_from max_records st
              = (Ok (the_stats (self st')), st') /\
              map fst gets = cache_requests /\
              exchanges st' = exchanges st ++ gets ++ posts /\
              Forall is_creation posts /\
              same_caches (self st1) (self st') /\
              processed (the_stats (self st'))
              = processed (the_stats (self st)) + Z.of_nat (length kept)
        end
  end.
Proof.
  unfold kept_rows, process_raw_data, try_except, bind, lift, get_self, ret.
  cbv zeta.
  destruct (drop_test_records df (dropna_all df)) as [df'|e]; [|reflexivity].
  set (kept := limit max_records _).
  destruct (load_entities_cache_summary st) as (r & w1 & gets & E & Hp & Hok & _).
  set (st1 := mk_state (loaded (self st) gets) w1 (exchanges st ++ gets)) in *.
  assert (X : exchanges st1 = exchanges st ++ gets) by reflexivity.
  assert (Hst : the_stats (self st1) = the_stats (self st))
    by apply loaded_stats.
  exists r, st1, gets. split; [exact E|]. split; [exact X|]. split; [exact Hp|].
  rewrite E. destruct r as [[]|e].
  - destruct (process_rows_frame kept st1) as (st' & posts & E' & X' & F & C & P).
    rewrite E'. exists st', posts.
    split; [reflexivity|]. split; [apply Hok; reflexivity|].
    split; [rewrite X', X, app_assoc; reflexivity|].
    split; [exact F|]. split; [exact C|].
    rewrite P, Hst. reflexivity.
  - rewrite Hst. reflexivity.
Qed.

(* ===================================================================== *)
(** * Further properties of the value normalizer                          *)
(* ===================================================================== *)

(** ** Signs *)

Lemma shr_1_nonneg mrs : 0 <= shr_m mrs -> 0 <= shr_m (shr_1 mrs).
Proof.
  destruct mrs as [m r s]. destruct m as [|[p|p|]|[p|p|]]; simpl; lia.
Qed.

Lemma iter_shr_1_nonneg p :
  forall mrs, 0 <= shr_m mrs -> 0 <= shr_m (SpecFloat.iter_pos shr_1 p mrs).
Proof.
  induction p as [p IH|p IH|]; intros mrs H; simpl.
  - apply IH, IH, shr_1_nonneg, H.
  - apply IH, IH, H.
  - apply shr_1_nonneg, H.
Qed.

Lemma shr_fexp_nonneg p e m ex l :
  0 <= m -> 0 <= shr_m (shr_fexp p e m ex l).1.
Proof.
  intros H. unfold shr_fexp, shr.
  assert (H0 : 0 <= shr_m (shr_record_of_loc m l))
    by (destruct l as [|[]]; exact H).
  destruct (fexp p e (Zdigits2 m + ex) - ex); simpl; try exact H0.
  apply iter_shr_1_nonneg, H0.
Qed.

Lemma round_nearest_even_nonneg m l : 0 <= m -> 0 <= round_nearest_even m l.
Proof.
  intros H. unfold round_nearest_even.
  destruct l as [|[]]; try destruct (IntDef.Z.even m); lia.
Qed.

Lemma binary_round_aux_nonneg p e mx ex lx :
  0 <= mx -> nonnegative (binary_round_aux p e false mx ex lx).
Proof.
  intros H. unfold binary_round_aux.
  pose proof (shr_fexp_nonneg p e mx ex lx H) as H1.
  destruct (shr_fexp p e mx ex lx) as [mrs' e']. cbn [fst] in H1.
  pose proof (shr_fexp_nonneg p e
                (round_nearest_even (shr_m mrs') (loc_of_shr_record mrs'))
                e' loc_Exact (round_nearest_even_nonneg _ _ H1)) as H2.
  destruct (shr_fexp p e _ e' loc_Exact) as [mrs'' e'']. cbn [fst] in H2.
  destruct (shr_m mrs'') as [|m|m]; [reflexivity| |lia].
  destruct (e'' <=? e - p); reflexivity.
Qed.

Lemma f_div_nonneg m1 e1 m2 e2 :
  nonnegative (f_div (S754_finite false m1 e1) (S754_finite false m2 e2)).
Proof.
  unfold f_div, SFdiv, SFdiv_core_binary. cbv zeta.
  set (s := e1 - e2 - _).
  set (m' := match s with 0 => Z.pos m1 | Z.pos _ => _ | Z.neg _ => 0 end).
  assert (Hm : 0 <= m').
  { unfold m'. destruct s; [lia| |lia].
    change (0 <= Z.shiftl (Z.pos m1) (Z.pos p)). apply Z.shiftl_nonneg. lia. }
  change (IntDef.Z.div_eucl m' (Z.pos m2)) with (Z.div_eucl m' (Z.pos m2)).
  pose proof (Z_div_mod m' (Z.pos m2) ltac:(lia)) as Hd.
  destruct (Z.div_eucl m' (Z.pos m2)) as [q r].
  apply binary_round_aux_nonneg. nia.
Qed.

Lemma float_of_numeral_nonneg l : nonnegative (float_of_numeral l).
Proof.
  unfold float_of_numeral. destruct (split_numeral l) as [ip fp].
  destruct (int_of_digits (ip ++ fp)); try reflexivity.
  apply f_div_nonneg.
Qed.

Lemma binary_round_nonneg p e m ex :
  nonnegative (binary_round p e false m ex).
Proof.
  unfold binary_round. destruct (shl_align m ex _) as [mz ez].
  apply binary_round_aux_nonneg. lia.
Qed.

Lemma f_add_nonneg a b :
  nonnegative a -> nonnegative b -> nonnegative (f_add a b).
Proof.
  intros Ha Hb.
  destruct a as [sa|sa| |sa ma ea]; cbn [nonnegative] in Ha; try tauto; subst;
    destruct b as [sb|sb| |sb mb eb]; cbn [nonnegative] in Hb; try tauto; subst;
    try reflexivity.
  unfold f_add, SFadd. cbv zeta. cbn [cond_Zopp].
  unfold binary_normalize. cbn [Z.add]. apply binary_round_nonneg.
Qed.

(** X9: the quantity [clean_numeric_value] gives is never negative and
    never NaN, whatever the cell and however floats are printed: it does
    not compare below zero; and the same holds of the sum of four such
    quantities that a row is tested on. *)
Theorem clean_numeric_value_never_negative :
  (forall value_str,
      let q := clean_numeric_value float_repr value_str in
      nonnegative q /\ f_is_nan q = false /\ f_ltb q f_zero = false) /\
  (forall row date,
      let total := total_waste (manifest_of row date) in
      nonnegative total /\ f_is_nan total = false /\
      f_ltb total f_zero = false).
Proof.
  assert (Hn : forall q, nonnegative q ->
                         nonnegative q /\ f_is_nan q = false /\
                         f_ltb q f_zero = false).
  { intros q H. split; [exact H|].
    destruct q as [s|s| |s m e]; simpl in H; try tauto; subst; split; reflexivity. }
  assert (Hc : forall value_str,
             nonnegative (clean_numeric_value float_repr value_str)).
  { intros value_str. unfold clean_numeric_value.
    destruct (cell_falsy value_str || isna value_str); [reflexivity|].
    destruct (re_search numeral_re _); [apply float_of_numeral_nonneg|reflexivity]. }
  split.
  - intros value_str q. apply Hn, Hc.
  - intros row date total. apply Hn. unfold total, total_waste, manifest_of.
    cbn [oil_used oil_filters_used diesel_filters_used junk_reported].
    unfold quantity. repeat apply f_add_nonneg; apply Hc.
Qed.

Lemma clean_numeric_value_search c :
  cell_falsy c || isna c = false ->
  clean_numeric_value float_repr c
  = match re_search numeral_re (list_ascii_of_string (py_str float_repr c)) with
    | Some numeric_match => float_of_numeral numeric_match
    | None => f_zero
    end.
Proof.
  intros H. unfold clean_numeric_value. rewrite H. unfold strip.
  rewrite list_ascii_of_string_of_list_ascii, re_search_strip. reflexivity.
Qed.

(** X10: cells that hold a number or a boolean. An integer and its
    opposite give the same quantity, the sign being no part of the
    numeral that is searched for; a boolean gives zero. *)
Theorem clean_numeric_value_drops_sign :
  (forall z,
      clean_numeric_value float_repr (CInt (- z))
      = clean_numeric_value float_repr (CInt z)) /\
  (forall b, clean_numeric_value float_repr (CBool b) = f_zero).
Proof.
  split.
  - assert (H : forall p,
               clean_numeric_value float_repr (CInt (Z.neg p))
               = clean_numeric_value float_repr (CInt (Z.pos p))).
    { intros p. rewrite !clean_numeric_value_search by reflexivity.
      change (py_str float_repr (CInt (Z.neg p)))
        with (String "-" (py_str float_repr (CInt (Z.pos p)))).
      cbn [list_ascii_of_string]. rewrite re_search_skip by reflexivity.
      reflexivity. }
    intros [|p|p]; cbn [Z.opp]; [reflexivity|apply H|symmetry; apply H].
  - intros [|]; reflexivity.
Qed.

(** ** Dates without leading zeros, and dates followed by more text *)

Lemma re_m_short sep m rest :
  sep = "/"%char \/ sep = "-"%char ->
  1 <= m <= 12 ->
  exists tl, re_m (short_digits m ++ sep :: rest) = (m, sep :: rest) :: tl.
Proof.
  intros Hsep Hm. revert rest.
  destruct Hsep as [-> | ->].
  - apply (in_range_Z (fun m => forall rest, exists tl,
             re_m (short_digits m ++ "/"%char :: rest)
             = (m, "/"%char :: rest) :: tl) 1 12); [|lia].
    repeat (constructor; [intros rest; eexists; reflexivity|]). constructor.
  - apply (in_range_Z (fun m => forall rest, exists tl,
             re_m (short_digits m ++ "-"%char :: rest)
             = (m, "-"%char :: rest) :: tl) 1 12); [|lia].
    repeat (constructor; [intros rest; eexists; reflexivity|]). constructor.
Qed.

Lemma re_d_short d :
  1 <= d <= 31 -> exists tl, re_d (short_digits d) = (d, []) :: tl.
Proof.
  intros Hd.
  apply (in_range_Z (fun d => exists tl,
           re_d (short_digits d) = (d, []) :: tl) 1 31); [|lia].
  repeat (constructor; [eexists; reflexivity|]). constructor.
Qed.

Lemma strptime_short sep y m d :
  sep = "/"%char \/ sep = "-"%char ->
  valid_date y m d = true ->
  strptime sep (pad_digits 4 y ++ [sep] ++ short_digits m ++ [sep] ++
                short_digits d)
  = Ok (mk_datetime y m d 0 0 0 0).
Proof.
  intros Hsep Hv. destruct (valid_date_bounds _ _ _ Hv) as (Hy & Hm & Hd).
  destruct (re_m_short sep m (short_digits d) Hsep Hm) as [tlm Em].
  destruct (re_d_short d Hd) as [tld Ed].
  assert (E : exists tl,
             date_re sep (pad_digits 4 y ++ [sep] ++ short_digits m ++ [sep] ++
                          short_digits d)
             = ((y, m, d), []) :: tl).
  { unfold date_re. eexists.
    eapply m_bind_head; [apply re_Y_pad; lia|].
    eapply m_bind_head; [apply m_lit_same|].
    eapply m_bind_head; [exact Em|].
    eapply m_bind_head; [apply m_lit_same|].
    eapply m_bind_head; [exact Ed|]. reflexivity. }
  unfold strptime. destruct E as [tl ->]. rewrite Hv. reflexivity.
Qed.

Lemma short_digits_all_digits n :
  0 <= n -> Forall (fun c => is_digit c = true) (short_digits n).
Proof.
  intros Hn. unfold short_digits. destruct (Z.ltb_spec n 10).
  - constructor; [|constructor]. apply digit_char_is_digit. lia.
  - apply pad_digits_all_digits.
Qed.

Lemma no_slash_among_digits l :
  Forall (fun c => is_digit c = true) l -> existsb (Ascii.eqb "/") l = false.
Proof.
  induction 1 as [|c l Hc _ IH]; [reflexivity|].
  cbn [existsb]. rewrite (digit_not_slash c Hc), IH. reflexivity.
Qed.

(** X11: [format_date] takes months and days written without their
    leading zero, under either separator, for the same date as the
    padded text, and does not read the clock for them. *)
Theorem format_date_accepts_unpadded y m d st :
  valid_date y m d = true ->
  format_date (date_text_unpadded "/" y m d) st
  = (Ok (iso_midnight y m d), st) /\
  format_date (date_text_unpadded "-" y m d) st
  = (Ok (iso_midnight y m d), st).
Proof.
  intros Hv. destruct (valid_date_bounds _ _ _ Hv) as (Hy & Hm & Hd).
  unfold format_date, parse_date, date_text_unpadded.
  rewrite !list_ascii_of_string_of_list_ascii, slash_found.
  rewrite (strptime_short "/") by (auto; exact Hv).
  assert (Hno : contains_char "/"
                  (pad_digits 4 y ++ ["-"%char] ++ short_digits m ++
                   ["-"%char] ++ short_digits d) = false).
  { unfold contains_char. rewrite !existsb_app.
    rewrite (no_slash_among_digits _ (pad_digits_all_digits 4 y)).
    rewrite !(no_slash_among_digits (short_digits _))
      by (apply short_digits_all_digits; lia).
    reflexivity. }
  rewrite Hno, (strptime_short "-") by (auto; exact Hv).
  rewrite isoformat_midnight. split; reflexivity.
Qed.

Lemma date_re_wrong_separator y rest :
  0 <= y <= 9999 ->
  date_re "/" (pad_digits 4 y ++ "-"%char :: rest) = [].
Proof.
  intros Hy. unfold date_re. unfold m_bind at 1.
  rewrite re_Y_pad by exact Hy. cbn [flat_map]. unfold m_bind at 1.
  unfold m_lit, m_class. change (Ascii.eqb "/" "-") with false.
  reflexivity.
Qed.

(** X12: a date followed by anything at all, a time of day for one, is
    not a date to [format_date]: it answers with the reading of the
    clock instead. *)
Theorem format_date_rejects_trailing_text y m d extra st :
  valid_date y m d = true ->
  extra <> [] ->
  let now := (isoformat (utcnow (world st)).1,
              mk_state (self st) (utcnow (world st)).2 (exchanges st)) in
  format_date
    (string_of_list_ascii
       (list_ascii_of_string (date_text "/" y m d) ++ extra)) st
  = (Ok now.1, now.2) /\
  format_date
    (string_of_list_ascii
       (list_ascii_of_string (date_text "-" y m d) ++ extra)) st
  = (Ok now.1, now.2).
Proof.
  intros Hv Hextra now.
  destruct (valid_date_bounds _ _ _ Hv) as (Hy & Hm & Hd).
  assert (Hraise : forall sep,
             strptime sep
               ((pad_digits 4 y ++ [sep] ++ pad_digits 2 m ++ [sep] ++
                 pad_digits 2 d) ++ extra)
             = Raise ValueError).
  { intros sep.
    destruct (re_m_pad m ([sep] ++ pad_digits 2 d ++ extra) Hm) as [tlm Em].
    destruct (re_d_pad d extra Hd) as [tld Ed].
    assert (E : exists tl,
               date_re sep
                 ((pad_digits 4 y ++ [sep] ++ pad_digits 2 m ++ [sep] ++
                   pad_digits 2 d) ++ extra)
               = ((y, m, d), extra) :: tl).
    { unfold date_re. rewrite <- !app_assoc. eexists.
      eapply m_bind_head; [apply re_Y_pad; lia|].
      eapply m_bind_head; [apply m_lit_same|].
      eapply m_bind_head; [exact Em|].
      eapply m_bind_head; [apply m_lit_same|].
      eapply m_bind_head; [exact Ed|]. reflexivity. }
    unfold strptime. destruct E as [tl ->].
    destruct extra; [congruence|reflexivity]. }
  assert (Hclock : forall s,
             parse_date s = Raise ValueError ->
             format_date s st = (Ok now.1, now.2)).
  { intros s Hs. unfold format_date. rewrite Hs. unfold now.
    destruct (utcnow (world st)). reflexivity. }
  split; apply Hclock; unfold parse_date, date_text;
    rewrite !list_ascii_of_string_of_list_ascii.
  - rewrite Hraise. destruct (contains_char "/" _) eqn:Hc; [reflexivity|].
    exfalso. rewrite <- !app_assoc in Hc. cbn [app] in Hc.
    unfold contains_char in Hc. rewrite existsb_app in Hc.
    cbn [existsb] in Hc. change (Ascii.eqb "/" "/") with true in Hc.
    rewrite orb_true_r in Hc. discriminate Hc.
  - destruct (contains_char "/" _); [|apply Hraise].
    unfold strptime. rewrite <- !app_assoc. cbn [app].
    rewrite date_re_wrong_separator by lia. reflexivity.
Qed.

(* ===================================================================== *)
(** * Further properties of the entity bootstrapper                       *)
(* ===================================================================== *)

Lemma found_created response entity :
  entity_of_response response = Ok entity ->
  found entity = match created response with Some _ => true | None => false end.
Proof.
  intros H. unfold created. rewrite H. destruct entity as [e|]; [|reflexivity].
  unfold found. destruct (truthy (JDict e)); reflexivity.
Qed.

Lemma creations_cons x xs :
  creations (x :: xs)
  = (match created x.2 with Some _ => 1 | None => 0 end) + creations xs.
Proof.
  unfold creations. cbn [List.filter].
  destruct (created x.2); cbn [length]; lia.
Qed.

Lemma creations_bounds xs : 0 <= creations xs <= Z.of_nat (length xs).
Proof.
  induction xs as [|x xs IH]; [unfold creations; simpl; lia|].
  rewrite creations_cons. cbn [length]. destruct (created x.2); lia.
Qed.

(** A loop that ends normally has sent one request per name and has
    counted the responses that brought an entity. *)
Lemma create_all_count (mk : string -> request)
    (create : string -> M (option dict)) names :
  (forall name st,
      create name st
      = (entity_of_response (answer (world st) (mk name)).1,
         mk_state (self st) (answer (world st) (mk name)).2
                  (exchanges st ++ [(mk name, (answer (world st) (mk name)).1)]))) ->
  forall created st k st',
    create_all names create created st = (Ok k, st') ->
    exists xs,
      st' = mk_state (self st) (world st') (exchanges st ++ xs) /\
      map fst xs = map mk names /\
      k = created + creations xs.
Proof.
  intros Hcreate. induction names as [|name names IH]; intros created0 st k st'.
  - cbn [create_all]. unfold ret. intros [= <- <-]. exists [].
    rewrite app_nil_r. split; [destruct st; reflexivity|].
    split; [reflexivity|]. unfold creations. simpl. lia.
  - cbn [create_all]. unfold bind. rewrite Hcreate.
    set (response := (answer (world st) (mk name)).1).
    destruct (entity_of_response response) as [entity|e] eqn:He; [|discriminate].
    intros H. apply IH in H. destruct H as (xs & Hst & Hm & Hk).
    cbn [self exchanges] in Hst.
    exists ((mk name, response) :: xs). split; [|split].
    + rewrite Hst at 1. rewrite <- app_assoc. reflexivity.
    + cbn [map fst]. rewrite Hm. reflexivity.
    + rewrite creations_cons. cbn [snd].
      rewrite (found_created _ _ He) in Hk.
      destruct (created response); lia.
Qed.

(** X13: when the bootstrap pass ends with its counts, it has sent the
    creation of the owner, which brought an entity, then one creation
    per captain name, one per chef name and one per vessel name; and
    each count is the number of the responses to those that brought an
    entity, whatever else the other responses were. *)
Theorem bootstrap_counts_created_entities df max_records st c h v st' :
  setup_base_entities df max_records st = (Ok (SetupDone c h v), st') ->
  exists u owner cs hs vs,
    collect_unique df max_records = Ok u /\
    self st' = self st /\
    exchanges st'
    = exchanges st ++
      (person_request "Unknown Owner" PROPIETARIO_TYPE "Default vessel owner",
       owner) :: cs ++ hs ++ vs /\
    created owner <> None /\
    length cs = length (set_iter (unique_captains u)) /\
    length hs = length (set_iter (unique_chefs u)) /\
    length vs = length (set_iter (unique_vessels u)) /\
    Forall (is_post "/persons") cs /\
    Forall (is_post "/persons") hs /\
    Forall (is_post "/vessels") vs /\
    c = creations cs /\ h = creations hs /\ v = creations vs.
Proof.
  unfold setup_base_entities, bind, lift.
  destruct (collect_unique df max_records) as [u|e]; [|discriminate].
  destruct (create_entities u st) as [[r|e] st1] eqn:E; [|discriminate].
  intros [= -> <-].
  unfold create_entities, bind in E. rewrite create_person_batch_run in E.
  cbv zeta in E.
  set (owner_request :=
         person_request "Unknown Owner" PROPIETARIO_TYPE "Default vessel owner")
    in *.
  set (owner := (answer (world st) owner_request).1) in *.
  set (st0 := mk_state (self st) _ _) in E.
  destruct (entity_of_response owner) as [entity|e] eqn:He; [|discriminate E].
  rewrite (found_created _ _ He) in E.
  destruct (created owner) as [o|] eqn:Ho; cbn [negb] in E;
    [|discriminate E].
  destruct (create_all (set_iter (unique_captains u)) _ 0 st0)
    as [[kc|e] s1] eqn:E1; [|discriminate E].
  apply (create_all_count
           (fun name => person_request name MOTORISTA_TYPE "Captain")) in E1;
    [|intros name s; apply create_person_batch_run].
  destruct E1 as (cs & S1 & M1 & K1).
  destruct (create_all (set_iter (unique_chefs u)) _ 0 s1)
    as [[kh|e] s2] eqn:E2; [|discriminate E].
  apply (create_all_count
           (fun name => person_request name COCINERO_TYPE "Chef")) in E2;
    [|intros name s; apply create_person_batch_run].
  destruct E2 as (hs & S2 & M2 & K2).
  destruct (create_all (set_iter (unique_vessels u)) _ 0 s2)
    as [[kv|e] s3] eqn:E3; [|discriminate E].
  match type of E3 with
  | create_all _ (fun _ => create_vessel_batch _ _ ?id) _ _ = _ =>
      apply (create_all_count (vessel_request id)) in E3;
        [|intros name s; apply create_vessel_batch_run]
  end.
  destruct E3 as (vs & S3 & M3 & K3).
  unfold ret in E. injection E as -> -> -> <-.
  exists u, owner, cs, hs, vs.
  split; [reflexivity|].
  rewrite S3, S2, S1. cbn [self exchanges]. unfold st0. cbn [self exchanges].
  split; [reflexivity|].
  split; [rewrite <- !app_assoc; reflexivity|].
  split; [rewrite Ho; discriminate|].
  assert (HL : forall (A : Type) (xs : list (request * option json))
                      (f : A -> request) (l : list A),
             map fst xs = map f l -> length xs = length l).
  { intros A xs f l H. rewrite <- (length_map fst xs), H. apply length_map. }
  assert (HP : forall (A : Type) (xs : list (request * option json))
                      (f : A -> request) (l : list A) endpoint,
             (forall a, req_method (f a) = POST /\ req_endpoint (f a) = endpoint) ->
             map fst xs = map f l -> Forall (is_post endpoint) xs).
  { intros A xs f l endpoint Hf. revert l.
    induction xs as [|x xs IH]; intros l H; [constructor|].
    destruct l as [|a l]; [discriminate H|]. injection H as Hx Hxs.
    constructor; [|exact (IH l Hxs)]. unfold is_post. rewrite Hx. apply Hf. }
  split; [exact (HL _ _ _ _ M1)|]. split; [exact (HL _ _ _ _ M2)|].
  split; [exact (HL _ _ _ _ M3)|].
  split; [eapply HP; [|exact M1]; intros; split; reflexivity|].
  split; [eapply HP; [|exact M2]; intros; split; reflexivity|].
  split; [eapply HP; [|exact M3]; intros; split; reflexivity|].
  repeat split; lia.
Qed.

(* ===================================================================== *)
(** * Request URLs                                                        *)
(* ===================================================================== *)

Lemma lstrip_char_run c a l :
  Forall (fun x => x = c) a -> lstrip_char c (a ++ l) = lstrip_char c l.
Proof.
  induction 1 as [|x a -> _ IH]; [reflexivity|].
  cbn [app lstrip_char]. rewrite Ascii.eqb_refl. exact IH.
Qed.

Lemma lstrip_char_head c l : head (lstrip_char c l) <> Some c.
Proof.
  induction l as [|x l IH]; [discriminate|].
  cbn [lstrip_char]. destruct (Ascii.eqb_spec x c) as [->|Hne]; [exact IH|].
  cbn [head]. congruence.
Qed.

Lemma last_rev {A} (l : list A) : last (rev l) = head l.
Proof.
  destruct l as [|x l]; [reflexivity|]. cbn [rev head]. apply last_snoc.
Qed.

(** X14: the URL of a request does not depend on slashes at the end of
    the base URL the digitizer is made with, which never ends the base
    URL it keeps: [http://host/] and [http://host] make the same
    requests. *)
Theorem trailing_slashes_do_not_change_urls base_url n endpoint :
  let slashed :=
    string_of_list_ascii (list_ascii_of_string base_url ++ repeat "/"%char n) in
  request_url (init_base_url slashed) endpoint
  = request_url (init_base_url base_url) endpoint /\
  last (list_ascii_of_string (init_base_url base_url)) <> Some "/"%char.
Proof.
  intros slashed. split.
  - f_equal. unfold init_base_url, rstrip_char, slashed.
    rewrite list_ascii_of_string_of_list_ascii, rev_app_distr.
    rewrite lstrip_char_run; [reflexivity|].
    apply Forall_forall. intros x Hx.
    apply list_elem_of_In, in_rev in Hx.
    apply repeat_spec in Hx. exact Hx.
  - unfold init_base_url, rstrip_char.
    rewrite list_ascii_of_string_of_list_ascii, last_rev.
    apply lstrip_char_head.
Qed.

(* ===================================================================== *)
(** * Properties of the command line                                      *)
(* ===================================================================== *)

Lemma loop_requests_bootstrap owner_id captains chefs vessels
    (xs : list (request * option json)) :
  map fst xs `prefix_of` loop_requests owner_id captains chefs vessels ->
  Forall is_bootstrap xs.
Proof.
  intros [k Hk].
  assert (H : Forall (fun q => req_method q = POST /\
                               (req_endpoint q = "/persons" \/
                                req_endpoint q = "/vessels"))
                     (map fst xs)).
  { assert (Hall : Forall (fun q => req_method q = POST /\
                                    (req_endpoint q = "/persons" \/
                                     req_endpoint q = "/vessels"))
                          (loop_requests owner_id captains chefs vessels)).
    { unfold loop_requests. rewrite !Forall_app. repeat split;
        apply Forall_forall; intros q Hq; apply list_elem_of_In, in_map_iff in Hq;
        destruct Hq as (name & <- & _); split; auto. }
    rewrite Hk in Hall. apply Forall_app in Hall. apply Hall. }
  rewrite Forall_map in H. eapply Forall_impl; [exact H|].
  intros x [Hm [He|He]]; [left|right]; split; assumption.
Qed.

(** A bootstrap pass always returns; it leaves the digitizer alone and
    sends creations of persons and vessels only; it comes back with
    counts only when the owner was created first. *)
Lemma setup_base_entities_summary df max_records st :
  exists r w' xs,
    setup_base_entities df max_records st
    = (Ok r, mk_state (self st) w' (exchanges st ++ xs)) /\
    Forall is_bootstrap xs /\
    (has_error r = false ->
     exists owner rest,
       xs = (owner_request, owner) :: rest /\ created owner <> None).
Proof.
  unfold setup_base_entities, bind, lift.
  destruct (collect_unique df max_records) as [u|e].
  2:{ exists (SetupError e), (world st), []. rewrite app_nil_r.
      split; [destruct st; reflexivity|]. split; [constructor|discriminate]. }
  destruct (create_entities_run u st) as (r & w' & rest & E & Hnone & Hsome).
  rewrite E. fold owner_request in *.
  set (owner := (answer (world st) owner_request).1) in *.
  exists (match r with Ok r' => r' | Raise e => SetupError e end), w',
    ((owner_request, owner) :: rest).
  split; [destruct r; reflexivity|].
  destruct (created owner) as [o|] eqn:Ho.
  - destruct (Hsome o eq_refl) as [Hpre _]. split.
    + constructor; [left; split; reflexivity|].
      exact (loop_requests_bootstrap _ _ _ _ _ Hpre).
    + intros _. exists owner, rest. split; [reflexivity|].
      rewrite Ho. discriminate.
  - destruct (Hnone eq_refl) as [-> Hr]. split.
    + constructor; [left; split; reflexivity|constructor].
    + destruct Hr as [->|[e ->]]; discriminate.
Qed.

(** An import pass always returns and sends listings and creations of
    compliance and waste records only. *)
Lemma process_raw_data_summary df start_from max_records st :
  exists st' xs,
    process_raw_data df start_from max_records st
    = (Ok (the_stats (self st')), st') /\
    exchanges st' = exchanges st ++ xs /\
    Forall is_import xs /\
    processed (the_stats (self st')) - processed (the_stats (self st))
    = match kept_rows df start_from max_records with
      | Ok kept =>
          match (load_entities_cache st).1 with
          | Ok _ => Z.of_nat (length kept)
          | Raise _ => 0
          end
      | Raise _ => 0
      end.
Proof.
  unfold kept_rows, process_raw_data, try_except, bind, lift, get_self, ret.
  cbv zeta.
  destruct (drop_test_records df (dropna_all df)) as [df'|e].
  2:{ exists st, []. rewrite app_nil_r. repeat split; [constructor|lia]. }
  set (kept := limit max_records _).
  destruct (load_entities_cache_summary st) as (r & w1 & gets & E & Hp & Hok & _).
  set (st1 := mk_state (loaded (self st) gets) w1 (exchanges st ++ gets)) in *.
  assert (Hst : the_stats (self st1) = the_stats (self st))
    by apply loaded_stats.
  assert (Hg : Forall is_import gets).
  { destruct Hp as [k Hk]. apply Forall_forall. intros x Hx. left.
    rewrite Hk. apply elem_of_app. left.
    apply list_elem_of_fmap. exists x. split; [reflexivity|exact Hx]. }
  rewrite E. cbn [fst]. destruct r as [[]|e].
  - destruct (process_rows_frame kept st1) as (st' & posts & E' & X' & F & C & P).
    rewrite E'. exists st', (gets ++ posts).
    split; [reflexivity|].
    split; [rewrite X'; unfold st1; cbn [exchanges]; rewrite app_assoc;
            reflexivity|].
    split.
    + apply Forall_app. split; [exact Hg|].
      eapply Forall_impl; [exact F|]. intros x Hx. right. exact Hx.
    + rewrite P, Hst. lia.
  - exists st1, gets. rewrite Hst. split; [reflexivity|].
    split; [reflexivity|]. split; [exact Hg|lia].
Qed.

Lemma kept_rows_length df start_from n kept :
  0 < n ->
  kept_rows df start_from (Some n) = Ok kept ->
  Z.of_nat (length kept) <= n.
Proof.
  intros Hn. unfold kept_rows.
  destruct (drop_test_records df (dropna_all df)) as [df'|]; [|discriminate].
  intros [= <-]. unfold limit, df_head.
  destruct (Z.eqb_spec n 0) as [->|_]; [lia|].
  destruct (Z.leb_spec 0 n); [|lia].
  match goal with
  | |- context [take ?k ?l] => pose proof (firstn_le_length k l)
  end.
  lia.
Qed.

(** X15: without one of the three choices [main] sends nothing and
    leaves the new digitizer as it was made: it returns on any other
    answer, and an end of input leaves it as an exception. *)
Theorem main_without_a_choice_sends_nothing
    (input : World -> option string * World) py_int rawdata w :
  match (input w).1 with
  | Some line => strip line <> "1" /\ strip line <> "2" /\ strip line <> "3"
  | None => True
  end ->
  main input py_int rawdata w
  = (match (input w).1 with Some _ => Returned | None => UncaughtEOFError end,
     mk_state init (input w).2 []).
Proof.
  unfold main, main_body, c_bind, ask. cbn [world self exchanges].
  destruct (input w) as [[line|] w1]; cbn [fst snd]; [|reflexivity].
  intros (H1 & H2 & H3).
  destruct (String.eqb_spec (strip line) "1"); [contradiction|].
  destruct (String.eqb_spec (strip line) "2"); [contradiction|].
  destruct (String.eqb_spec (strip line) "3"); [contradiction|].
  reflexivity.
Qed.

Lemma ask_run (input : World -> option string * World) st :
  exists a, ask input st
            = (a, mk_state (self st) (input (world st)).2 (exchanges st)).
Proof.
  unfold ask. destruct (input (world st)) as [[line|] w']; eexists; reflexivity.
Qed.

Lemma int_if_given_run py_int text st :
  exists a, int_if_given py_int text st = (a, st).
Proof.
  unfold int_if_given, c_ret. destruct (String.eqb text "");
    [|destruct (py_int text)]; eexists; reflexivity.
Qed.

(** The bootstrap part of a mode: the question, the number, the pass. *)
Lemma main_setup_eq (input : World -> option string * World) py_int rawdata
    {B} (k : setup_result -> C B) st :
  (let+ max_records := ask input in
   let+ max_records := int_if_given py_int max_records in
   let+ entity_stats := call (setup_base_entities rawdata max_records) in
   k entity_stats) st
  = match ask input st with
    | (inr x, st1) => (inr x, st1)
    | (inl text, st1) =>
        match int_if_given py_int text st1 with
        | (inr x, st2) => (inr x, st2)
        | (inl max_records, st2) =>
            match setup_base_entities rawdata max_records st2 with
            | (Ok r, st3) => k r st3
            | (Raise e, st3) => (inr (Uncaught e), st3)
            end
        end
    end.
Proof.
  unfold c_bind, call.
  destruct (ask input st) as [[text|x] st1]; [|reflexivity].
  destruct (int_if_given py_int text st1) as [[max_records|x] st2];
    [|reflexivity].
  destruct (setup_base_entities rawdata max_records st2) as [[r|e] st3];
    reflexivity.
Qed.

Lemma main_setup_run (input : World -> option string * World) py_int rawdata
    {B} (k : setup_result -> C B) st :
  (exists x w',
      (let+ max_records := ask input in
       let+ max_records := int_if_given py_int max_records in
       let+ entity_stats := call (setup_base_entities rawdata max_records) in
       k entity_stats) st
      = (inr x, mk_state (self st) w' (exchanges st))) \/
  (exists r w' xs,
      (let+ max_records := ask input in
       let+ max_records := int_if_given py_int max_records in
       let+ entity_stats := call (setup_base_entities rawdata max_records) in
       k entity_stats) st
      = k r (mk_state (self st) w' (exchanges st ++ xs)) /\
      Forall is_bootstrap xs /\
      (has_error r = false ->
       exists owner rest,
         xs = (owner_request, owner) :: rest /\ created owner <> None)).
Proof.
  rewrite main_setup_eq.
  destruct (ask_run input st) as [a ->].
  destruct a as [text|x]; [|left; eexists _, _; reflexivity].
  set (st1 := mk_state _ _ _).
  destruct (int_if_given_run py_int text st1) as [a ->].
  destruct a as [max_records|x]; [|left; eexists _, _; reflexivity].
  destruct (setup_base_entities_summary rawdata max_records st1)
    as (r & w' & xs & -> & HF & Howner).
  right. exists r, w', xs. split; [reflexivity|]. split; assumption.
Qed.

(** The import part of a mode: the number, the pass. *)
Lemma main_process_eq (input : World -> option string * World) py_int rawdata
    start_from st :
  (let+ max_records := ask input in
   let+ max_records := int_if_given py_int max_records in
   let+ stats :=
     call (process_raw_data rawdata start_from
             (Some (default 50 max_records))) in
   c_ret tt) st
  = match ask input st with
    | (inr x, st1) => (inr x, st1)
    | (inl text, st1) =>
        match int_if_given py_int text st1 with
        | (inr x, st2) => (inr x, st2)
        | (inl max_records, st2) =>
            match process_raw_data rawdata start_from
                    (Some (default 50 max_records)) st2 with
            | (Ok r, st3) => (inl tt, st3)
            | (Raise e, st3) => (inr (Uncaught e), st3)
            end
        end
    end.
Proof.
  unfold c_bind, call, c_ret.
  destruct (ask input st) as [[text|x] st1]; [|reflexivity].
  destruct (int_if_given py_int text st1) as [[max_records|x] st2];
    [|reflexivity].
  destruct (process_raw_data rawdata start_from _ st2) as [[r|e] st3];
    reflexivity.
Qed.

Lemma main_process_run (input : World -> option string * World) py_int rawdata
    start_from st :
  exists a st' xs,
    (let+ max_records := ask input in
     let+ max_records := int_if_given py_int max_records in
     let+ stats :=
       call (process_raw_data rawdata start_from
               (Some (default 50 max_records))) in
     c_ret tt) st
    = (a, st') /\
    exchanges st' = exchanges st ++ xs /\
    Forall is_import xs.
Proof.
  rewrite main_process_eq.
  destruct (ask_run input st) as [a ->].
  destruct a as [text|x];
    [|eexists _, _, []; cbn [exchanges]; rewrite app_nil_r;
      repeat split; constructor].
  set (st1 := mk_state _ _ _).
  destruct (int_if_given_run py_int text st1) as [a ->].
  destruct a as [max_records|x];
    [|eexists _, _, []; cbn [exchanges]; rewrite app_nil_r;
      repeat split; constructor].
  destruct (process_raw_data_summary rawdata start_from
              (Some (default 50 max_records)) st1)
    as (st' & xs & -> & X & HF & _).
  eexists _, st', xs. split; [reflexivity|]. split; [exact X|exact HF].
Qed.

Lemma main_choice (input : World -> option string * World) py_int rawdata w
    line :
  (input w).1 = Some line ->
  main input py_int rawdata w
  = match
      (if String.eqb (strip line) "1" then
         let+ max_records := ask input in
         let+ max_records := int_if_given py_int max_records in
         let+ entity_stats :=
           call (setup_base_entities rawdata max_records) in
         c_ret tt
       else if String.eqb (strip line) "2" then
         let+ start_from := ask input in
         let+ start_from := int_if_given py_int start_from in
         let+ max_records := ask input in
         let+ max_records := int_if_given py_int max_records in
         let max_records := default 50 max_records in
         let+ stats :=
           call (process_raw_data rawdata (default 0 start_from)
                   (Some max_records)) in
         c_ret tt
       else if String.eqb (strip line) "3" then
         let+ max_records := ask input in
         let+ max_records := int_if_given py_int max_records in
         let+ entity_stats :=
           call (setup_base_entities rawdata max_records) in
         if has_error entity_stats then c_return else
         let+ manifest_records := ask input in
         let+ manifest_records := int_if_given py_int manifest_records in
         let manifest_records := default 50 manifest_records in
         let+ stats :=
           call (process_raw_data rawdata 0 (Some manifest_records)) in
         c_ret tt
       else c_ret tt) (mk_state init (input w).2 [])
    with
    | (inl _, st) => (Returned, st)
    | (inr x, st) => (x, st)
    end.
Proof.
  intros Hline. unfold main, main_body. unfold c_bind at 1, ask at 1.
  cbn [world self exchanges]. destruct (input w) as [o w1].
  cbn [fst snd] in *. subst o. reflexivity.
Qed.

(** X16: each mode of [main] keeps to its requests. The first mode
    sends creations of persons and vessels only and leaves the digitizer
    as it was made; the second sends listings and creations of
    compliance and waste records only; the third sends requests of the
    first kind and then requests of the second kind, and none of the
    second kind unless the owner was created first. *)
Theorem main_modes_keep_to_their_requests
    (input : World -> option string * World) py_int rawdata w line :
  (input w).1 = Some line ->
  let st' := (main input py_int rawdata w).2 in
  (strip line = "1" ->
   self st' = init /\ Forall is_bootstrap (exchanges st')) /\
  (strip line = "2" -> Forall is_import (exchanges st')) /\
  (strip line = "3" ->
   exists xs ys,
     exchanges st' = xs ++ ys /\
     Forall is_bootstrap xs /\ Forall is_import ys /\
     (ys <> [] ->
      exists owner rest,
        xs = (owner_request, owner) :: rest /\ created owner <> None)).
Proof.
  intros Hline st'. unfold st'. clear st'.
  rewrite (main_choice input py_int rawdata w line Hline). cbv zeta.
  set (st1 := mk_state init (input w).2 []).
  split; [|split]; intros Hmode; rewrite Hmode.
  - change (String.eqb "1" "1") with true. cbv beta iota.
    destruct (main_setup_run input py_int rawdata (fun _ => c_ret tt) st1)
      as [(x & w' & ->)|(r & w' & xs & -> & HF & _)].
    + split; [reflexivity|constructor].
    + unfold c_ret. split; [reflexivity|exact HF].
  - change (String.eqb "2" "1") with false.
    change (String.eqb "2" "2") with true. cbv beta iota.
    unfold c_bind at 1. destruct (ask_run input st1) as [a ->].
    destruct a as [text|x]; [|constructor].
    unfold c_bind at 1. set (st2 := mk_state _ _ _).
    destruct (int_if_given_run py_int text st2) as [a ->].
    destruct a as [start_from|x]; [|constructor].
    destruct (main_process_run input py_int rawdata (default 0 start_from) st2)
      as (a & st3 & xs & -> & X & HF).
    assert (Hx : exchanges (match a with inl _ => (Returned, st3)
                                       | inr x => (x, st3) end).2 = xs)
      by (destruct a; exact X).
    rewrite Hx. exact HF.
  - change (String.eqb "3" "1") with false.
    change (String.eqb "3" "2") with false.
    change (String.eqb "3" "3") with true. cbv beta iota.
    match goal with
    | |- context [c_bind (ask input) (fun m => c_bind _ (fun m' =>
                    c_bind _ ?k))] =>
        destruct (main_setup_run input py_int rawdata k st1)
          as [(x & w' & ->)|(r & w' & xs & -> & HF & Hown)]
    end.
    + exists [], []. repeat split; try constructor. congruence.
    + subst st1. cbn [app exchanges self]. cbv beta.
      destruct (has_error r) eqn:Hr.
      * exists xs, []. rewrite app_nil_r. repeat split; try assumption;
          try constructor. congruence.
      * destruct (main_process_run input py_int rawdata 0
                    (mk_state init w' xs))
          as (a & st3 & ys & -> & X & HF').
        exists xs, ys. cbn [exchanges] in X.
        split; [destruct a; exact X|].
        split; [exact HF|]. split; [exact HF'|].
        intros _. apply Hown. reflexivity.
Qed.

(** X17: in the second mode, with both questions left unanswered,
    [main] imports from the first row on and processes fifty rows at
    most. *)
Theorem main_imports_fifty_rows_by_default
    (input : World -> option string * World) py_int rawdata w l1 l2 l3 :
  let w1 := (input w).2 in
  let w2 := (input w1).2 in
  let w3 := (input w2).2 in
  (input w).1 = Some l1 -> strip l1 = "2" ->
  (input w1).1 = Some l2 -> strip l2 = "" ->
  (input w2).1 = Some l3 -> strip l3 = "" ->
  let run := process_raw_data rawdata 0 (Some 50) (mk_state init w3 []) in
  main input py_int rawdata w = (Returned, run.2) /\
  0 <= processed (the_stats (self run.2)) <= 50.
Proof.
  intros w1 w2 w3 H1 M1 H2 M2 H3 M3 run.
  split.
  - rewrite (main_choice input py_int rawdata w l1 H1). cbv zeta.
    rewrite M1. change (String.eqb "2" "1") with false.
    change (String.eqb "2" "2") with true. cbv beta iota.
    fold w1.
    assert (Hask : forall wa wb l,
               (input wa).1 = Some l -> (input wa).2 = wb ->
               forall xs, ask input (mk_state init wa xs)
                          = (inl (strip l), mk_state init wb xs)).
    { intros wa wb l Hl Hw xs. unfold ask. cbn [world self exchanges].
      destruct (input wa) as [o wc]. cbn [fst snd] in *. subst. reflexivity. }
    unfold c_bind at 1. rewrite (Hask w1 w2 l2 H2 eq_refl), M2.
    unfold c_bind at 1. unfold int_if_given at 1.
    change (String.eqb "" "") with true. cbv beta iota. unfold c_ret at 1.
    cbn [default].
    unfold c_bind at 1. rewrite (Hask w2 w3 l3 H3 eq_refl), M3.
    unfold c_bind at 1. unfold int_if_given at 1.
    change (String.eqb "" "") with true. cbv beta iota. unfold c_ret at 1.
    cbn [default].
    unfold c_bind, call, c_ret. fold run.
    destruct (process_raw_data_summary rawdata 0 (Some 50)
                (mk_state init w3 []))
      as (st' & xs & E & _). fold run in E. rewrite E. reflexivity.
  - destruct (process_raw_data_summary rawdata 0 (Some 50)
                (mk_state init w3 []))
      as (st' & xs & E & _ & _ & P).
    unfold run. rewrite E. cbn [snd self the_stats init processed] in *.
    destruct (kept_rows rawdata 0 (Some 50)) as [kept|e] eqn:Hk; [|lia].
    apply kept_rows_length in Hk; [|lia].
    destruct (load_entities_cache _).1; lia.
Qed.

(* ===================================================================== *)
(** * Identifier casings                                                  *)
(* ===================================================================== *)

Lemma waste_request_body waste_type vessel md cid quantity :
  Forall (fun q => exists body,
              req_body q = Some body /\
              dict_get body "vesselId" = get_ID_or_id vessel /\
              dict_get body "complianceId" = cid)
         (waste_request waste_type vessel md cid quantity).
Proof.
  unfold waste_request. destruct (f_ltb f_zero quantity); [|constructor].
  destruct waste_type as [wt|]; [|constructor].
  destruct (truthy (JDict wt)); constructor; [|constructor].
  eexists. split; [reflexivity|]. split; reflexivity.
Qed.

Lemma waste_requests_body d vessel md cid :
  Forall (fun q => exists body,
              req_body q = Some body /\
              dict_get body "vesselId" = get_ID_or_id vessel /\
              dict_get body "complianceId" = cid)
         (waste_requests d vessel md cid).
Proof.
  unfold waste_requests. rewrite !Forall_app.
  repeat split; apply waste_request_body.
Qed.

Lemma identified_is_truthy p :
  truthy (get_ID_or_id p) = true -> truthy (JDict p) = true.
Proof. destruct p; [discriminate|reflexivity]. Qed.

Lemma collect_signers_captain captain chef :
  truthy (get_ID_or_id captain) = true ->
  head (collect_signers (Some captain) chef) = Some (get_ID_or_id captain).
Proof.
  intros H. unfold collect_signers.
  assert (Hc : add_signer (Some captain) [] = [get_ID_or_id captain]).
  { unfold add_signer. rewrite (identified_is_truthy _ H), H. reflexivity. }
  rewrite Hc. unfold add_signer.
  destruct chef as [p|]; [|reflexivity].
  destruct (truthy (JDict p)); [|reflexivity].
  destruct (truthy (get_ID_or_id p)); reflexivity.
Qed.

Lemma collect_signers_chef captain chef :
  truthy (get_ID_or_id chef) = true ->
  last (collect_signers captain (Some chef)) = Some (get_ID_or_id chef).
Proof.
  intros H. unfold collect_signers.
  assert (Hc : forall l, add_signer (Some chef) l = l ++ [get_ID_or_id chef]).
  { intros l. unfold add_signer.
    rewrite (identified_is_truthy _ H), H. reflexivity. }
  rewrite Hc. destruct (add_signer captain []) as [|x l]; [reflexivity|].
  cbn [app]. rewrite app_comm_cons. apply last_snoc.
Qed.

Lemma loop_requests_owner owner_id captains chefs vessels :
  Forall (fun q => req_endpoint q = "/vessels" ->
                   exists body, req_body q = Some body /\
                                dict_get body "ownerId" = owner_id)
         (loop_requests owner_id captains chefs vessels).
Proof.
  unfold loop_requests. rewrite !Forall_app. repeat split;
    apply Forall_forall; intros q Hq; apply list_elem_of_In, in_map_iff in Hq;
    destruct Hq as (name & <- & _).
  - discriminate.
  - discriminate.
  - intros _. eexists. split; reflexivity.
Qed.

(** C1, as amended: for a vessel, a signer, the system user and the
    unknown owner the identifier is [x.get('ID') or x.get('id')], and for
    the compliance record it is [x.get('id') or x.get('ID')]: a truthy
    identifier under the key read first is returned, and otherwise
    whatever the other key holds. These are the identifiers the runs
    send. A run of [create_compliance_manifest] on a resolved vessel
    sends the compliance creation with the vessel's identifier, the
    default inspector's, and the captain's and the chef's as first and
    last signer; every waste creation that follows carries the vessel's
    identifier, and, the compliance identifier being truthy under either
    key, the wastes are sent with it as [complianceId]. A bootstrap pass
    whose owner creation brought an owner sends every vessel creation
    with that owner's identifier as [ownerId]. *)
Theorem identifier_read_under_both_casings :
  (forall x, truthy (dict_get x "ID") = true ->
             get_ID_or_id x = dict_get x "ID") /\
  (forall x, truthy (dict_get x "ID") = false ->
             get_ID_or_id x = dict_get x "id") /\
  (forall md st vessel,
      find_or_create_vessel (self st) (vessel_name md) = Some vessel ->
      truthy (JDict vessel) = true ->
      exists b w' x ws signers,
        create_compliance_manifest md st
        = (Ok b, mk_state (self st) w' (exchanges st ++ x :: ws)) /\
        is_post "/compliances" x /\
        sends x "vesselId" (get_ID_or_id vessel) /\
        sends x "systemUserId"
              (get_ID_or_id (get_default_inspector (self st))) /\
        sends x "signersIds" (JList signers) /\
        (forall captain,
            find_or_create_person (self st) (captain_name md) = Some captain ->
            truthy (get_ID_or_id captain) = true ->
            head signers = Some (get_ID_or_id captain)) /\
        (forall chef,
            find_or_create_person (self st) (chef_name md) = Some chef ->
            truthy (get_ID_or_id chef) = true ->
            last signers = Some (get_ID_or_id chef)) /\
        Forall (fun w => is_post "/wastes" w /\
                         sends w "vesselId" (get_ID_or_id vessel)) ws /\
        (forall r c,
            x.2 = Some (JDict r) ->
            truthy (dict_get r "success") = true ->
            dict_get r "data" = JDict c ->
            let cid := py_or (dict_get c "id") (dict_get c "ID") in
            truthy cid = true ->
            (truthy (dict_get c "id") = true -> cid = dict_get c "id") /\
            (truthy (dict_get c "id") = false -> cid = dict_get c "ID") /\
            map fst ws `prefix_of` waste_requests (self st) vessel md cid /\
            (Forall (fun w => readable w.2) ws ->
             b = true /\
             map fst ws = waste_requests (self st) vessel md cid) /\
            Forall (fun w => sends w "complianceId" cid) ws)) /\
  (forall df max_records kept st,
      kept_rows df 0 max_records = Ok kept ->
      Forall raw_row kept ->
      exists r w' response rest,
        setup_base_entities df max_records st
        = (Ok r, mk_state (self st) w'
                   (exchanges st ++ (owner_request, response) :: rest)) /\
        forall owner,
          created response = Some owner ->
          Forall (fun x => is_post "/vessels" x ->
                           sends x "ownerId" (get_ID_or_id owner)) rest /\
          (Forall (fun x => in_schema x.2) rest ->
           forall name,
             name ∈ column_names kept "Vessel Name" ->
             exists x, x ∈ rest /\
                       x.1 = vessel_request (get_ID_or_id owner) name)).
Proof.
  split; [intros x H; unfold get_ID_or_id, py_or; rewrite H; reflexivity|].
  split; [intros x H; unfold get_ID_or_id, py_or; rewrite H; reflexivity|].
  split.
  - intros md st vessel Hv Ht.
    destruct (create_compliance_manifest_resolved md st vessel Hv Ht)
      as (b & ws & w' & E & Hfail & Hok & _).
    set (req := compliance_request (self st) vessel md) in *.
    set (response := (answer (world st) req).1) in *.
    exists b, w', (req, response), ws,
      (collect_signers (find_or_create_person (self st) (captain_name md))
                       (find_or_create_person (self st) (chef_name md))).
    split; [exact E|]. split; [split; reflexivity|].
    split; [eexists; split; reflexivity|].
    split; [eexists; split; reflexivity|].
    split; [eexists; split; reflexivity|].
    split; [intros captain -> Hc; apply collect_signers_captain, Hc|].
    split; [intros chef -> Hc; apply collect_signers_chef, Hc|].
    assert (Hbody : forall cid,
               map fst ws `prefix_of` waste_requests (self st) vessel md cid ->
               Forall (fun w => is_post "/wastes" w /\
                                sends w "vesselId" (get_ID_or_id vessel) /\
                                sends w "complianceId" cid) ws).
    { intros cid [k Hk].
      pose proof (waste_requests_shape (self st) vessel md cid) as [HS _].
      pose proof (waste_requests_body (self st) vessel md cid) as HB.
      rewrite Hk in HS, HB. apply Forall_app in HS, HB.
      destruct HS as [HS _], HB as [HB _]. rewrite Forall_map in HS, HB.
      apply Forall_forall. intros w Hw.
      rewrite Forall_forall in HS, HB.
      specialize (HS w Hw). specialize (HB w Hw).
      destruct HB as (body & Hb1 & Hb2 & Hb3).
      split; [exact HS|]. split; exists body; split; assumption. }
    split.
    + destruct (compliance_created response) eqn:Hc.
      * destruct (compliance_created_id _ Hc) as [Hs [cid Hi]].
        destruct (Hok cid Hs Hi) as (Hp & _).
        eapply Forall_impl; [exact (Hbody cid Hp)|].
        intros w (H1 & H2 & _). split; assumption.
      * destruct (Hfail eq_refl) as [-> _]. constructor.
    + intros r c Hr Hs Hd cid Hc. cbn [snd] in Hr.
      assert (Hhas : response_has response "success" = Ok true).
      { rewrite Hr. unfold response_has, py_get.
        destruct r as [|kv r']; [discriminate Hs|].
        cbn [truthy]. rewrite Hs. reflexivity. }
      assert (Hid : compliance_id response = Some cid).
      { rewrite Hr. unfold compliance_id. rewrite Hd. fold cid.
        rewrite Hc. reflexivity. }
      destruct (Hok cid Hhas Hid) as (Hp & Hb & Hall).
      split; [intros H; unfold cid, py_or; rewrite H; reflexivity|].
      split; [intros H; unfold cid, py_or; rewrite H; reflexivity|].
      split; [exact Hp|].
      split.
      * intros HF. apply Hb in HF. split; [exact HF|apply Hall, HF].
      * eapply Forall_impl; [exact (Hbody cid Hp)|].
        intros w (_ & _ & H3). exact H3.
  - intros df max_records kept st Hkept Hraw.
    destruct (setup_base_entities_run df max_records kept st Hkept Hraw)
      as (r & w' & rest & E & _ & Hsome).
    exists r, w', (answer (world st) owner_request).1, rest.
    split; [exact E|].
    intros owner Ho. destruct (Hsome owner Ho) as (Hpre & Hall & _).
    split.
    + destruct Hpre as [k Hk].
      pose proof (loop_requests_owner (get_ID_or_id owner)
                    (set_iter (column_names kept "Captain Full Name"))
                    (set_iter (column_names kept "Chef Full Name"))
                    (set_iter (column_names kept "Vessel Name"))) as HB.
      rewrite Hk in HB. apply Forall_app in HB. destruct HB as [HB _].
      rewrite Forall_map in HB. eapply Forall_impl; [exact HB|].
      intros x H [_ He]. exact (H He).
    + intros HF name Hname. destruct (Hall HF) as [Hm _].
      assert (Hin : vessel_request (get_ID_or_id owner) name ∈ map fst rest).
      { rewrite Hm. unfold loop_requests. rewrite !elem_of_app.
        right. right. apply list_elem_of_fmap. exists name.
        split; [reflexivity|].
        rewrite (set_iter_elements (column_names kept "Vessel Name")).
        apply elem_of_elements, Hname. }
      apply list_elem_of_fmap in Hin. destruct Hin as (x & Hx & Hxin).
      exists x. split; [exact Hxin|]. symmetry. exact Hx.
Qed.

End Digitizer.

Arguments ret {World A} a st.
Arguments bind {World A B} m k st.
Arguments for_each {World A} l body st.
Arguments answer {World} http w req.
Arguments _make_request {World} http method endpoint data st.
Arguments load_entities_cache {World} http st.
Arguments create_waste {World} http vessel manifest_data compliance_id
  quantity type_name waste_records_created st.
Arguments create_compliance_manifest {World} http manifest_data st.
Arguments format_date {World} utcnow date_str st.
Arguments parse_manifest {World} float_repr utcnow row st.
Arguments process_row {World} float_repr http utcnow row st.
Arguments process_raw_data {World} float_repr http utcnow df start_from
  max_records st.
Arguments create_person_batch {World} http name person_type_id contact_info st.
Arguments create_vessel_batch {World} http vessel_name vessel_type owner_id st.
Arguments create_entities {World} http set_iter u st.
Arguments setup_base_entities {World} float_repr http set_iter df
  max_records st.

(* ===================================================================== *)
(** * Counterexamples, and the theorems at work on the sample data       *)
(* ===================================================================== *)

(** Where the claim of C1 fails: a waste type is read under the lowercase
    key only, so the identifier of [aceite], which comes under [ID], does
    not reach the waste creation request of the sample row; and a vessel
    whose identifier is 0 has it read as absent. *)
Lemma identifier_missed_counterexample :
  dict_get aceite "ID" = JInt 7 /\
  (let st := mk_state sample_digitizer
               [success [("id", JInt 11)]; success [("id", JInt 12)]] [] in
   let st' := (process_row no_floats scripted (frozen noon) sample_row st).2 in
   map (fun x : request * option json =>
          (req_endpoint x.1,
           match req_body x.1 with
           | Some body => dict_get body "wasteTypeId"
           | None => JNone
           end))
       (exchanges st')
   = [("/compliances", JNone); ("/wastes", JNone)]) /\
  dict_get [("ID", JInt 0)] "ID" = JInt 0 /\
  get_ID_or_id [("ID", JInt 0)] = JNone.
Proof. vm_compute. repeat split; reflexivity. Qed.

(** The end-to-end scenario of the specification: one compliance
    creation signed by John Doe, then one waste creation for the oil,
    50.0 of it, and the row counted successful. *)
Example sample_row_end_to_end :
  let st := mk_state sample_digitizer
              [success [("id", JInt 11)]; success [("id", JInt 12)]] [] in
  let st' := (process_row no_floats scripted (frozen noon) sample_row st).2 in
  the_stats (self st') = mk_stats 1 1 0 0 /\
  map (fun x : request * option json =>
         (req_endpoint x.1,
          match req_body x.1 with
          | Some body =>
              (dict_get body "signersIds", dict_get body "quantityGenerated")
          | None => (JNone, JNone)
          end))
      (exchanges st')
  = [("/compliances", (JList [JInt 5], JNone));
     ("/wastes", (JNone, JFloat (float_of_Z 50)))].
Proof. vm_compute. split; reflexivity. Qed.

(** Where the claim of C3 fails: with an empty vessel cache, a row that
    reports no waste is skipped, not failed. *)
Lemma idle_row_counterexample :
  vessels_cache init = ∅ /\
  (let st := mk_state init ([] : script) [] in
   let st' := (process_row no_floats scripted (frozen noon) idle_row st).2 in
   failed (the_stats (self st')) <> failed (the_stats (self st)) + 1 /\
   skipped (the_stats (self st')) = skipped (the_stats (self st)) + 1 /\
   exchanges st' = []).
Proof. split; [reflexivity|]. vm_compute. repeat split; congruence. Qed.

(** Where the claim of C6 fails: the compliance record of the sample row
    is created, with identifier 11, and its one waste creation is
    answered with a list in place of an object. The test for the success
    indicator raises on it, and the row is counted failed. *)
Lemma unreadable_waste_response_counterexample :
  let st := mk_state sample_digitizer
              [success [("id", JInt 11)]; Some (JList [JStr "error"])] [] in
  let st' := (process_row no_floats scripted (frozen noon) sample_row st).2 in
  map (fun x : request * option json =>
         (req_endpoint x.1, compliance_created x.2, compliance_id x.2))
      (exchanges st')
  = [("/compliances", true, Some (JInt 11)); ("/wastes", false, None)] /\
  successful (the_stats (self st')) = successful (the_stats (self st)) /\
  failed (the_stats (self st')) = failed (the_stats (self st)) + 1.
Proof. vm_compute. repeat split; reflexivity. Qed.

(** The sample row, its compliance record created and its waste
    creation left without a response. *)
Lemma created_compliance_makes_row_successful_witness :
  let st := mk_state sample_digitizer [success [("id", JInt 11)]; None] [] in
  exists w' x ws d',
    process_row no_floats scripted (frozen noon) sample_row st
    = (Ok tt, mk_state d' w' (exchanges st ++ x :: ws)) /\
    is_post "/compliances" x /\
    Forall (is_post "/wastes") ws /\
    processed (the_stats d') = processed (the_stats (self st)) + 1 /\
    skipped (the_stats d') = skipped (the_stats (self st)) /\
    (compliance_created x.2 = true ->
     (Forall (fun w => readable w.2) ws ->
      successful (the_stats d') = successful (the_stats (self st)) + 1 /\
      failed (the_stats d') = failed (the_stats (self st))) /\
     (~ Forall (fun w => readable w.2) ws ->
      successful (the_stats d') = successful (the_stats (self st)) /\
      failed (the_stats d') = failed (the_stats (self st)) + 1)).
Proof.
  apply (created_compliance_makes_row_successful script no_floats scripted
           (frozen noon) sample_row
           (mk_state sample_digitizer [success [("id", JInt 11)]; None] [])
           atlantic_star).
  - apply (bool_decide_unpack _). vm_compute. exact I.
  - vm_compute. reflexivity.
  - vm_compute. reflexivity.
  - vm_compute. reflexivity.
Defined.

(** The manifest of the sample vessel with John Doe as captain and as
    chef, against a backend that gives the compliance identifier under
    [ID]. *)
Lemma identifier_read_under_both_casings_witness :
  let st := mk_state sample_digitizer
              [success [("ID", JInt 11)]; success [("id", JInt 12)]] [] in
  let md := one_signer_manifest in
  let vessel := atlantic_star in
  exists b w' x ws signers,
    create_compliance_manifest scripted md st
    = (Ok b, mk_state (self st) w' (exchanges st ++ x :: ws)) /\
    is_post "/compliances" x /\
    sends x "vesselId" (get_ID_or_id vessel) /\
    sends x "systemUserId"
          (get_ID_or_id (get_default_inspector (self st))) /\
    sends x "signersIds" (JList signers) /\
    (forall captain,
        find_or_create_person (self st) (captain_name md) = Some captain ->
        truthy (get_ID_or_id captain) = true ->
        head signers = Some (get_ID_or_id captain)) /\
    (forall chef,
        find_or_create_person (self st) (chef_name md) = Some chef ->
        truthy (get_ID_or_id chef) = true ->
        last signers = Some (get_ID_or_id chef)) /\
    Forall (fun w => is_post "/wastes" w /\
                     sends w "vesselId" (get_ID_or_id vessel)) ws /\
    (forall r c,
        x.2 = Some (JDict r) ->
        truthy (dict_get r "success") = true ->
        dict_get r "data" = JDict c ->
        let cid := py_or (dict_get c "id") (dict_get c "ID") in
        truthy cid = true ->
        (truthy (dict_get c "id") = true -> cid = dict_get c "id") /\
        (truthy (dict_get c "id") = false -> cid = dict_get c "ID") /\
        map fst ws `prefix_of` waste_requests (self st) vessel md cid /\
        (Forall (fun w => readable w.2) ws ->
         b = true /\
         map fst ws = waste_requests (self st) vessel md cid) /\
        Forall (fun w => sends w "complianceId" cid) ws).
Proof.
  apply (proj1 (proj2 (proj2
           (identifier_read_under_both_casings script no_floats scripted
              elements (fun names => reflexivity (elements names)))))
           one_signer_manifest
           (mk_state sample_digitizer
              [success [("ID", JInt 11)]; success [("id", JInt 12)]] [])
           atlantic_star);
    vm_compute; reflexivity.
Defined.

(** A compliance record whose identifier comes under [ID]: the oil
    waste of the manifest is sent with it. *)
Example uppercase_compliance_id_scenario :
  let st := mk_state sample_digitizer
              [success [("ID", JInt 11)]; success [("id", JInt 12)]] [] in
  let run := create_compliance_manifest scripted unsigned_manifest st in
  run.1 = Ok true /\
  map (fun x : request * option json =>
         (req_endpoint x.1,
          match req_body x.1 with
          | Some body => dict_get body "complianceId"
          | None => JNone
          end))
      (exchanges run.2)
  = [("/compliances", JNone); ("/wastes", JInt 11)].
Proof. vm_compute. split; reflexivity. Qed.

Lemma sample_rows_are_raw :
  raw_row idle_row /\ raw_row ghost_row /\ raw_row sample_row.
Proof.
  repeat split; apply (bool_decide_unpack _); vm_compute; exact I.
Qed.

Lemma zero_waste_row_is_skipped_witness :
  let st := mk_state init ([] : script) [] in
  exists st',
    process_row no_floats scripted (frozen noon) idle_row st = (Ok tt, st') /\
    exchanges st' = exchanges st /\
    skipped (the_stats (self st')) = skipped (the_stats (self st)) + 1 /\
    successful (the_stats (self st')) = successful (the_stats (self st)) /\
    failed (the_stats (self st')) = failed (the_stats (self st)) /\
    processed (the_stats (self st')) = processed (the_stats (self st)) + 1.
Proof.
  apply (zero_waste_row_is_skipped script no_floats scripted (frozen noon)
           idle_row (mk_state init [] [])).
  - apply (bool_decide_unpack _). vm_compute. exact I.
  - vm_compute. reflexivity.
  - vm_compute. reflexivity.
  - vm_compute. reflexivity.
  - vm_compute. reflexivity.
Defined.

Lemma unresolved_vessel_fails_unskipped_row_witness :
  let st := mk_state init ([] : script) [] in
  exists st',
    process_row no_floats scripted (frozen noon) ghost_row st = (Ok tt, st') /\
    exchanges st' = exchanges st /\
    failed (the_stats (self st')) = failed (the_stats (self st)) + 1 /\
    successful (the_stats (self st')) = successful (the_stats (self st)) /\
    skipped (the_stats (self st')) = skipped (the_stats (self st)) /\
    processed (the_stats (self st')) = processed (the_stats (self st)) + 1.
Proof.
  apply (unresolved_vessel_fails_unskipped_row script no_floats scripted
           (frozen noon) ghost_row (mk_state init [] [])).
  - apply (bool_decide_unpack _). vm_compute. exact I.
  - vm_compute. reflexivity.
  - vm_compute. reflexivity.
Defined.

Lemma unresolved_signers_fall_back_to_default_witness :
  let st := mk_state sample_digitizer [success [("id", JInt 11)]; None] [] in
  exists b w' xs,
    create_compliance_manifest scripted unsigned_manifest st
    = (Ok b, mk_state (self st) w' (exchanges st ++ xs)) /\
    (forall x,
        x ∈ xs -> is_post "/compliances" x ->
        exists body, req_body x.1 = Some body /\
                     dict_get body "signersIds" = JList [JInt 1]) /\
    (found (find_or_create_vessel (self st) (vessel_name unsigned_manifest))
     = true ->
     exists x, head xs = Some x /\ is_post "/compliances" x).
Proof.
  apply (unresolved_signers_fall_back_to_default script scripted
           unsigned_manifest
           (mk_state sample_digitizer [success [("id", JInt 11)]; None] [])).
  - vm_compute. reflexivity.
  - vm_compute. reflexivity.
Defined.



(** What the scenario sends: the owner, two captains, one chef, two
    vessels owned by the owner, the failed captain creation stopping
    nothing. *)
Example bootstrap_scenario :
  let st := mk_state init
              [success [("ID", JInt 1)]; None; success [("id", JInt 2)];
               success [("id", JInt 4)]; success [("id", JInt 9)];
               success [("id", JInt 10)]] [] in
  let run := setup_base_entities no_floats scripted elements three_rows None st in
  run.1 = Ok (SetupDone 1 1 2) /\
  map (fun x : request * option json =>
         (req_endpoint x.1,
          match req_body x.1 with
          | Some body => (py_or (dict_get body "name")
                                (dict_get body "vesselName"),
                          dict_get body "ownerId")
          | None => (JNone, JNone)
          end))
      (exchanges run.2)
  = [("/persons", (JStr "Unknown Owner", JNone));
     ("/persons", (JStr "John Doe", JNone));
     ("/persons", (JStr "Luis Mora", JNone));
     ("/persons", (JStr "Ana Ruiz", JNone));
     ("/vessels", (JStr "Estrella", JInt 1));
     ("/vessels", (JStr "Atlantic Star", JInt 1))].
Proof. vm_compute. split; reflexivity. Qed.

(** The first numeral of a text stops where a second dot begins. *)
Example first_numeral_of_version :
  first_numeral (list_ascii_of_string "v 12.50.3 kg")
                (list_ascii_of_string "12.50").
Proof.
  exists (list_ascii_of_string "v "), (list_ascii_of_string ".3 kg").
  split; [reflexivity|]. split; [repeat constructor|]. split.
  - apply (numeral_dec (list_ascii_of_string "12") (list_ascii_of_string "50"));
      (split; [discriminate|repeat constructor]).
  - intros ext rest E Hne Hnum.
    destruct ext as [|c ext]; [congruence|].
    injection E as <- _.
    assert (Hdot : is_digit "." = false) by reflexivity.
    inversion Hnum as [ip [_ Hip] Heq|ip fp [_ Hip] [_ Hfp] Heq].
    + simpl in Hip. rewrite !Forall_cons in Hip. intuition congruence.
    + destruct ip as [|a [|b [|c ip]]]; simpl in Heq; try discriminate Heq.
      * injection Heq as _ _ Heq. subst fp.
        rewrite !Forall_cons in Hfp. intuition congruence.
      * injection Heq as _ _ Heq _. subst c.
        rewrite !Forall_cons in Hip. intuition congruence.
Qed.

Example format_date_examples :
  (format_date (frozen noon) "2024/03/15" (mk_state init [] [])).1
  = Ok "2024-03-15T00:00:00+00:00"%string /\
  (format_date (frozen noon) "2024-03-15" (mk_state init [] [])).1
  = Ok "2024-03-15T00:00:00+00:00"%string /\
  (format_date (frozen noon) "15/03/2024" (mk_state init [] [])).1
  = Ok "2024-06-01T12:00:00+00:00"%string /\
  (format_date (frozen noon) "2024-02-30" (mk_state init [] [])).1
  = Ok "2024-06-01T12:00:00+00:00"%string.
Proof. vm_compute. repeat split; reflexivity. Qed.

(** [float] rounds to the nearest binary64 value, ties to even; it
    overflows to infinity and underflows to zero. *)
Example float_of_numeral_examples :
  float_of_numeral (list_ascii_of_string "0.1")
  = S754_finite false 7205759403792794 (-56) /\
  float_of_numeral (list_ascii_of_string "2.675")
  = S754_finite false 6023564501608038 (-51) /\
  float_of_numeral (list_ascii_of_string "9007199254740993")
  = S754_finite false 4503599627370496 1 /\
  float_of_numeral (list_ascii_of_string "007") = float_of_Z 7 /\
  float_of_numeral ("1"%char :: repeat "0"%char 400) = S754_infinity false /\
  float_of_numeral ("0"%char :: "."%char :: repeat "0"%char 400 ++ ["1"%char])
  = f_zero.
Proof. vm_compute. repeat split; reflexivity. Qed.

(** Cells that are not text: numbers are printed and searched like text,
    so the sign of a negative number is lost; zero, false and missing
    cells give 0.0 without a search. *)
Example clean_numeric_value_cells :
  clean_numeric_value no_floats (CInt 12) = float_of_Z 12 /\
  clean_numeric_value no_floats (CInt (-5)) = float_of_Z 5 /\
  clean_numeric_value no_floats (CInt 0) = f_zero /\
  clean_numeric_value no_floats (CBool true) = f_zero /\
  clean_numeric_value no_floats missing = f_zero /\
  clean_numeric_value no_floats (CStr "  aprox. 3.5 kg (2 bolsas)")
  = float_of_numeral (list_ascii_of_string "3.5").
Proof. vm_compute. repeat split; reflexivity. Qed.

(* ===================================================================== *)
(** * Further scenarios                                                   *)
(* ===================================================================== *)

Arguments ask {World} input st.
Arguments main {World} float_repr http utcnow set_iter input py_int rawdata w.

(** A padded vessel name, resolved against the sample cache. *)
Lemma resolvers_ignore_surrounding_blanks_witness :
  let padded :=
    string_of_list_ascii
      (list_ascii_of_string "  " ++ list_ascii_of_string "Atlantic Star" ++
       list_ascii_of_string " ") in
  find_or_create_vessel sample_digitizer padded
  = find_or_create_vessel sample_digitizer "Atlantic Star" /\
  get_waste_type_by_name sample_digitizer padded
  = get_waste_type_by_name sample_digitizer "Atlantic Star" /\
  find_or_create_person sample_digitizer padded
  = find_or_create_person sample_digitizer "Atlantic Star".
Proof.
  apply (resolvers_ignore_surrounding_blanks sample_digitizer "Atlantic Star"
           (list_ascii_of_string "  ") (list_ascii_of_string " "));
    repeat constructor.
Defined.

(** A cache load in which a vessel and a system user are listed twice,
    under two spellings of their names: the later listing is the one
    found, and the inspector is the user listed last under the key of
    the first. *)
Example cache_load_scenario :
  let st := mk_state init
              [listing [atlantic_star; atlantic_star_again]; None; None;
               listing [inspector_ana; inspector_bob; inspector_ana_again]]
              [] in
  let run := load_entities_cache scripted st in
  run.1 = Ok tt /\
  map fst (exchanges run.2) = cache_requests /\
  find_or_create_vessel (self run.2) "Atlantic star" = Some atlantic_star_again /\
  get_default_inspector (self run.2) = inspector_ana_again.
Proof. vm_compute. repeat split; reflexivity. Qed.


(** A manifest whose oil quantity overflowed to infinity: the waste
    creation cannot be serialised, [_make_request] gives [None] for it
    without asking the backend, whose next response is still to come,
    and the manifest is reported created. *)
Example infinite_quantity_scenario :
  let md := mk_manifest "Atlantic Star" "2024-01-10T00:00:00+00:00"
                        (S754_infinity false) f_zero f_zero f_zero "" "" "" in
  let st := mk_state sample_digitizer
              [success [("id", JInt 11)]; success [("id", JInt 12)]] [] in
  let run := create_compliance_manifest scripted md st in
  run.1 = Ok true /\
  map (fun x : request * option json => (req_endpoint x.1, x.2))
      (exchanges run.2)
  = [("/compliances", success [("id", JInt 11)]); ("/wastes", None)] /\
  world run.2 = [success [("id", JInt 12)]].
Proof. vm_compute. repeat split; reflexivity. Qed.

(** One person as captain and as chef: the identifier 5 comes twice. *)
Lemma signers_are_captain_then_chef_witness :
  let st := mk_state sample_digitizer [success [("id", JInt 11)]; None] [] in
  exists b w' x ws body,
    create_compliance_manifest scripted one_signer_manifest st
    = (Ok b, mk_state (self st) w' (exchanges st ++ x :: ws)) /\
    is_post "/compliances" x /\
    req_body x.1 = Some body /\
    dict_get body "signersIds" = JList [JInt 5; JInt 5] /\
    dict_get body "systemUserId"
    = get_ID_or_id (get_default_inspector (self st)).
Proof.
  apply (signers_are_captain_then_chef script scripted one_signer_manifest
           (mk_state sample_digitizer [success [("id", JInt 11)]; None] [])
           atlantic_star john_doe john_doe);
    vm_compute; reflexivity.
Defined.

(** The first two of the three sample rows. *)
Lemma kept_rows_are_filtered_witness :
  let kept := take 2 three_rows in
  kept `sublist_of` three_rows /\
  Forall (fun row : series =>
            ~ all_missing row /\
            exists c, row !! "Vessel Name" = Some c /\ is_test_name c = false)
         kept /\
  (forall n, Some 2 = Some n -> 0 < n -> Z.of_nat (length kept) <= n) /\
  kept_rows three_rows 0 (Some 0) = kept_rows three_rows 0 None.
Proof.
  apply (kept_rows_are_filtered three_rows 0 (Some 2) (take 2 three_rows)).
  vm_compute. reflexivity.
Defined.

(** The fifth of March 2024, written without leading zeros. *)
Lemma format_date_accepts_unpadded_witness :
  let st := mk_state init ([] : script) [] in
  format_date (frozen noon) (date_text_unpadded "/" 2024 3 5) st
  = (Ok (iso_midnight 2024 3 5), st) /\
  format_date (frozen noon) (date_text_unpadded "-" 2024 3 5) st
  = (Ok (iso_midnight 2024 3 5), st).
Proof.
  apply (format_date_accepts_unpadded script (frozen noon) 2024 3 5
           (mk_state init ([] : script) [])).
  reflexivity.
Defined.

(** A date with its time of day. *)
Lemma format_date_rejects_trailing_text_witness :
  let st := mk_state init ([] : script) [] in
  let extra := list_ascii_of_string " 08:30:00" in
  let now := (isoformat (frozen noon (world st)).1,
              mk_state (self st) (frozen noon (world st)).2 (exchanges st)) in
  format_date (frozen noon)
    (string_of_list_ascii
       (list_ascii_of_string (date_text "/" 2024 3 5) ++ extra)) st
  = (Ok now.1, now.2) /\
  format_date (frozen noon)
    (string_of_list_ascii
       (list_ascii_of_string (date_text "-" 2024 3 5) ++ extra)) st
  = (Ok now.1, now.2).
Proof.
  apply (format_date_rejects_trailing_text script (frozen noon) 2024 3 5
           (list_ascii_of_string " 08:30:00")
           (mk_state init ([] : script) []));
    [reflexivity|discriminate].
Defined.

(** The bootstrap pass over the three sample rows, in which the creation
    of one captain fails. *)
Lemma bootstrap_counts_created_entities_witness :
  let st := mk_state init
              [success [("ID", JInt 1)]; None; success [("id", JInt 2)];
               success [("id", JInt 4)]; success [("id", JInt 9)];
               success [("id", JInt 10)]] [] in
  let st' := (setup_base_entities no_floats scripted elements three_rows None
                st).2 in
  exists u owner cs hs vs,
    collect_unique no_floats three_rows None = Ok u /\
    self st' = self st /\
    exchanges st'
    = exchanges st ++
      (person_request "Unknown Owner" PROPIETARIO_TYPE "Default vessel owner",
       owner) :: cs ++ hs ++ vs /\
    created owner <> None /\
    length cs = length (elements (unique_captains u)) /\
    length hs = length (elements (unique_chefs u)) /\
    length vs = length (elements (unique_vessels u)) /\
    Forall (is_post "/persons") cs /\
    Forall (is_post "/persons") hs /\
    Forall (is_post "/vessels") vs /\
    1 = creations cs /\ 1 = creations hs /\ 2 = creations vs.
Proof.
  apply (bootstrap_counts_created_entities script no_floats scripted elements
           three_rows None).
  vm_compute. reflexivity.
Defined.

(** An answer that is no choice. *)
Lemma main_without_a_choice_sends_nothing_witness :
  let w : console := ([" 4 "], [success [("ID", JInt 1)]]) in
  main no_floats served (still noon) elements typed decimal_int three_rows w
  = (match (typed w).1 with Some _ => Returned | None => UncaughtEOFError end,
     mk_state init (typed w).2 []).
Proof.
  apply (main_without_a_choice_sends_nothing console no_floats served
           (still noon) elements typed decimal_int three_rows
           ([" 4 "], [success [("ID", JInt 1)]])).
  vm_compute. repeat split; discriminate.
Defined.

(** The first mode, over the three sample rows. *)
Lemma main_modes_keep_to_their_requests_witness :
  let w : console := (["1"; ""], [success [("ID", JInt 1)]]) in
  let st' := (main no_floats served (still noon) elements typed decimal_int
                three_rows w).2 in
  (strip "1" = "1" ->
   self st' = init /\ Forall is_bootstrap (exchanges st')) /\
  (strip "1" = "2" -> Forall is_import (exchanges st')) /\
  (strip "1" = "3" ->
   exists xs ys,
     exchanges st' = xs ++ ys /\
     Forall is_bootstrap xs /\ Forall is_import ys /\
     (ys <> [] ->
      exists owner rest,
        xs = (owner_request, owner) :: rest /\ created owner <> None)).
Proof.
  apply (main_modes_keep_to_their_requests console no_floats served
           (still noon) elements typed decimal_int three_rows
           (["1"; ""], [success [("ID", JInt 1)]]) "1").
  reflexivity.
Defined.

(** The second mode, with both questions left unanswered. *)
Lemma main_imports_fifty_rows_by_default_witness :
  let w : console := (["2"; ""; " "], [listing [atlantic_star]]) in
  let w3 := (typed (typed (typed w).2).2).2 in
  let run := process_raw_data no_floats served (still noon) three_rows 0
               (Some 50) (mk_state init w3 []) in
  main no_floats served (still noon) elements typed decimal_int three_rows w
  = (Returned, run.2) /\
  0 <= processed (the_stats (self run.2)) <= 50.
Proof.
  apply (main_imports_fifty_rows_by_default console no_floats served
           (still noon) elements typed decimal_int three_rows
           (["2"; ""; " "], [listing [atlantic_star]]) "2" "" " ");
    reflexivity.
Defined.

(** The third mode over the three sample rows: the entities first, then
    the listings, then the one manifest whose vessel is listed. *)
Example main_full_scenario :
  let w : console :=
    (["3"; ""; ""],
     [success [("ID", JInt 1)]; success [("id", JInt 2)];
      success [("id", JInt 3)]; success [("id", JInt 4)];
      success [("id", JInt 9)]; success [("id", JInt 10)];
      listing [atlantic_star]; None; None; None;
      success [("id", JInt 11)]]) in
  let run := main no_floats served (still noon) elements typed decimal_int
               three_rows w in
  run.1 = Returned /\
  the_stats (self run.2) = mk_stats 3 1 1 1 /\
  map (fun x : request * option json => (req_method x.1, req_endpoint x.1))
      (exchanges run.2)
  = [(POST, "/persons"); (POST, "/persons"); (POST, "/persons");
     (POST, "/persons"); (POST, "/vessels"); (POST, "/vessels");
     (GET, "/vessels/0/1000"); (GET, "/persons/0/5000");
     (GET, "/wasteTypes/0/100"); (GET, "/systemUsers/0/100");
     (POST, "/compliances")].
Proof. vm_compute. repeat split; reflexivity. Qed.
